(** * Process-automation core of the fermenter control panel

    Shallow embedding of the automation logic of [TestGUI_3F_v5_cl.py]
    (and of the flow pipeline it shares with [TestCO2.py]): the flow
    linearizer, the DS18B20 read path, the calendar look-ups, the
    per-vessel thermal and dosing controllers and the CSV sinks.

    Numbers.  Python [float] values (temperatures, currents, durations)
    and naive [datetime] values are embedded as exact rationals [Q]; a
    [datetime] is the number of seconds since midnight of day 0.  Binary
    rounding of floats and the microsecond resolution of [datetime] are
    outside this model; where a property depends on the rounding, the
    function is also transcribed with binary64 operations ([Binary64]).
    The text keys produced by [strftime] are
    embedded by the quantities they encode one-to-one: the day number for
    ["%Y-%m-%d"], the minute number for ["%Y-%m-%d %H:%M"]; the
    time-of-day key ["%H:%M"] is kept as a string, because the code
    compares it as a string. *)

From Stdlib Require Import QArith Qminmax Qround ZArith List String Ascii Bool Lia Lqa.
From Stdlib Require Import Sorting.Sorted.
From Stdlib Require Floats.PrimFloat.
Import ListNotations.

Local Open Scope Q_scope.

(** Strict comparison on [Q] as a boolean, next to [Qle_bool]. *)
Definition Qlt_bool (a b : Q) : bool := negb (Qle_bool b a).

(** * Linearizer *)

Module Linearizer.

Section Config.

(** Module-level configuration read from the environment. *)
Variables FLOW_MIN_SCCM FLOW_MAX_SCCM SHUNT_OHMS : Q.

(** [voltage_to_current_ma]: [(voltage / shunt_ohms) * 1000.0].  A zero
    shunt raises [ZeroDivisionError], here [None]. *)
Definition voltage_to_current_ma (voltage shunt_ohms : Q) : option Q :=
  if Qeq_bool shunt_ohms 0 then None
  else Some ((voltage / shunt_ohms) * 1000).

(** [current_to_flow_sccm]. *)
Definition current_to_flow_sccm (current_ma : Q) : Q :=
  if Qle_bool FLOW_MAX_SCCM FLOW_MIN_SCCM then 0
  else
    let current_ma := Qmax 4 (Qmin 20 current_ma) in
    let span := 16 in
    FLOW_MIN_SCCM + (current_ma - 4) * (FLOW_MAX_SCCM - FLOW_MIN_SCCM) / span.

(** Status tag of a sample; the labels are the strings of the code. *)
Inductive status := OK | Bajo_rango | Alto_rango.

Definition status_label (s : status) : string :=
  match s with
  | OK => "OK"
  | Bajo_rango => "Bajo rango"
  | Alto_rango => "Alto rango"
  end.

(** A row of [flow_samples]: [(ts, flow, current_ma, voltage, status)]. *)
Record FlowSample := {
  fs_ts : Q;
  fs_flow : Q;
  fs_current_ma : Q;
  fs_voltage : Q;
  fs_status : status
}.

(** The status classification of [_flow_take_sample]. *)
Definition classify (current_ma : Q) : status :=
  if Qlt_bool current_ma (38 # 10) then Bajo_rango
  else if Qlt_bool (205 # 10) current_ma then Alto_rango
  else OK.

(** Per-channel sampling state: the ring and the next due time. *)
Record FlowChannel := {
  flow_samples : list FlowSample;
  flow_next_sample : option Q
}.

Definition MAX_FLOW_HISTORY_HOURS : Q := 24 * 21.

(** [_flow_take_sample] for a channel with a reader, at time [ts].
    [reading] is the result of [reader.read_voltage()], [None] when it
    raises; [period] is [flow_sample_period].  The outer [option] is
    [None] when the call itself raises (zero shunt). *)
Definition flow_take_sample (ch : FlowChannel) (ts : Q) (reading : option Q)
    (period : Q) : option FlowChannel :=
  match reading with
  | None =>
      Some {| flow_samples := flow_samples ch;
              flow_next_sample := Some (ts + period) |}
  | Some voltage =>
      match voltage_to_current_ma voltage SHUNT_OHMS with
      | None => None
      | Some current_ma =>
          let flow := current_to_flow_sccm current_ma in
          let status := classify current_ma in
          let samples :=
            flow_samples ch ++
            [ {| fs_ts := ts; fs_flow := flow; fs_current_ma := current_ma;
                 fs_voltage := voltage; fs_status := status |} ] in
          let cutoff := ts - MAX_FLOW_HISTORY_HOURS * 3600 in
          Some {| flow_samples :=
                    filter (fun row => Qle_bool cutoff (fs_ts row)) samples;
                  flow_next_sample := Some (ts + period) |}
      end
  end.

End Config.

End Linearizer.

(** * Linearizer in binary64 *)

Module Binary64.

Import PrimFloat.

Local Open Scope float_scope.

(** [current_to_flow_sccm] with the arithmetic of the program: every
    operation is the binary64 operation of Python's [float]; [min(a, b)] is
    [b] when [b < a] and [a] otherwise, [max(a, b)] is [b] when [a < b]. *)
Definition current_to_flow_sccm_b64
    (FLOW_MIN_SCCM FLOW_MAX_SCCM current_ma : float) : float :=
  if FLOW_MAX_SCCM <=? FLOW_MIN_SCCM then 0
  else
    let current_ma :=
      let m := if current_ma <? 20 then current_ma else 20 in
      if 4 <? m then m else 4 in
    let span := 16 in
    FLOW_MIN_SCCM + (current_ma - 4) * (FLOW_MAX_SCCM - FLOW_MIN_SCCM) / span.

(** The doubles Python reads from the texts ["0.3"] and ["0.9"], and the
    double it prints as [0.9000000000000001]. *)
Definition f_0_3 : float := 0x1.3333333333333p-2.
Definition f_0_9 : float := 0x1.ccccccccccccdp-1.
Definition f_0_9_up : float := 0x1.ccccccccccccep-1.

End Binary64.

(** * Time keys *)

Module Clock.

(** ["%Y-%m-%d %H:%M"] of a timestamp, as the number of the minute. *)
Definition minute_number (t : Q) : Z := Qfloor (t / 60).

(** [ymd(t.date())], as the number of the day. *)
Definition day_number (t : Q) : Z := (minute_number t / 1440)%Z.

(** Minute of the day, 0..1439. *)
Definition minute_of_day (t : Q) : nat := Z.to_nat (minute_number t mod 1440).

Definition digit (n : nat) : ascii := ascii_of_nat (48 + n).

(** Two decimal digits, zero padded, as ["%H"] and ["%M"] print them. *)
Definition pad2 (n : nat) (rest : string) : string :=
  String (digit (n / 10)) (String (digit (n mod 10)) rest).

(** The text ["HH:MM"] of [h] hours and [m] minutes. *)
Definition hhmm (h m : nat) : string :=
  pad2 h (String ":" (pad2 m EmptyString)).

(** [t.strftime("%H:%M")]. *)
Definition strftime_HM (t : Q) : string :=
  hhmm (minute_of_day t / 60) (minute_of_day t mod 60).

End Clock.

(** * Calendar look-ups *)

Module Calendar.

Import Clock.

(** A calendar event: [{"time": "HH:MM", "value": v}]. *)
Record event := { time : string; value : Q }.

(** A calendar: the dict from a day key to the list of its events. *)
Definition calendar := list (Z * list event).

(** [events_dict.get(key, [])]. *)
Fixpoint dict_get (events_dict : calendar) (key : Z) : list event :=
  match events_dict with
  | [] => []
  | (k, flist) :: rest => if Z.eqb k key then flist else dict_get rest key
  end.

(** Truth value of a string: it is not empty. *)
Definition truthy (s : string) : bool :=
  match s with EmptyString => false | String _ _ => true end.

(** Stable insertion for [sorted(..., key=lambda e: e["time"])]: the new
    head goes before the first element whose key is not smaller. *)
Fixpoint insert_by_time (e : event) (l : list event) : list event :=
  match l with
  | [] => [e]
  | y :: ys =>
      if String.leb (time e) (time y) then e :: l
      else y :: insert_by_time e ys
  end.

(** [sorted(l, key=lambda e: e["time"])], a stable sort on the string key. *)
Fixpoint sorted_by_time (l : list event) : list event :=
  match l with
  | [] => []
  | e :: rest => insert_by_time e (sorted_by_time rest)
  end.

(** [l[-1]] of a list, [None] when it is empty. *)
Fixpoint last_item {A : Type} (l : list A) : option A :=
  match l with
  | [] => None
  | [x] => Some x
  | _ :: rest => last_item rest
  end.

(** [sp_from_date_calendar(events_dict, t, default)]; Python's [None] is
    [None], a float [v] is [Some v]. *)
Definition sp_from_date_calendar (events_dict : calendar) (t : Q)
    (default : option Q) : option Q :=
  match events_dict with
  | [] => default
  | _ =>
      let key := day_number t in
      let flist := dict_get events_dict key in
      match flist with
      | [] => default
      | _ =>
          let hhmm_now := strftime_HM t in
          let todays :=
            filter (fun e => truthy (time e) && String.leb (time e) hhmm_now)
                   flist in
          match todays with
          | [] => default
          | _ =>
              let todays := sorted_by_time todays in
              match last_item todays with
              | Some e => Some (value e)
              | None => default
              end
          end
      end
  end.

(** [nut_fire_for_minute(events_dict, t)]. *)
Definition nut_fire_for_minute (events_dict : calendar) (t : Q) : list Q :=
  match events_dict with
  | [] => []
  | _ =>
      let key := day_number t in
      let flist := dict_get events_dict key in
      match flist with
      | [] => []
      | _ =>
          let hhmm_now := strftime_HM t in
          map value (filter (fun e => String.eqb (time e) hhmm_now) flist)
      end
  end.

(** Digits of a character, [None] when it is not an ASCII digit. *)
Definition digit_value (c : ascii) : option nat :=
  let n := nat_of_ascii c in
  if (48 <=? n)%nat && (n <=? 57)%nat then Some (n - 48)%nat else None.

(** Minute of the day written by a zero-padded ["HH:MM"] text, [None] for
    any other text. *)
Definition minutes_of (s : string) : option nat :=
  match s with
  | String a (String b (String c (String d (String e EmptyString)))) =>
      match digit_value a, digit_value b, digit_value d, digit_value e with
      | Some h1, Some h0, Some m1, Some m0 =>
          if Ascii.eqb c ":" && (10 * h1 + h0 <? 24)%nat && (10 * m1 + m0 <? 60)%nat
          then Some ((10 * h1 + h0) * 60 + (10 * m1 + m0))%nat
          else None
      | _, _, _, _ => None
      end
  | _ => None
  end.

(** The minute of the day an event stands for, and whether its time is
    written as a zero-padded ["HH:MM"]. *)
Definition key (e : event) : nat :=
  match minutes_of (time e) with Some m => m | None => 0%nat end.

Definition canonical (e : event) : Prop := minutes_of (time e) <> None.

(** [int(s)] on a run of one or more ASCII digits; [None] stands for
    [ValueError].  (Python's [int] accepts further spellings, signs and
    surrounding blanks among them; they are not needed here and are
    rejected by this definition.) *)
Fixpoint digits_value (acc : nat) (s : string) : option nat :=
  match s with
  | EmptyString => Some acc
  | String c rest =>
      match digit_value c with
      | Some d => digits_value (10 * acc + d) rest
      | None => None
      end
  end.

Definition py_int (s : string) : option nat :=
  match s with
  | EmptyString => None
  | _ => digits_value 0 s
  end.

(** [s.split(":")]. *)
Fixpoint split_colon (s : string) : list string :=
  match s with
  | EmptyString => [EmptyString]
  | String c rest =>
      if Ascii.eqb c ":" then EmptyString :: split_colon rest
      else match split_colon rest with
           | part :: parts => String c part :: parts
           | [] => [String c EmptyString]
           end
  end.

(** The hour and minute [hhmm_ok] reads off a text, [None] when the
    unpacking or an [int] raises. *)
Definition parse_hm (s : string) : option (nat * nat) :=
  match split_colon s with
  | [h; m] =>
      match py_int h, py_int m with
      | Some hv, Some mv => Some (hv, mv)
      | _, _ => None
      end
  | _ => None
  end.

(** [hhmm_ok], the check every calendar edit and import applies to the
    time of a new event. *)
Definition hhmm_ok (s : string) : bool :=
  match parse_hm s with
  | Some (h, m) => (h <=? 23)%nat && (m <=? 59)%nat
  | None => false
  end.

End Calendar.

(** * Hardware layer: the DS18B20 read path *)

Module Hardware.

(** The fields of [Hardware] that the temperature read uses, and the
    lines it prints: [console] holds, oldest first, the device named by
    each ["[HW] Error leyendo ..."] warning. *)
Record Hardware := {
  sim : bool;
  ds_devices : list string;
  last_temp_error : bool;
  sim_bias : list Q;
  console : list string
}.

(** [Hardware.__init__], for the given simulator flag, random biases and
    detected devices. *)
Definition init (simulador : bool) (bias : list Q) (devices : list string)
    : Hardware :=
  {| sim := simulador;
     ds_devices := if simulador then [] else devices;
     last_temp_error := false;
     sim_bias := bias;
     console := [] |}.

(** [needle in hay]. *)
Fixpoint contains (needle hay : string) : bool :=
  if String.prefix needle hay then true
  else match hay with
       | EmptyString => false
       | String _ rest => contains needle rest
       end.

(** [s.split("t=")[-1]]: what follows the last ["t="], all of [s] when
    there is none. *)
Fixpoint after_last_t (s : string) : option string :=
  match s with
  | EmptyString => None
  | String c rest =>
      match after_last_t rest with
      | Some r => Some r
      | None =>
          if String.prefix "t=" s
          then match rest with
               | String _ r => Some r
               | EmptyString => None
               end
          else None
      end
  end.

Definition split_t_last (s : string) : string :=
  match after_last_t s with Some r => r | None => s end.

(** ASCII white space as [str.strip] sees it. *)
Definition is_space (c : ascii) : bool :=
  let n := nat_of_ascii c in
  ((9 <=? n) && (n <=? 13) || (28 <=? n) && (n <=? 32))%nat.

Fixpoint lstrip (s : string) : string :=
  match s with
  | EmptyString => EmptyString
  | String c rest => if is_space c then lstrip rest else s
  end.

Fixpoint rstrip (s : string) : string :=
  match s with
  | EmptyString => EmptyString
  | String c rest =>
      match rstrip rest with
      | EmptyString => if is_space c then EmptyString else String c EmptyString
      | r => String c r
      end
  end.

Definition strip (s : string) : string := rstrip (lstrip s).

(** The 1-wire bus at the time of a read: the lines of [<dev>/w1_slave],
    [None] when the file cannot be opened or read. *)
Definition bus := string -> option (list string).

Section Read.

(** The builtin [float] on text, [None] when it raises [ValueError]. *)
Variable py_float : string -> option Q.

(** The [try] body of [read_temp_ds18b20]: the temperature, or [None]
    when an exception is raised. *)
Definition read_device (w1_slave : bus) (dev : string) : option Q :=
  match w1_slave dev with
  | None => None
  | Some lines =>
      match lines with
      | l0 :: l1 :: _ =>
          if negb (contains "YES" l0) then None
          else
            let temp_str := strip (split_t_last l1) in
            match py_float temp_str with
            | Some v => Some (v / 1000)
            | None => None
            end
      | _ => None
      end
  end.

(** [read_temp_ds18b20(index)]; [noise] is the draw of
    [random.uniform(-0.5, 0.5)] on the simulated path.  The [finally]
    clause runs on both exits of the [try] statement. *)
Definition read_temp_ds18b20 (hw : Hardware) (w1_slave : bus) (index : nat)
    (noise : Q) : Q * Hardware :=
  if sim hw || match ds_devices hw with [] => true | _ => false end then
    let base :=
      20 + List.nth (Nat.min index (List.length (sim_bias hw) - 1))
                    (sim_bias hw) 0 in
    (base + noise, hw)
  else
    let index :=
      if (List.length (ds_devices hw) <=? index)%nat
      then (List.length (ds_devices hw) - 1)%nat else index in
    let dev := List.nth index (ds_devices hw) EmptyString in
    match read_device w1_slave dev with
    | Some v =>
        (* finally *)
        (v, {| sim := sim hw; ds_devices := ds_devices hw;
               last_temp_error := false;
               sim_bias := sim_bias hw; console := console hw |})
    | None =>
        (* except *)
        let hw1 :=
          if negb (last_temp_error hw)
          then {| sim := sim hw; ds_devices := ds_devices hw;
                  last_temp_error := true;
                  sim_bias := sim_bias hw;
                  console := console hw ++ [dev] |}
          else hw in
        (* finally *)
        (20, {| sim := sim hw1; ds_devices := ds_devices hw1;
                last_temp_error := false;
                sim_bias := sim_bias hw1; console := console hw1 |})
    end.

(** Consecutive reads of the same probe, one bus state per read. *)
Fixpoint read_many (hw : Hardware) (index : nat) (buses : list bus)
    : list Q * Hardware :=
  match buses with
  | [] => ([], hw)
  | w1_slave :: rest =>
      let (v, hw1) := read_temp_ds18b20 hw w1_slave index 0 in
      let (vs, hw2) := read_many hw1 index rest in
      (v :: vs, hw2)
  end.

End Read.

(** A probe and a packet whose CRC line does not say YES. *)
Definition probe : string := "/sys/bus/w1/devices/28-000005e2fdc3".

Definition bad_crc : bus :=
  fun _ => Some ["4b 46 7f ff 0c 10 1c : crc=1c NO";
                 "4b 46 7f ff 0c 10 1c t=21375"]%string.

End Hardware.

(** * Fermenter panel: thermal and dosing controllers *)

Module Panel.

Import Clock Calendar.

(** Calls made on the hardware object by a panel. *)
Inductive hw_call :=
| Relay_on (pin : nat)
| Relay_off (pin : nat)
| Start_stepper (freq : Q)
| Stop_stepper.

(** The automation state of a [FermenterPanel].  [hw_calls] records, oldest
    first, the calls the panel made on [self.hw]; [last_min] is [_last_min]
    and [nut_led_on] is [_nut_led_on]. *)
Record Panel := {
  t : Q;
  sp : Q;
  band : Q;
  manual_mode : bool;
  cold_in : bool;
  hot_in : bool;
  cal_sp : calendar;
  cal_nut : calendar;
  nut_running_until : option Q;
  nut_led_on : bool;
  last_min : option Z;
  freq_nut : Q;
  manual_nut_on : bool;
  relay_cold : nat;
  relay_hot : nat;
  hw_calls : list hw_call
}.

(** [FermenterPanel.__init__], for the first temperature [t0] and the relay
    pins of the vessel. *)
Definition init (t0 : Q) (pin_cold pin_hot : nat) : Panel :=
  {| t := t0; sp := 20; band := 1 # 2; manual_mode := false;
     cold_in := false; hot_in := false;
     cal_sp := []; cal_nut := [];
     nut_running_until := None; nut_led_on := false; last_min := None;
     freq_nut := 8000; manual_nut_on := false;
     relay_cold := pin_cold; relay_hot := pin_hot; hw_calls := [] |}.

Definition set_t (p : Panel) (v : Q) : Panel :=
  {| t := v; sp := sp p; band := band p; manual_mode := manual_mode p;
     cold_in := cold_in p; hot_in := hot_in p;
     cal_sp := cal_sp p; cal_nut := cal_nut p;
     nut_running_until := nut_running_until p; nut_led_on := nut_led_on p;
     last_min := last_min p; freq_nut := freq_nut p;
     manual_nut_on := manual_nut_on p;
     relay_cold := relay_cold p; relay_hot := relay_hot p;
     hw_calls := hw_calls p |}.

Definition set_sp (p : Panel) (v : Q) : Panel :=
  {| t := t p; sp := v; band := band p; manual_mode := manual_mode p;
     cold_in := cold_in p; hot_in := hot_in p;
     cal_sp := cal_sp p; cal_nut := cal_nut p;
     nut_running_until := nut_running_until p; nut_led_on := nut_led_on p;
     last_min := last_min p; freq_nut := freq_nut p;
     manual_nut_on := manual_nut_on p;
     relay_cold := relay_cold p; relay_hot := relay_hot p;
     hw_calls := hw_calls p |}.

Definition set_band (p : Panel) (v : Q) : Panel :=
  {| t := t p; sp := sp p; band := v; manual_mode := manual_mode p;
     cold_in := cold_in p; hot_in := hot_in p;
     cal_sp := cal_sp p; cal_nut := cal_nut p;
     nut_running_until := nut_running_until p; nut_led_on := nut_led_on p;
     last_min := last_min p; freq_nut := freq_nut p;
     manual_nut_on := manual_nut_on p;
     relay_cold := relay_cold p; relay_hot := relay_hot p;
     hw_calls := hw_calls p |}.

Definition set_manual_mode (p : Panel) (v : bool) : Panel :=
  {| t := t p; sp := sp p; band := band p; manual_mode := v;
     cold_in := cold_in p; hot_in := hot_in p;
     cal_sp := cal_sp p; cal_nut := cal_nut p;
     nut_running_until := nut_running_until p; nut_led_on := nut_led_on p;
     last_min := last_min p; freq_nut := freq_nut p;
     manual_nut_on := manual_nut_on p;
     relay_cold := relay_cold p; relay_hot := relay_hot p;
     hw_calls := hw_calls p |}.

Definition set_cold_in (p : Panel) (v : bool) : Panel :=
  {| t := t p; sp := sp p; band := band p; manual_mode := manual_mode p;
     cold_in := v; hot_in := hot_in p;
     cal_sp := cal_sp p; cal_nut := cal_nut p;
     nut_running_until := nut_running_until p; nut_led_on := nut_led_on p;
     last_min := last_min p; freq_nut := freq_nut p;
     manual_nut_on := manual_nut_on p;
     relay_cold := relay_cold p; relay_hot := relay_hot p;
     hw_calls := hw_calls p |}.

Definition set_hot_in (p : Panel) (v : bool) : Panel :=
  {| t := t p; sp := sp p; band := band p; manual_mode := manual_mode p;
     cold_in := cold_in p; hot_in := v;
     cal_sp := cal_sp p; cal_nut := cal_nut p;
     nut_running_until := nut_running_until p; nut_led_on := nut_led_on p;
     last_min := last_min p; freq_nut := freq_nut p;
     manual_nut_on := manual_nut_on p;
     relay_cold := relay_cold p; relay_hot := relay_hot p;
     hw_calls := hw_calls p |}.

Definition set_cal_sp (p : Panel) (v : calendar) : Panel :=
  {| t := t p; sp := sp p; band := band p; manual_mode := manual_mode p;
     cold_in := cold_in p; hot_in := hot_in p;
     cal_sp := v; cal_nut := cal_nut p;
     nut_running_until := nut_running_until p; nut_led_on := nut_led_on p;
     last_min := last_min p; freq_nut := freq_nut p;
     manual_nut_on := manual_nut_on p;
     relay_cold := relay_cold p; relay_hot := relay_hot p;
     hw_calls := hw_calls p |}.

Definition set_cal_nut (p : Panel) (v : calendar) : Panel :=
  {| t := t p; sp := sp p; band := band p; manual_mode := manual_mode p;
     cold_in := cold_in p; hot_in := hot_in p;
     cal_sp := cal_sp p; cal_nut := v;
     nut_running_until := nut_running_until p; nut_led_on := nut_led_on p;
     last_min := last_min p; freq_nut := freq_nut p;
     manual_nut_on := manual_nut_on p;
     relay_cold := relay_cold p; relay_hot := relay_hot p;
     hw_calls := hw_calls p |}.

Definition set_nut_running_until (p : Panel) (v : option Q) : Panel :=
  {| t := t p; sp := sp p; band := band p; manual_mode := manual_mode p;
     cold_in := cold_in p; hot_in := hot_in p;
     cal_sp := cal_sp p; cal_nut := cal_nut p;
     nut_running_until := v; nut_led_on := nut_led_on p;
     last_min := last_min p; freq_nut := freq_nut p;
     manual_nut_on := manual_nut_on p;
     relay_cold := relay_cold p; relay_hot := relay_hot p;
     hw_calls := hw_calls p |}.

Definition set_nut_led_on (p : Panel) (v : bool) : Panel :=
  {| t := t p; sp := sp p; band := band p; manual_mode := manual_mode p;
     cold_in := cold_in p; hot_in := hot_in p;
     cal_sp := cal_sp p; cal_nut := cal_nut p;
     nut_running_until := nut_running_until p; nut_led_on := v;
     last_min := last_min p; freq_nut := freq_nut p;
     manual_nut_on := manual_nut_on p;
     relay_cold := relay_cold p; relay_hot := relay_hot p;
     hw_calls := hw_calls p |}.

Definition set_last_min (p : Panel) (v : option Z) : Panel :=
  {| t := t p; sp := sp p; band := band p; manual_mode := manual_mode p;
     cold_in := cold_in p; hot_in := hot_in p;
     cal_sp := cal_sp p; cal_nut := cal_nut p;
     nut_running_until := nut_running_until p; nut_led_on := nut_led_on p;
     last_min := v; freq_nut := freq_nut p;
     manual_nut_on := manual_nut_on p;
     relay_cold := relay_cold p; relay_hot := relay_hot p;
     hw_calls := hw_calls p |}.

Definition set_freq_nut (p : Panel) (v : Q) : Panel :=
  {| t := t p; sp := sp p; band := band p; manual_mode := manual_mode p;
     cold_in := cold_in p; hot_in := hot_in p;
     cal_sp := cal_sp p; cal_nut := cal_nut p;
     nut_running_until := nut_running_until p; nut_led_on := nut_led_on p;
     last_min := last_min p; freq_nut := v;
     manual_nut_on := manual_nut_on p;
     relay_cold := relay_cold p; relay_hot := relay_hot p;
     hw_calls := hw_calls p |}.

Definition set_manual_nut_on (p : Panel) (v : bool) : Panel :=
  {| t := t p; sp := sp p; band := band p; manual_mode := manual_mode p;
     cold_in := cold_in p; hot_in := hot_in p;
     cal_sp := cal_sp p; cal_nut := cal_nut p;
     nut_running_until := nut_running_until p; nut_led_on := nut_led_on p;
     last_min := last_min p; freq_nut := freq_nut p;
     manual_nut_on := v;
     relay_cold := relay_cold p; relay_hot := relay_hot p;
     hw_calls := hw_calls p |}.

(** One more call on [self.hw]. *)
Definition hw_do (p : Panel) (c : hw_call) : Panel :=
  {| t := t p; sp := sp p; band := band p; manual_mode := manual_mode p;
     cold_in := cold_in p; hot_in := hot_in p;
     cal_sp := cal_sp p; cal_nut := cal_nut p;
     nut_running_until := nut_running_until p; nut_led_on := nut_led_on p;
     last_min := last_min p; freq_nut := freq_nut p;
     manual_nut_on := manual_nut_on p;
     relay_cold := relay_cold p; relay_hot := relay_hot p;
     hw_calls := hw_calls p ++ [c] |}.

(** [_can_force]. *)
Definition can_force (p : Panel) : bool := manual_mode p.

(** [_apply_relays]. *)
Definition apply_relays (p : Panel) : Panel :=
  let p := if cold_in p then hw_do p (Relay_on (relay_cold p))
           else hw_do p (Relay_off (relay_cold p)) in
  if hot_in p then hw_do p (Relay_on (relay_hot p))
  else hw_do p (Relay_off (relay_hot p)).

(** [forzar_frio]. *)
Definition forzar_frio (p : Panel) : Panel :=
  if negb (can_force p) then p
  else
    let p := set_cold_in p true in
    let p := set_hot_in p false in
    apply_relays p.

(** [forzar_caliente]. *)
Definition forzar_caliente (p : Panel) : Panel :=
  if negb (can_force p) then p
  else
    let p := set_hot_in p true in
    let p := set_cold_in p false in
    apply_relays p.

(** [cerrar_todo]. *)
Definition cerrar_todo (p : Panel) : Panel :=
  let p := set_cold_in p false in
  let p := set_hot_in p false in
  apply_relays p.

(** [_apply_nutricion_state(should_run)]. *)
Definition apply_nutricion_state (p : Panel) (should_run : bool) : Panel :=
  let p :=
    if should_run && negb (nut_led_on p) then hw_do p (Start_stepper (freq_nut p))
    else if negb should_run && nut_led_on p then hw_do p Stop_stepper
    else p in
  set_nut_led_on p should_run.

(** [stop_all]. *)
Definition stop_all (p : Panel) : Panel :=
  let p := set_manual_mode p true in
  let p := set_cold_in p false in
  let p := set_hot_in p false in
  let p := set_nut_running_until p None in
  let p := set_manual_nut_on p false in
  let p := apply_nutricion_state p false in
  apply_relays p.

(** [nut_running_until and tnow < nut_running_until]. *)
Definition schedule_active (p : Panel) (tnow : Q) : bool :=
  match nut_running_until p with
  | Some u => Qlt_bool tnow u
  | None => false
  end.

(** [toggle_manual_nut], pressed at time [tnow]. *)
Definition toggle_manual_nut (p : Panel) (tnow : Q) : Panel :=
  let p := set_manual_nut_on p (negb (manual_nut_on p)) in
  apply_nutricion_state p (schedule_active p tnow || manual_nut_on p).

(** The calendar setpoint step of [update_process]. *)
Definition sp_block (p : Panel) (tnow : Q) : Panel :=
  if negb (manual_mode p) then
    match sp_from_date_calendar (cal_sp p) tnow None with
    | Some sp_cal => set_sp p sp_cal
    | None => p
    end
  else p.

(** [sum(float(d) for d in doses if float(d) > 0)]. *)
Definition dur_total (doses : list Q) : Q :=
  fold_left Qplus (filter (fun d => Qlt_bool 0 d) doses) 0.

(** The test [self._last_min != current_min]. *)
Definition new_minute (p : Panel) (tnow : Q) : bool :=
  match last_min p with
  | Some m => negb (Z.eqb m (minute_number tnow))
  | None => true
  end.

(** The dosing-start step of [update_process]: once per minute, the events
    of the minute open a dosing window. *)
Definition fire_block (p : Panel) (tnow : Q) : Panel :=
  if new_minute p tnow then
    let doses := nut_fire_for_minute (cal_nut p) tnow in
    let p :=
      match doses with
      | [] => p
      | _ =>
          if Qlt_bool 0 (dur_total doses) then
            let p := set_nut_running_until p (Some (tnow + dur_total doses)) in
            hw_do p (Start_stepper (freq_nut p))
          else p
      end in
    set_last_min p (Some (minute_number tnow))
  else p.

(** The dosing-window step of [update_process]. *)
Definition dosing_block (p : Panel) (tnow : Q) : Panel :=
  if schedule_active p tnow then
    apply_nutricion_state p (true || manual_nut_on p)
  else
    let p := set_nut_running_until p None in
    apply_nutricion_state p (false || manual_nut_on p).

(** The hysteresis step of [update_process]. *)
Definition thermal_block (p : Panel) : Panel :=
  if negb (manual_mode p) then
    let sp := sp p in
    let band := Qmax (5 # 100) (band p) in
    (* control frio *)
    let p :=
      if cold_in p then
        if Qle_bool (t p) (sp - band) then set_cold_in p false else p
      else
        if Qle_bool (sp + band) (t p) then set_cold_in p true else p in
    (* control caliente *)
    let p :=
      if hot_in p then
        if Qle_bool (sp + band) (t p) then set_hot_in p false else p
      else
        if Qle_bool (t p) (sp - band) then set_hot_in p true else p in
    let p := if negb (cold_in p) && negb (hot_in p) then cerrar_todo p else p in
    apply_relays p
  else p.

(** [update_process] at time [tnow]; [t_in] is the temperature acquired in
    this tick (simulated or read from the probe).  The CSV row written at
    the end of the tick is modelled in [Logger]. *)
Definition update_process (p : Panel) (tnow t_in : Q) : Panel :=
  let p := sp_block p tnow in
  let p := fire_block p tnow in
  let p := dosing_block p tnow in
  let p := set_t p t_in in
  thermal_block p.

(** What can happen to a panel: the periodic tick and the operator's
    commands. *)
Inductive command :=
| Tick (tnow t_in : Q)
| Set_manual_mode (b : bool)
| Set_sp (v : Q)
| Set_band (v : Q)
| Set_freq_nut (v : Q)
| Set_cal_sp (c : calendar)
| Set_cal_nut (c : calendar)
| Forzar_frio
| Forzar_caliente
| Cerrar_todo
| Stop_all
| Toggle_manual_nut (tnow : Q).

Definition step (p : Panel) (c : command) : Panel :=
  match c with
  | Tick tnow t_in => update_process p tnow t_in
  | Set_manual_mode b => set_manual_mode p b
  | Set_sp v => set_sp p v
  | Set_band v => set_band p v
  | Set_freq_nut v => set_freq_nut p v
  | Set_cal_sp c => set_cal_sp p c
  | Set_cal_nut c => set_cal_nut p c
  | Forzar_frio => forzar_frio p
  | Forzar_caliente => forzar_caliente p
  | Cerrar_todo => cerrar_todo p
  | Stop_all => stop_all p
  | Toggle_manual_nut tnow => toggle_manual_nut p tnow
  end.

Definition run (p : Panel) (cs : list command) : Panel := fold_left step cs p.

(** The times of the ticks of a command list, in order. *)
Fixpoint tick_times (cs : list command) : list Q :=
  match cs with
  | [] => []
  | Tick tnow _ :: rest => tnow :: tick_times rest
  | _ :: rest => tick_times rest
  end.

(** A clock that never runs backwards: each time is at least [t0] and at
    least the one before it. *)
Fixpoint ascending_from (t0 : Q) (ts : list Q) : Prop :=
  match ts with
  | [] => True
  | u :: rest => t0 <= u /\ ascending_from u rest
  end.

(** The minutes, in order, in which a tick of the command list opened a
    dosing window. *)
Definition fires (p : Panel) (tnow : Q) : bool :=
  new_minute p tnow &&
  match nut_fire_for_minute (cal_nut p) tnow with
  | [] => false
  | doses => Qlt_bool 0 (dur_total doses)
  end.

Fixpoint fired_minutes (p : Panel) (cs : list command) : list Z :=
  match cs with
  | [] => []
  | c :: rest =>
      let here :=
        match c with
        | Tick tnow _ =>
            if fires (sp_block p tnow) tnow then [minute_number tnow] else []
        | _ => []
        end in
      here ++ fired_minutes (step p c) rest
  end.

(** The cooling and heating intents are not both on. *)
Definition exclusive (p : Panel) : Prop := cold_in p && hot_in p = false.

(** The part of the panel the dosing controller reads and writes. *)
Record dosing_view := {
  v_cal_nut : calendar;
  v_last_min : option Z;
  v_until : option Q;
  v_led : bool;
  v_manual : bool
}.

Definition view (p : Panel) : dosing_view :=
  {| v_cal_nut := cal_nut p; v_last_min := last_min p;
     v_until := nut_running_until p; v_led := nut_led_on p;
     v_manual := manual_nut_on p |}.

(** The total a tick at [tnow] computes from the dosing calendar. *)
Definition total_at (p : Panel) (tnow : Q) : Q :=
  dur_total (nut_fire_for_minute (cal_nut p) tnow).

(** The window end and the active flag a tick computes. *)
Definition window_after_fire (p : Panel) (tnow : Q) : option Q :=
  if fires p tnow then Some (tnow + total_at p tnow) else nut_running_until p.

Definition active_after_fire (p : Panel) (tnow : Q) : bool :=
  match window_after_fire p tnow with
  | Some u => Qlt_bool tnow u
  | None => false
  end.

(** A list of times that never goes backwards. *)
Definition ascending (ts : list Q) : Prop :=
  match ts with
  | [] => True
  | u :: rest => ascending_from u rest
  end.

(** Commands that leave the dosing calendar and the dosing window alone:
    all but [stop_all] and an edit of the dosing calendar. *)
Definition keeps_dosing (c : command) : bool :=
  match c with
  | Stop_all | Set_cal_nut _ => false
  | _ => true
  end.

(** The sum of the strictly positive durations of the events of a day whose
    time is the given ["HH:MM"]. *)
Definition positive_total (flist : list event) (hhmm_now : string) : Q :=
  fold_left Qplus
    (map value
       (filter (fun e => String.eqb (time e) hhmm_now && Qlt_bool 0 (value e))
               flist))
    0.

Definition is_start (c : hw_call) : bool :=
  match c with Start_stepper _ => true | _ => false end.

(** The state of the window of the dose that panel [p] starts at [t0], once
    the clock has reached [tl]: still open with its end untouched, or closed
    by a tick at or after its end. *)
Definition window_inv (p : Panel) (t0 : Q) (q : Panel) (tl : Q) : Prop :=
  cal_nut q = cal_nut p /\
  last_min q = Some (minute_number tl) /\
  t0 <= tl /\
  (nut_running_until q = Some (t0 + total_at p t0) \/
   (nut_running_until q = None /\ t0 + total_at p t0 <= tl)).

(** Whether the calls made so far leave the pump driver running: the last
    of the [start_stepper] and [stop_stepper] calls is a start. *)
Definition pump_running (calls : list hw_call) : bool :=
  fold_left
    (fun running c =>
       match c with
       | Start_stepper _ => true
       | Stop_stepper => false
       | _ => running
       end)
    calls false.

(** The stepper calls among the calls made, in order. *)
Definition stepper_calls (calls : list hw_call) : list hw_call :=
  filter (fun c => match c with
                   | Start_stepper _ | Stop_stepper => true
                   | _ => false
                   end) calls.

(** The pump as the driver has it and as the panel believes it to be
    agree. *)
Definition pump_ok (p : Panel) : Prop :=
  pump_running (hw_calls p) = nut_led_on p.

(** The calls the dosing-start step of a tick at [tnow] makes on the
    hardware: what [fire_block] adds to [hw_calls]. *)
Definition start_step_calls (p : Panel) (tnow : Q) : list hw_call :=
  let q := sp_block p tnow in
  skipn (List.length (hw_calls q)) (hw_calls (fire_block q tnow)).

(** The dose starts of a command list, in order: the minute of the tick,
    once for every [start_stepper] call its dosing-start step makes. *)
Fixpoint dose_starts (p : Panel) (cs : list command) : list Z :=
  match cs with
  | [] => []
  | c :: rest =>
      let here :=
        match c with
        | Tick tnow _ =>
            map (fun _ => minute_number tnow)
                (filter is_start (start_step_calls p tnow))
        | _ => []
        end in
      here ++ dose_starts (step p c) rest
  end.

End Panel.

(** * CSV sinks *)

Module Logger.

(** A CSV file is the list of its rows, a row the list of its cells. *)
Definition row := list string.

(** The files on disk: [None] for a path that does not exist. *)
Definition disk := string -> option (list row).

Definition exists_ (d : disk) (path : string) : bool :=
  match d path with Some _ => true | None => false end.

(** [os.path.getsize(path) == 0] for an existing file. *)
Definition empty (d : disk) (path : string) : bool :=
  match d path with Some [] => true | _ => false end.

(** [open(path, "a")] followed by the given rows. *)
Definition append (d : disk) (path : string) (rows : list row) : disk :=
  fun q =>
    if String.eqb q path then
      Some (match d path with Some old => old | None => [] end ++ rows)
    else d q.

Section Sinks.

(** Whether [open(path, "a")] succeeds; when it does not, the write is
    reported to the operator and the file is left as it was. *)
Variable can_open : string -> bool.

(** One [DictWriter] pass: the header when asked for, then the data row. *)
Definition write (d : disk) (path : string) (header : bool)
    (fieldnames data : row) : disk :=
  if can_open path then
    append d path ((if header then [fieldnames] else []) ++ [data])
  else d.

(** The columns of the panel log and of the shared backup. *)
Definition backup_fields : row :=
  ["timestamp"; "fermentador"; "T"; "SP"; "banda"; "cold"; "hot";
   "nutricion_activa"; "freq_nut"]%string.

(** The per-instrument part of [FermenterPanel._csv_write_row]. *)
Definition csv_write_instrument (d : disk) (csv_running : bool)
    (ipath : string) (data : row) : disk :=
  if csv_running then
    let cabe := negb (exists_ d ipath) in
    write d ipath cabe backup_fields data
  else d.

(** The backup part of [FermenterPanel._csv_write_row]. *)
Definition csv_write_backup (d : disk) (bpath : string) (data : row) : disk :=
  let write_header := negb (exists_ d bpath) || empty d bpath in
  write d bpath write_header backup_fields data.

(** [FermenterPanel._csv_write_row]: the instrument file, then the backup. *)
Definition csv_write_row (d : disk) (csv_running : bool)
    (ipath bpath : string) (data : row) : disk :=
  csv_write_backup (csv_write_instrument d csv_running ipath data) bpath data.

(** The columns of the CO2 flow log. *)
Definition co2_fields : row :=
  ["timestamp"; "fermentador"; "flow_sccm"; "status"]%string.

(** [App._co2_csv_write_row]. *)
Definition co2_csv_write_row (d : disk) (co2_csv_running : bool)
    (ipath : string) (data : row) : disk :=
  if negb co2_csv_running then d
  else
    let header := negb (exists_ d ipath) in
    write d ipath header co2_fields data.

End Sinks.

(** A disk without files, and a disk whose only file exists and is empty. *)
Definition no_files : disk := fun _ => None.

Definition empty_file (path : string) : disk :=
  fun q => if String.eqb q path then Some [] else None.

End Logger.

(** * Scenarios used in the examples *)

Module Scenario.

Import Calendar.

(** Midnight of some day D, and a time of that day. *)
Definition day_D : Z := 20000.

Definition at_hms (h m s : Q) : Q := inject_Z day_D * 86400 + h * 3600 + m * 60 + s.

(** Events {08:00 -> 20.0, 14:00 -> 22.0} on day D. *)
Definition cal_two_events : calendar :=
  [(day_D, [ {| time := "08:00"; value := 20 |};
             {| time := "14:00"; value := 22 |} ])].

(** One event on day D whose hour is written without the leading zero, as
    [hhmm_ok] admits it. *)
Definition cal_unpadded : calendar :=
  [(day_D, [ {| time := "8:00"; value := 20 |} ])].

(** A vessel as it starts, and dosing calendars for day D. *)
Definition vessel : Panel.Panel := Panel.init 20 7 8.

Definition cal_dose_30 : calendar :=
  [(day_D, [ {| time := "09:00"; value := 30 |} ])].

Definition cal_dose_45 : calendar :=
  [(day_D, [ {| time := "09:00"; value := 45 |} ])].

Definition cal_same_minute : calendar :=
  [(day_D, [ {| time := "09:00"; value := 30 |};
             {| time := "09:00"; value := -5 |};
             {| time := "09:00"; value := 15 |} ])].

Definition cal_overlap : calendar :=
  [(day_D, [ {| time := "09:00"; value := 120 |};
             {| time := "09:01"; value := 10 |} ])].

(** Two ticks in the minute of a 45 s dose. *)
Definition two_ticks : list Panel.command :=
  [Panel.Set_cal_nut cal_dose_45;
   Panel.Tick (at_hms 9 0 0) 20; Panel.Tick (at_hms 9 0 30) 20].

(** A 45 s dose at 02:30, and the wall clock set back by one hour at 03:00
    (the end of daylight saving time): the ticks read 02:30:00, 02:59:59,
    then 02:00:00 and 02:30:00 again. *)
Definition cal_dose_0230 : calendar :=
  [(day_D, [ {| time := "02:30"; value := 45 |} ])].

Definition clock_set_back : list Panel.command :=
  [Panel.Set_cal_nut cal_dose_0230;
   Panel.Tick (at_hms 2 30 0) 20; Panel.Tick (at_hms 2 59 59) 20;
   Panel.Tick (at_hms 2 0 0) 20; Panel.Tick (at_hms 2 30 0) 20].

End Scenario.

(** * Flow pipeline: rate, simulated reading, sampling tick *)

Module Flow.

Import Linearizer.

Section Config.

Variables FLOW_MIN_SCCM FLOW_MAX_SCCM SHUNT_OHMS : Q.
Variables CO2_DENSITY_G_M3 BROTH_VOLUME_L : Q.

(** [flow_to_rate_g_l_h]; [6e-5] is the rational 6/100000. *)
Definition flow_to_rate_g_l_h (flow_sccm : Q) : Q :=
  if Qle_bool CO2_DENSITY_G_M3 0 || Qle_bool BROTH_VOLUME_L 0 then 0
  else
    let flow_m3h := flow_sccm * (6 # 100000) in
    (flow_m3h * CO2_DENSITY_G_M3) / BROTH_VOLUME_L.

(** The end of the simulated branch of [ADS1115Reader.read_voltage]:
    [flow_sccm] is the value of the rise-and-decay curve plus its jitter
    (exponentials and the random draw are not embedded), which the code then
    clamps into the range, turns into a current and into a voltage. *)
Definition sim_voltage (flow_sccm : Q) : Q :=
  let flow_sccm := Qmax FLOW_MIN_SCCM (Qmin FLOW_MAX_SCCM flow_sccm) in
  let current_ma :=
    if Qlt_bool FLOW_MIN_SCCM FLOW_MAX_SCCM
    then 4 + (flow_sccm - FLOW_MIN_SCCM) * 16 / (FLOW_MAX_SCCM - FLOW_MIN_SCCM)
    else 4 in
  let current_ma := Qmax 4 (Qmin 20 current_ma) in
  (current_ma / 1000) * SHUNT_OHMS.

(** [_flow_tick] for one channel at time [ts]: the channel is sampled when
    it has no due time yet or the due time has come. *)
Definition flow_tick (ch : FlowChannel) (ts : Q) (reading : option Q)
    (period : Q) : option FlowChannel :=
  match flow_next_sample ch with
  | None => flow_take_sample FLOW_MIN_SCCM FLOW_MAX_SCCM SHUNT_OHMS ch ts reading period
  | Some next_ts =>
      if Qle_bool next_ts ts
      then flow_take_sample FLOW_MIN_SCCM FLOW_MAX_SCCM SHUNT_OHMS ch ts reading period
      else Some ch
  end.

(** [windowed_samples] of the flow plot; [current_window_hours] is [None]
    for the whole history. *)
Definition windowed_samples (current_window_hours : option Q)
    (samples : list FlowSample) : list FlowSample :=
  match samples with
  | [] => []
  | _ =>
      match current_window_hours with
      | None => samples
      | Some hours =>
          match Calendar.last_item samples with
          | Some newest =>
              let right := fs_ts newest in
              let left := right - hours * 3600 in
              filter (fun row => Qle_bool left (fs_ts row)) samples
          | None => []
          end
      end
  end.

End Config.

(** The arithmetic of [update_countdown] for a time left that is not
    negative: [total], the whole seconds left, as hours, minutes and
    seconds.  (Without a next sample the code shows ["--:--:--"], and for a
    negative time left ["00:00:00"]; these two branches compute nothing.) *)
Definition countdown (total : Z) : Z * Z * Z :=
  (total / 3600, (total mod 3600) / 60, total mod 60)%Z.

End Flow.

(** * Flow scenarios *)

Module FlowScenario.

Import Linearizer.

(** Three rows of a ring, taken 0 s, 1 000 000 s and 1 900 000 s after the
    start, at half range. *)
Definition row_at (ts : Q) : FlowSample :=
  {| fs_ts := ts; fs_flow := 25; fs_current_ma := 12;
     fs_voltage := 1764 # 1000; fs_status := OK |}.

Definition ring3 : FlowChannel :=
  {| flow_samples := [row_at 0; row_at 1000000; row_at 1900000];
     flow_next_sample := Some 1900060 |}.

End FlowScenario.

(** * Probe scenarios *)

Module ProbeScenario.

Import Hardware.

(** [float] on the one text the scenarios parse. *)
Definition float_21375 (s : string) : option Q :=
  if String.eqb s "21375" then Some 21375 else None.

(** The text after ["t="] of a packet: the reading and the end of line. *)
Definition reading_text : string :=
  String.append "21375" (String (ascii_of_nat 10) EmptyString).

(** A packet whose CRC line says YES. *)
Definition good_crc : bus :=
  fun _ => Some ["4b 46 7f ff 0c 10 1c : crc=1c YES"%string;
                 String.append "4b 46 7f ff 0c 10 1c "
                               (String "t" (String "=" reading_text))].

(** A vessel rack with one probe, on hardware. *)
Definition one_probe : Hardware := init false [0; 0; 0] [probe].

End ProbeScenario.

(** * Hardware layer: relays and stepper drivers *)

Module Gpio.

(** Calls on the GPIO library that were carried out. *)
Inductive gpio_op :=
| Setup_out (pin : nat)
| Output (pin : nat) (high : bool)
| Pwm_new (pin : nat) (freq : Z)
| Change_frequency (name : string) (freq : Z)
| Pwm_start (name : string)
| Pwm_stop (name : string)
| Gpio_cleanup.

(** The actuator side of [Hardware]: [gpio] tells whether [self.gpio] is
    bound, [pwms] maps a stepper name to its direction and pulse pins, and
    [ops] lists, oldest first, the library calls that went through. *)
Record Actuators := {
  sim : bool;
  sim_gpio : bool;
  gpio : bool;
  pwms : list (string * (nat * nat));
  ops : list gpio_op
}.

(** [_gpio_fallback]. *)
Definition gpio_fallback (hw : Actuators) : Actuators :=
  if sim_gpio hw then hw
  else {| sim := sim hw; sim_gpio := true; gpio := false; pwms := [];
          ops := ops hw |}.

(** The guard every method starts with. *)
Definition inactive (hw : Actuators) : bool :=
  sim hw || sim_gpio hw || negb (gpio hw).

Definition log (hw : Actuators) (done : list gpio_op) : Actuators :=
  {| sim := sim hw; sim_gpio := sim_gpio hw; gpio := gpio hw;
     pwms := pwms hw; ops := ops hw ++ done |}.

(** A [try] block of library calls: [fail_at] is the position of the call
    that raises, if one does; the calls before it are carried out, and the
    [except] branch falls back to the simulator. *)
Definition attempt (hw : Actuators) (calls : list gpio_op)
    (fail_at : option nat) : Actuators * bool :=
  match fail_at with
  | Some k =>
      if (k <? List.length calls)%nat
      then (gpio_fallback (log hw (firstn k calls)), false)
      else (log hw calls, true)
  | None => (log hw calls, true)
  end.

(** [int(x)] of a float: truncation towards zero. *)
Definition py_trunc (x : Q) : Z := Z.quot (Qnum x) (Z.pos (Qden x)).

(** [setup_relay]. *)
Definition setup_relay (hw : Actuators) (pin : nat) (fail_at : option nat)
    : Actuators :=
  if inactive hw then hw
  else fst (attempt hw [Setup_out pin; Output pin true] fail_at).

(** [relay_on]: the relays are driven low. *)
Definition relay_on (hw : Actuators) (pin : nat) (fail_at : option nat)
    : Actuators :=
  if inactive hw then hw
  else fst (attempt hw [Output pin false] fail_at).

(** [relay_off]. *)
Definition relay_off (hw : Actuators) (pin : nat) (fail_at : option nat)
    : Actuators :=
  if inactive hw then hw
  else fst (attempt hw [Output pin true] fail_at).

(** [setup_stepper]. *)
Definition setup_stepper (hw : Actuators) (name : string) (pul direction : nat)
    (freq : Q) (fail_at : option nat) : Actuators :=
  if inactive hw then hw
  else
    let (hw1, ok) :=
      attempt hw [Setup_out direction; Output direction false; Setup_out pul;
                  Pwm_new pul (Z.max 1 (py_trunc freq))] fail_at in
    if ok then
      {| sim := sim hw1; sim_gpio := sim_gpio hw1; gpio := gpio hw1;
         pwms := (name, (direction, pul))
                 :: filter (fun e => negb (String.eqb (fst e) name)) (pwms hw1);
         ops := ops hw1 |}
    else hw1.

(** [self.pwms[name]], when the name is known. *)
Fixpoint find_pwm (l : list (string * (nat * nat))) (name : string)
    : option (nat * nat) :=
  match l with
  | [] => None
  | (n, v) :: rest => if String.eqb n name then Some v else find_pwm rest name
  end.

(** [start_stepper]. *)
Definition start_stepper (hw : Actuators) (name : string) (freq : Q)
    (fail_at : option nat) : Actuators :=
  if inactive hw then hw
  else
    match find_pwm (pwms hw) name with
    | None => hw
    | Some _ =>
        fst (attempt hw [Change_frequency name (Z.max 1 (py_trunc freq));
                         Pwm_start name] fail_at)
    end.

(** [stop_stepper]. *)
Definition stop_stepper (hw : Actuators) (name : string)
    (fail_at : option nat) : Actuators :=
  if inactive hw then hw
  else
    match find_pwm (pwms hw) name with
    | None => hw
    | Some (direction, _) =>
        fst (attempt hw [Pwm_stop name; Output direction false] fail_at)
    end.

(** [cleanup]: a failure is swallowed without a fallback. *)
Definition cleanup (hw : Actuators) (fails : bool) : Actuators :=
  if inactive hw then hw
  else if fails then hw else log hw [Gpio_cleanup].

(** A method call with the behaviour of the library during it. *)
Inductive call :=
| Setup_relay (pin : nat) (fail_at : option nat)
| Relay_on (pin : nat) (fail_at : option nat)
| Relay_off (pin : nat) (fail_at : option nat)
| Setup_stepper (name : string) (pul direction : nat) (freq : Q)
                (fail_at : option nat)
| Start_stepper (name : string) (freq : Q) (fail_at : option nat)
| Stop_stepper (name : string) (fail_at : option nat)
| Cleanup (fails : bool).

Definition perform (hw : Actuators) (c : call) : Actuators :=
  match c with
  | Setup_relay pin f => setup_relay hw pin f
  | Relay_on pin f => relay_on hw pin f
  | Relay_off pin f => relay_off hw pin f
  | Setup_stepper name pul direction freq f =>
      setup_stepper hw name pul direction freq f
  | Start_stepper name freq f => start_stepper hw name freq f
  | Stop_stepper name f => stop_stepper hw name f
  | Cleanup fails => cleanup hw fails
  end.

Definition perform_all (hw : Actuators) (cs : list call) : Actuators :=
  fold_left perform cs hw.

(** The frequency a PWM call programs, if the call is one. *)
Definition pwm_freq (o : gpio_op) : option Z :=
  match o with
  | Pwm_new _ f | Change_frequency _ f => Some f
  | _ => None
  end.

(** Whether the library raises during a call that reaches it. *)
Definition in_range (fail_at : option nat) (n : nat) : bool :=
  match fail_at with Some k => (k <? n)%nat | None => false end.

Definition raises (hw : Actuators) (c : call) : bool :=
  negb (inactive hw) &&
  match c with
  | Setup_relay _ f => in_range f 2
  | Relay_on _ f | Relay_off _ f => in_range f 1
  | Setup_stepper _ _ _ _ f => in_range f 4
  | Start_stepper name _ f | Stop_stepper name f =>
      match find_pwm (pwms hw) name with
      | Some _ => in_range f 2
      | None => false
      end
  | Cleanup _ => false
  end.

(** A PWM call programs a frequency of at least 1. *)
Definition freq_ok (o : gpio_op) : Prop :=
  match pwm_freq o with Some f => (1 <= f)%Z | None => True end.

(** A rack on working hardware, nothing set up yet. *)
Definition fresh : Actuators :=
  {| sim := false; sim_gpio := false; gpio := true; pwms := []; ops := [] |}.

End Gpio.

(** * Fermenter panel, continued *)

Module PanelMore.

Import Clock Calendar Panel.

(** [_simulate_temp(dt_seconds)] for a panel whose simulated ambient is
    [sim_ambient]; [ruido] is the draw of [random.uniform(-0.008, 0.008)]. *)
Definition simulate_temp (p : Panel) (sim_ambient dt_seconds ruido : Q) : Panel :=
  if Qle_bool dt_seconds 0 then p
  else
    let sp_obj := sp p in
    let ambient_pull := (sim_ambient - t p) * (8 # 10000) in
    let ferment_target := Qmax sp_obj (sim_ambient + 4) in
    let ferment_heat := (ferment_target - t p) * (18 # 1000) in
    let heating := if hot_in p then 22 # 100 else 0 in
    let cooling := if cold_in p then - (28 # 100) else 0 in
    let delta :=
      (ambient_pull + ferment_heat + heating + cooling + ruido) * dt_seconds in
    set_t p (Qmax (-5) (Qmin 40 (t p + delta))).

(** The relay call [_apply_relays] makes for a flag. *)
Definition relay_call (on : bool) (pin : nat) : hw_call :=
  if on then Relay_on pin else Relay_off pin.

Definition is_relay (c : hw_call) : bool :=
  match c with Relay_on _ | Relay_off _ => true | _ => false end.

(** The part of the panel the thermal controller reads and writes, the
    temperature apart. *)
Definition thermal_view (p : Panel) : Q * Q * bool * bool * bool * nat * nat :=
  (sp p, band p, manual_mode p, cold_in p, hot_in p, relay_cold p, relay_hot p).

(** Commands that leave the override alone and do not force an actuator. *)
Definition keeps_override (c : command) : bool :=
  match c with
  | Set_manual_mode _ | Forzar_frio | Forzar_caliente => false
  | _ => true
  end.

(** A run of pump requests, each passed to [_apply_nutricion_state]. *)
Definition request_all (p : Panel) (requests : list bool) : Panel :=
  fold_left apply_nutricion_state requests p.

(** How many starts and how many stops the panel asked of the pump driver. *)
Definition starts (p : Panel) : nat :=
  List.length (filter is_start (hw_calls p)).

Definition stops (p : Panel) : nat :=
  List.length (filter (fun c => match c with Stop_stepper => true | _ => false end)
                      (hw_calls p)).

(** [cerrar_todo_global]: [stop_all] on every panel. *)
Definition cerrar_todo_global (ferms : list Panel) : list Panel :=
  map stop_all ferms.

End PanelMore.

(** * Calendar edits and imports *)

Module Editor.

Import Calendar.

(** [data.setdefault(key, []).append(e)]. *)
Fixpoint dict_append (data : calendar) (key : Z) (e : event) : calendar :=
  match data with
  | [] => [(key, [e])]
  | (k, flist) :: rest =>
      if Z.eqb k key then (k, flist ++ [e]) :: rest
      else (k, flist) :: dict_append rest key e
  end.

(** [del data[key]]. *)
Definition dict_del (data : calendar) (key : Z) : calendar :=
  filter (fun entry => negb (Z.eqb (fst entry) key)) data.

(** Truth value of an optional text: present and not empty. *)
Definition truthy_opt (x : option string) : bool :=
  match x with Some s => truthy s | None => false end.

(** [a or b]. *)
Definition py_or (a b : option string) : option string :=
  if truthy_opt a then a else b.

(** All events of a calendar. *)
Definition all_events (data : calendar) : list event :=
  flat_map snd data.

Section Checks.

(** The checks of the editor, as functions: [hhmm_ok], the parser of the
    value type ([None] when it raises), [_normalize_date] (the day number
    of the date, [None] when no format fits) and the stripping of blanks. *)
Variable hhmm_ok : string -> bool.
Variable value_type : string -> option Q.
Variable normalize_date : string -> option Z.

(** [str.strip]. *)
Variable strip : string -> string.

(** [DateCalendarDialog.add_event] with the date [selected] picked on day
    [today]; [time_text] and [value_text] are the two entry fields. *)
Definition add_event (data : calendar) (today selected : Z)
    (time_text value_text : string) : calendar :=
  if Z.ltb selected today then data
  else
    let t := strip time_text in
    if negb (hhmm_ok t) then data
    else
      match value_type (strip value_text) with
      | None => data
      | Some val => dict_append data selected {| time := t; value := val |}
      end.

(** [DateCalendarDialog.clear_day]; [confirmed] is the answer to the
    question the dialog asks. *)
Definition clear_day (data : calendar) (selected : Z) (confirmed : bool)
    : calendar :=
  match dict_get data selected with
  | [] => data
  | _ => if confirmed then dict_del data selected else data
  end.

(** One row of an imported table: the cell under a column name, [None] when
    the row has no such cell. *)
Definition table_row := string -> option string.

(** The body of the loop of [_events_from_rows]. *)
Definition import_row (events : calendar) (row : table_row) : calendar :=
  let date_raw :=
    py_or (row "date"%string)
          (py_or (row "fecha"%string) (py_or (row "dia"%string) (row "d"%string))) in
  let time_raw :=
    py_or (row "time"%string) (py_or (row "hora"%string) (row "t"%string)) in
  let val_raw :=
    py_or (row "value"%string) (py_or (row "valor"%string) (row "v"%string)) in
  if negb (truthy_opt date_raw) || negb (truthy_opt time_raw) then events
  else
    match date_raw, time_raw, val_raw with
    | Some date_text, Some time_text, Some val_text =>
        match normalize_date date_text with
        | None => events
        | Some key =>
            let hhmm := strip time_text in
            if negb (hhmm_ok hhmm) then events
            else
              match value_type val_text with
              | None => events
              | Some val => dict_append events key {| time := hhmm; value := val |}
              end
        end
    | _, _, _ => events
    end.

(** [_events_from_rows]. *)
Definition events_from_rows (rows : list table_row) : calendar :=
  fold_left import_row rows [].

End Checks.

(** Every event of the calendar has a time that passes the check. *)
Definition valid (ok : string -> bool) (data : calendar) : Prop :=
  Forall (fun e => ok (time e) = true) (all_events data).

(** A value parser and a date parser for the scenarios: each knows one
    text. *)
Definition value_22_5 (s : string) : option Q :=
  if String.eqb s "22.5" then Some (45 # 2) else None.

Definition date_D (s : string) : option Z :=
  if String.eqb s "2024-10-04" then Some Scenario.day_D else None.

(** A table with one good row and one row whose time is out of range. *)
Definition good_row : table_row :=
  fun k => if String.eqb k "fecha" then Some "2024-10-04"%string
           else if String.eqb k "hora" then Some " 14:00 "%string
           else if String.eqb k "valor" then Some "22.5"%string
           else None.

Definition bad_time_row : table_row :=
  fun k => if String.eqb k "date" then Some "2024-10-04"%string
           else if String.eqb k "time" then Some "24:00"%string
           else if String.eqb k "value" then Some "22.5"%string
           else None.

End Editor.

(** * Properties *)

(** ** Comparisons on rationals *)

Lemma Qlt_bool_iff (a b : Q) : Qlt_bool a b = true <-> a < b.
Proof.
  unfold Qlt_bool. rewrite negb_true_iff.
  split.
  - intros H. apply Qnot_le_lt. intros Hle.
    apply Qle_bool_iff in Hle. congruence.
  - intros H. destruct (Qle_bool b a) eqn:E; [|reflexivity].
    apply Qle_bool_iff in E. exfalso. apply (Qlt_not_le _ _ H E).
Qed.

Lemma Qlt_bool_false_iff (a b : Q) : Qlt_bool a b = false <-> b <= a.
Proof.
  unfold Qlt_bool. rewrite negb_false_iff. apply Qle_bool_iff.
Qed.

Lemma Qle_bool_false_iff (a b : Q) : Qle_bool a b = false <-> b < a.
Proof.
  split.
  - intros H. apply Qnot_le_lt. intros Hle.
    apply Qle_bool_iff in Hle. congruence.
  - intros H. destruct (Qle_bool a b) eqn:E; [|reflexivity].
    apply Qle_bool_iff in E. exfalso. apply (Qlt_not_le _ _ H E).
Qed.

(** Case analysis on a boolean comparison, leaving the order fact. *)
Ltac qcases :=
  repeat match goal with
  | |- context [Qle_bool ?a ?b] =>
      let E := fresh "E" in
      destruct (Qle_bool a b) eqn:E;
      [apply Qle_bool_iff in E | apply Qle_bool_false_iff in E]
  | |- context [Qlt_bool ?a ?b] =>
      let E := fresh "E" in
      destruct (Qlt_bool a b) eqn:E;
      [apply Qlt_bool_iff in E | apply Qlt_bool_false_iff in E]
  end.

(** The clamp [max(4.0, min(20.0, c))], case by case. *)
Lemma clamp_cases (c : Q) :
  (c <= 4 /\ Qmax 4 (Qmin 20 c) == 4) \/
  (4 <= c <= 20 /\ Qmax 4 (Qmin 20 c) == c) \/
  (20 <= c /\ Qmax 4 (Qmin 20 c) == 20).
Proof.
  destruct (Q.min_spec 20 c) as [[H1 E1]|[H1 E1]];
  destruct (Q.max_spec 4 (Qmin 20 c)) as [[H2 E2]|[H2 E2]];
  rewrite E2; rewrite E1 in *.
  - right; right. split; [lra | reflexivity].
  - exfalso. lra.
  - right; left. split; [lra | reflexivity].
  - left. split; [lra | reflexivity].
Qed.

Module LinearizerFacts.

Import Linearizer.

Section Range.

Variables FLOW_MIN_SCCM FLOW_MAX_SCCM : Q.
Hypothesis range_ok : FLOW_MIN_SCCM < FLOW_MAX_SCCM.

Let flow := current_to_flow_sccm FLOW_MIN_SCCM FLOW_MAX_SCCM.
Let slope := (FLOW_MAX_SCCM - FLOW_MIN_SCCM) / 16.

(** With a proper range the flow is the linear map of the clamped current. *)
Lemma flow_unfold (c : Q) :
  flow c == FLOW_MIN_SCCM + (Qmax 4 (Qmin 20 c) - 4) * slope.
Proof.
  unfold flow, slope, current_to_flow_sccm.
  destruct (Qle_bool FLOW_MAX_SCCM FLOW_MIN_SCCM) eqn:E.
  - apply Qle_bool_iff in E. exfalso. lra.
  - cbv zeta. field.
Qed.

Lemma slope_eq : slope == (FLOW_MAX_SCCM - FLOW_MIN_SCCM) * (1 # 16).
Proof. unfold slope. field. Qed.

Lemma slope_pos : 0 < slope.
Proof. rewrite slope_eq. lra. Qed.

Lemma flow_below (c : Q) : c <= 4 -> flow c == FLOW_MIN_SCCM.
Proof.
  intros H. rewrite flow_unfold.
  destruct (clamp_cases c) as [[_ E]|[[[H1 H2] E]|[H1 E]]]; rewrite E; try lra.
  assert (c == 4) as -> by lra. lra.
Qed.

(** In the exact arithmetic of the model the upper end of the clamp maps to
    [FLOW_MAX_SCCM]. *)
Lemma flow_above (c : Q) : 20 <= c -> flow c == FLOW_MAX_SCCM.
Proof.
  intros H. rewrite flow_unfold.
  destruct (clamp_cases c) as [[H1 E]|[[[H1 H2] E]|[H1 E]]]; rewrite E;
    rewrite slope_eq; try lra.
  assert (c == 20) as -> by lra. lra.
Qed.

Lemma flow_inside (c : Q) :
  4 <= c <= 20 -> flow c == slope * c + (FLOW_MIN_SCCM - 4 * slope).
Proof.
  intros [H1 H2]. rewrite flow_unfold.
  destruct (clamp_cases c) as [[H3 E]|[[_ E]|[H3 E]]]; rewrite E.
  - assert (c == 4) as -> by lra. lra.
  - lra.
  - assert (c == 20) as -> by lra. lra.
Qed.

Lemma flow_monotone (c1 c2 : Q) : c1 <= c2 -> flow c1 <= flow c2.
Proof.
  intros H. rewrite !flow_unfold.
  pose proof slope_pos as Hs.
  assert (Qmax 4 (Qmin 20 c1) <= Qmax 4 (Qmin 20 c2)) as Hc.
  { destruct (clamp_cases c1) as [[A1 E1]|[[[A1 B1] E1]|[A1 E1]]];
    destruct (clamp_cases c2) as [[A2 E2]|[[[A2 B2] E2]|[A2 E2]]];
    rewrite E1, E2; lra. }
  nra.
Qed.

Lemma flow_clamp_idem (c : Q) : flow c == flow (Qmax 4 (Qmin 20 c)).
Proof.
  destruct (clamp_cases c) as [[A E]|[[[A B] E]|[A E]]].
  - transitivity FLOW_MIN_SCCM; [now apply flow_below|].
    symmetry. apply flow_below. rewrite E. lra.
  - transitivity (slope * c + (FLOW_MIN_SCCM - 4 * slope));
      [apply flow_inside; lra|].
    symmetry.
    transitivity (slope * Qmax 4 (Qmin 20 c) + (FLOW_MIN_SCCM - 4 * slope)).
    + apply flow_inside. rewrite E. lra.
    + rewrite E. reflexivity.
  - transitivity FLOW_MAX_SCCM; [now apply flow_above|].
    symmetry. apply flow_above. rewrite E. lra.
Qed.

(** On [4, 20] the clamp is the identity and the flow is the expression of
    the program. *)
Lemma flow_inside_expr (c : Q) :
  4 <= c <= 20 ->
  flow c == FLOW_MIN_SCCM + (c - 4) * (FLOW_MAX_SCCM - FLOW_MIN_SCCM) / 16.
Proof.
  intros H. rewrite (flow_inside c H), slope_eq. field.
Qed.

(** C5, as amended.  With a proper range ([FLOW_MAX_SCCM > FLOW_MIN_SCCM])
    the flow conversion clamps the current to [4, 20] mA before the linear
    map: every current at or below 4 mA maps as 4 mA does and every current
    at or above 20 mA maps as 20 mA does, in particular [flow 2 == flow 4]
    and [flow 25 == flow 20]; on [4, 20] the flow is
    [FLOW_MIN_SCCM + (c - 4) * (FLOW_MAX_SCCM - FLOW_MIN_SCCM) / 16], affine
    in the current; it is non-decreasing everywhere, and the lower end point
    is exact: [flow 4 == FLOW_MIN_SCCM]. *)
Theorem current_to_flow_clamped_affine_monotone :
  (forall c, c <= 4 -> flow c == flow 4) /\
  (forall c, 20 <= c -> flow c == flow 20) /\
  flow 2 == flow 4 /\
  flow 25 == flow 20 /\
  (forall c, flow c == flow (Qmax 4 (Qmin 20 c))) /\
  (forall c, 4 <= c <= 20 ->
     flow c == FLOW_MIN_SCCM + (c - 4) * (FLOW_MAX_SCCM - FLOW_MIN_SCCM) / 16) /\
  (forall c1 c2, c1 <= c2 -> flow c1 <= flow c2) /\
  flow 4 == FLOW_MIN_SCCM.
Proof.
  assert (flow 4 == FLOW_MIN_SCCM) as H4 by (apply (flow_below 4); lra).
  assert (flow 20 == FLOW_MAX_SCCM) as H20 by (apply (flow_above 20); lra).
  split.
  { intros c H. transitivity FLOW_MIN_SCCM;
      [now apply flow_below | symmetry; exact H4]. }
  split.
  { intros c H. transitivity FLOW_MAX_SCCM;
      [now apply flow_above | symmetry; exact H20]. }
  split.
  { transitivity FLOW_MIN_SCCM;
      [apply (flow_below 2); lra | symmetry; exact H4]. }
  split.
  { transitivity FLOW_MAX_SCCM;
      [apply (flow_above 25); lra | symmetry; exact H20]. }
  split; [exact flow_clamp_idem|].
  split; [exact flow_inside_expr|].
  split; [exact flow_monotone | exact H4].
Qed.

End Range.

(** The witness of C5: the default range 0..50 sccm. *)
Lemma current_to_flow_witness :
  0 < 50 /\
  current_to_flow_sccm 0 50 2 == current_to_flow_sccm 0 50 4 /\
  current_to_flow_sccm 0 50 25 == current_to_flow_sccm 0 50 20 /\
  current_to_flow_sccm 0 50 4 == 0 /\
  current_to_flow_sccm 0 50 (379 # 100) <= current_to_flow_sccm 0 50 12.
Proof.
  assert (0 < 50) as H by reflexivity.
  split; [exact H|].
  destruct (current_to_flow_clamped_affine_monotone 0 50 H)
    as (_ & _ & H2 & H25 & _ & _ & Hm & H4).
  split; [exact H2|]. split; [exact H25|]. split; [exact H4|].
  apply Hm. apply Qle_bool_iff. reflexivity.
Defined.

(** The flow of a current is the flow of the clamped current, whatever the
    configured range. *)
Lemma flow_of_clamped (lo hi c : Q) :
  current_to_flow_sccm lo hi c ==
  current_to_flow_sccm lo hi (Qmax 4 (Qmin 20 c)).
Proof.
  destruct (Qlt_le_dec lo hi) as [H|H].
  - apply (flow_clamp_idem lo hi H).
  - unfold current_to_flow_sccm.
    apply Qle_bool_iff in H. rewrite H. reflexivity.
Qed.

Lemma classify_low (c : Q) : classify c = Bajo_rango <-> c < 38 # 10.
Proof.
  unfold classify. qcases; split; intros H; try congruence; try lra;
    try reflexivity.
Qed.

Lemma classify_high (c : Q) : classify c = Alto_rango <-> 205 # 10 < c.
Proof.
  unfold classify. qcases; split; intros H; try congruence; try lra;
    try reflexivity.
Qed.

Lemma classify_ok (c : Q) : classify c = OK <-> 38 # 10 <= c <= 205 # 10.
Proof.
  unfold classify. qcases; split; intros H; try congruence; try lra;
    try reflexivity.
Qed.

Lemma newest_sample_kept (ts : Q) :
  Qle_bool (ts - MAX_FLOW_HISTORY_HOURS * 3600) ts = true.
Proof.
  apply Qle_bool_iff. unfold MAX_FLOW_HISTORY_HOURS. lra.
Qed.

(** C4.  For every sampled voltage (the shunt being a non-zero
    resistance), the sample appended by [_flow_take_sample] carries the raw
    current [voltage / shunt * 1000], the flow computed from that same raw
    current, and a status computed from the raw, unclamped current: low
    range iff the current is below 3.8 mA, high range iff it is above
    20.5 mA, OK otherwise.  In particular a raw current of 3.79 mA is tagged
    low range although its flow is the flow of the clamped 4 mA. *)
Theorem status_uses_unclamped_current
    (lo hi shunt : Q) (ch : FlowChannel) (ts voltage period : Q) :
  ~ shunt == 0 ->
  let current := (voltage / shunt) * 1000 in
  (exists kept,
     flow_take_sample lo hi shunt ch ts (Some voltage) period =
     Some {| flow_samples :=
               kept ++
               [ {| fs_ts := ts;
                    fs_flow := current_to_flow_sccm lo hi current;
                    fs_current_ma := current;
                    fs_voltage := voltage;
                    fs_status := classify current |} ];
             flow_next_sample := Some (ts + period) |}) /\
  (classify current = Bajo_rango <-> current < 38 # 10) /\
  (classify current = Alto_rango <-> 205 # 10 < current) /\
  (classify current = OK <-> 38 # 10 <= current <= 205 # 10) /\
  (current == 379 # 100 ->
     classify current = Bajo_rango /\
     current_to_flow_sccm lo hi current == current_to_flow_sccm lo hi 4).
Proof.
  intros Hs current.
  split.
  { exists (filter
              (fun row => Qle_bool (ts - MAX_FLOW_HISTORY_HOURS * 3600) (fs_ts row))
              (flow_samples ch)).
    unfold flow_take_sample, voltage_to_current_ma.
    destruct (Qeq_bool shunt 0) eqn:E.
    - apply Qeq_bool_iff in E. contradiction.
    - cbv zeta. rewrite filter_app. cbn [filter fs_ts].
      rewrite newest_sample_kept. reflexivity. }
  split; [apply classify_low|].
  split; [apply classify_high|].
  split; [apply classify_ok|].
  intros Hc. split.
  - apply classify_low. rewrite Hc. reflexivity.
  - rewrite flow_of_clamped.
    rewrite (flow_of_clamped lo hi 4).
    destruct (clamp_cases current) as [[A E]|[[[A B] E]|[A E]]];
      try (exfalso; lra).
    destruct (clamp_cases 4) as [[A' E']|[[_ E']|[A' E']]];
      try (exfalso; lra).
    + unfold current_to_flow_sccm. destruct (Qle_bool hi lo); [reflexivity|].
      cbv zeta. rewrite E, E'. reflexivity.
    + unfold current_to_flow_sccm. destruct (Qle_bool hi lo); [reflexivity|].
      cbv zeta. rewrite E, E'. reflexivity.
Qed.

(** The witness of C4: 0.55713 V across the default 147 ohm shunt is
    3.79 mA. *)
Lemma status_uses_unclamped_current_witness :
  ~ 147 == 0 /\
  classify ((55713 # 100000) / 147 * 1000) = Bajo_rango /\
  current_to_flow_sccm 0 50 ((55713 # 100000) / 147 * 1000) ==
  current_to_flow_sccm 0 50 4.
Proof.
  assert (~ 147 == 0) as H by (intros E; discriminate E).
  split; [exact H|].
  destruct (status_uses_unclamped_current 0 50 147
              {| flow_samples := []; flow_next_sample := None |}
              0 (55713 # 100000) 60 H)
    as (_ & _ & _ & _ & Hx).
  apply Hx. reflexivity.
Defined.

End LinearizerFacts.

(** ** Linearizer in binary64 *)

Module Binary64Facts.

Import PrimFloat Binary64.

Local Open Scope float_scope.

(** C5 as stated fails at the upper end point in the arithmetic of the
    program.  For the range 0.3..0.9 sccm the value at 20 mA is
    [0.3 + (20 - 4) * (0.9 - 0.3) / 16], which binary64 rounds to
    0.9000000000000001, above [FLOW_MAX_SCCM]; the clamp and the lower end
    point are as claimed. *)
Lemma upper_end_point_inexact_b64 :
  let flow := current_to_flow_sccm_b64 f_0_3 f_0_9 in
  (f_0_3 <? f_0_9) = true /\
  flow 20 = f_0_9_up /\
  (flow 20 =? f_0_9) = false /\
  (f_0_9 <? flow 20) = true /\
  flow 25 = flow 20 /\
  flow 2 = flow 4 /\
  flow 4 = f_0_3.
Proof. cbv zeta. repeat split; vm_compute; reflexivity. Qed.

End Binary64Facts.

(** ** Calendar look-ups *)

Module CalendarFacts.

Import Clock Calendar Scenario.

Lemma digit_compare (a b : nat) :
  (a < 10)%nat -> (b < 10)%nat ->
  Ascii.compare (digit a) (digit b) = Nat.compare a b.
Proof.
  intros Ha Hb.
  do 10 (destruct a as [|a];
         [do 10 (destruct b as [|b]; [reflexivity|]); lia|]).
  lia.
Qed.

Lemma digit_value_inv (c : ascii) (d : nat) :
  digit_value c = Some d -> c = digit d /\ (d < 10)%nat.
Proof.
  destruct c as [[] [] [] [] [] [] [] []]; vm_compute; intros H;
    try discriminate H; inversion H; subst; split; try reflexivity; lia.
Qed.

Lemma pad2_compare (a b : nat) (r1 r2 : string) :
  (a < 100)%nat -> (b < 100)%nat ->
  String.compare (pad2 a r1) (pad2 b r2) =
  match Nat.compare a b with Eq => String.compare r1 r2 | o => o end.
Proof.
  intros Ha Hb. unfold pad2. cbn [String.compare].
  pose proof (Nat.div_mod_eq a 10) as Da.
  pose proof (Nat.div_mod_eq b 10) as Db.
  pose proof (Nat.mod_upper_bound a 10 ltac:(lia)) as Ma.
  pose proof (Nat.mod_upper_bound b 10 ltac:(lia)) as Mb.
  assert (a / 10 < 10)%nat as Qa by (apply Nat.Div0.div_lt_upper_bound; lia).
  assert (b / 10 < 10)%nat as Qb by (apply Nat.Div0.div_lt_upper_bound; lia).
  rewrite !digit_compare by assumption.
  destruct (Nat.compare_spec (a / 10) (b / 10)) as [E|E|E];
  destruct (Nat.compare_spec (a mod 10) (b mod 10)) as [F|F|F];
  destruct (Nat.compare_spec a b) as [G|G|G]; try reflexivity; lia.
Qed.

Lemma hhmm_compare (h1 m1 h2 m2 : nat) :
  (h1 < 24)%nat -> (m1 < 60)%nat -> (h2 < 24)%nat -> (m2 < 60)%nat ->
  String.compare (hhmm h1 m1) (hhmm h2 m2) =
  Nat.compare (60 * h1 + m1) (60 * h2 + m2).
Proof.
  intros. unfold hhmm.
  rewrite pad2_compare by lia.
  cbn [String.compare]. 
  replace (Ascii.compare ":" ":") with Eq by reflexivity.
  rewrite pad2_compare by lia. cbn [String.compare].
  destruct (Nat.compare_spec h1 h2) as [E|E|E];
  destruct (Nat.compare_spec m1 m2) as [F|F|F];
  destruct (Nat.compare_spec (60 * h1 + m1) (60 * h2 + m2)) as [G|G|G];
    try reflexivity; lia.
Qed.

Lemma minutes_of_inv (s : string) (m : nat) :
  minutes_of s = Some m ->
  exists h mi, (h < 24)%nat /\ (mi < 60)%nat /\ s = hhmm h mi /\ m = (60 * h + mi)%nat.
Proof.
  unfold minutes_of.
  destruct s as [|a [|b [|c [|d [|e [|x s]]]]]]; try discriminate.
  destruct (digit_value a) as [h1|] eqn:Ea; [|discriminate].
  destruct (digit_value b) as [h0|] eqn:Eb; [|discriminate].
  destruct (digit_value d) as [m1|] eqn:Ed; [|discriminate].
  destruct (digit_value e) as [m0|] eqn:Ee; [|discriminate].
  apply digit_value_inv in Ea, Eb, Ed, Ee.
  destruct Ea as [-> Ha], Eb as [-> Hb], Ed as [-> Hd], Ee as [-> He].
  destruct (Ascii.eqb c ":") eqn:Ec; [|discriminate].
  apply Ascii.eqb_eq in Ec. subst c.
  cbn [andb].
  destruct (10 * h1 + h0 <? 24)%nat eqn:Eh; [|discriminate].
  destruct (10 * m1 + m0 <? 60)%nat eqn:Em; [|discriminate].
  cbn [andb]. intros H. inversion H; subst; clear H.
  apply Nat.ltb_lt in Eh, Em.
  exists (10 * h1 + h0)%nat, (10 * m1 + m0)%nat.
  split; [exact Eh|]. split; [exact Em|]. split; [|lia].
  unfold hhmm, pad2.
  replace ((10 * h1 + h0) / 10)%nat with h1
    by (apply (Nat.div_unique _ 10 h1 h0); lia).
  replace ((10 * h1 + h0) mod 10)%nat with h0
    by (apply (Nat.mod_unique _ 10 h1 h0); lia).
  replace ((10 * m1 + m0) / 10)%nat with m1
    by (apply (Nat.div_unique _ 10 m1 m0); lia).
  replace ((10 * m1 + m0) mod 10)%nat with m0
    by (apply (Nat.mod_unique _ 10 m1 m0); lia).
  reflexivity.
Qed.

Lemma minute_of_day_bound (t : Q) : (minute_of_day t < 1440)%nat.
Proof.
  unfold minute_of_day.
  pose proof (Z.mod_pos_bound (minute_number t) 1440 ltac:(lia)). lia.
Qed.

Lemma leb_hhmm (h1 m1 h2 m2 : nat) :
  (h1 < 24)%nat -> (m1 < 60)%nat -> (h2 < 24)%nat -> (m2 < 60)%nat ->
  String.leb (hhmm h1 m1) (hhmm h2 m2) = (60 * h1 + m1 <=? 60 * h2 + m2)%nat.
Proof.
  intros. unfold String.leb. rewrite hhmm_compare by assumption.
  destruct (Nat.compare_spec (60 * h1 + m1) (60 * h2 + m2));
    symmetry; [apply Nat.leb_le | apply Nat.leb_le | apply Nat.leb_gt]; lia.
Qed.

Lemma leb_now (s : string) (m : nat) (t : Q) :
  minutes_of s = Some m ->
  String.leb s (strftime_HM t) = (m <=? minute_of_day t)%nat.
Proof.
  intros H. apply minutes_of_inv in H as (h & mi & Hh & Hm & -> & ->).
  unfold strftime_HM.
  pose proof (minute_of_day_bound t) as Hb.
  pose proof (Nat.div_mod_eq (minute_of_day t) 60) as Hd.
  pose proof (Nat.mod_upper_bound (minute_of_day t) 60 ltac:(lia)) as Hu.
  assert (minute_of_day t / 60 < 24)%nat as Hq
    by (apply Nat.Div0.div_lt_upper_bound; lia).
  rewrite leb_hhmm by assumption.
  f_equal. lia.
Qed.

Lemma leb_keys (e y : event) :
  canonical e -> canonical y ->
  String.leb (time e) (time y) = (key e <=? key y)%nat.
Proof.
  unfold canonical, key. intros He Hy.
  destruct (minutes_of (time e)) as [m1|] eqn:E1; [|congruence].
  destruct (minutes_of (time y)) as [m2|] eqn:E2; [|congruence].
  apply minutes_of_inv in E1 as (h1 & i1 & ? & ? & -> & ->).
  apply minutes_of_inv in E2 as (h2 & i2 & ? & ? & -> & ->).
  now apply leb_hhmm.
Qed.

Lemma truthy_canonical (e : event) : canonical e -> truthy (time e) = true.
Proof.
  unfold canonical. destruct (time e); [cbn; congruence | reflexivity].
Qed.

(** Eligibility: the filter of [sp_from_date_calendar] on canonical events. *)
Lemma eligible_canonical (e : event) (t : Q) :
  canonical e ->
  truthy (time e) && String.leb (time e) (strftime_HM t) =
  (key e <=? minute_of_day t)%nat.
Proof.
  intros H. rewrite (truthy_canonical e H). cbn [andb].
  unfold canonical in H. unfold key.
  destruct (minutes_of (time e)) as [m|] eqn:E; [|congruence].
  now apply leb_now.
Qed.

Lemma In_insert_by_time (x e : event) (l : list event) :
  In x (insert_by_time e l) <-> x = e \/ In x l.
Proof.
  induction l as [|y ys IH]; cbn.
  - intuition.
  - destruct (String.leb (time e) (time y)); cbn; rewrite ?IH; intuition.
Qed.

Lemma In_sorted_by_time (x : event) (l : list event) :
  In x (sorted_by_time l) <-> In x l.
Proof.
  induction l as [|y ys IH]; cbn; [tauto|].
  rewrite In_insert_by_time, IH. intuition.
Qed.

Lemma last_item_cons {A : Type} (x : A) (l : list A) :
  l <> [] -> last_item (x :: l) = last_item l.
Proof. destruct l; [congruence | reflexivity]. Qed.

Lemma insert_by_time_nonempty (e : event) (l : list event) :
  insert_by_time e l <> [].
Proof. destruct l; cbn; [|destruct (String.leb _ _)]; discriminate. Qed.

(** An event later than all of a list ends up last. *)
Lemma last_insert_later (e : event) (l : list event) :
  canonical e -> Forall canonical l ->
  Forall (fun y => (key y < key e)%nat) l ->
  last_item (insert_by_time e l) = Some e.
Proof.
  intros He Hc Hl. induction l as [|y ys IH]; [reflexivity|].
  inversion Hc; subst. inversion Hl; subst.
  cbn [insert_by_time]. rewrite leb_keys by assumption.
  destruct (Nat.leb_spec (key e) (key y)); [lia|].
  rewrite last_item_cons by apply insert_by_time_nonempty.
  now apply IH.
Qed.

(** An event that is not later than some element leaves the last one. *)
Lemma last_insert_not_later (e : event) (l : list event) :
  canonical e -> Forall canonical l ->
  Exists (fun y => (key e <= key y)%nat) l ->
  last_item (insert_by_time e l) = last_item l.
Proof.
  intros He Hc Hl. induction l as [|y ys IH]; [inversion Hl|].
  inversion Hc; subst.
  cbn [insert_by_time]. rewrite leb_keys by assumption.
  destruct (Nat.leb_spec (key e) (key y)).
  - rewrite last_item_cons by discriminate. reflexivity.
  - inversion Hl as [? ? Hy|? ? Hys]; subst; [lia|].
    rewrite last_item_cons by apply insert_by_time_nonempty.
    rewrite IH by assumption.
    destruct ys; [inversion Hys | reflexivity].
Qed.

Lemma Forall_canonical_sorted (l : list event) :
  Forall canonical l -> Forall canonical (sorted_by_time l).
Proof.
  rewrite !Forall_forall. intros H x Hx. apply H.
  now apply (proj1 (In_sorted_by_time x l)).
Qed.

(** The last element of the stable sort: the latest event, and among events
    of the same time the one listed last. *)
Lemma last_sorted_spec (l : list event) :
  Forall canonical l -> l <> [] ->
  exists before e after,
    l = before ++ e :: after /\
    last_item (sorted_by_time l) = Some e /\
    Forall (fun y => (key y <= key e)%nat) before /\
    Forall (fun y => (key y < key e)%nat) after.
Proof.
  induction l as [|x l IH]; intros Hc Hne; [congruence|].
  inversion Hc as [|? ? Hx Hl]; subst.
  destruct l as [|y l'].
  - exists [], x, []. cbn. auto.
  - remember (y :: l') as L eqn:EL.
    assert (L <> []) as HL by (subst; discriminate). clear EL y l'.
    destruct (IH Hl HL) as (b & e & a & El & Elast & Hb & Ha).
    change (sorted_by_time (x :: L)) with (insert_by_time x (sorted_by_time L)).
    assert (forall z, In z L -> (key z <= key e)%nat) as Hmax.
    { intros z Hz. rewrite El in Hz. apply in_app_or in Hz.
      rewrite Forall_forall in Hb, Ha.
      destruct Hz as [Hz|[<-|Hz]]; [apply Hb in Hz | | apply Ha in Hz]; lia. }
    destruct (Nat.lt_ge_cases (key e) (key x)) as [Hlt|Hge].
    + exists [], x, L. split; [reflexivity|]. split; [|split; [constructor|]].
      * apply last_insert_later; [assumption | now apply Forall_canonical_sorted |].
        apply Forall_forall. intros z Hz.
        apply (proj1 (In_sorted_by_time z L)) in Hz.
        apply Hmax in Hz. lia.
      * apply Forall_forall. intros z Hz. apply Hmax in Hz. lia.
    + exists (x :: b), e, a. split; [rewrite El; reflexivity|].
      split; [|split; [constructor; assumption | assumption]].
      rewrite last_insert_not_later; [exact Elast | assumption
        | now apply Forall_canonical_sorted |].
      apply Exists_exists. exists e. split; [|exact Hge].
      apply (proj2 (In_sorted_by_time e L)).
      rewrite El. apply in_or_app. right. now left.
Qed.

Lemma filter_split {A : Type} (f : A -> bool) (l b a : list A) (e : A) :
  filter f l = b ++ e :: a ->
  exists l1 l2, l = l1 ++ e :: l2 /\ filter f l1 = b /\ filter f l2 = a /\ f e = true.
Proof.
  revert b. induction l as [|x l IH]; intros b H; cbn in H.
  - destruct b; discriminate.
  - destruct (f x) eqn:Ex.
    + destruct b as [|y b]; cbn in H; injection H as Hx Hr.
      * subst. exists [], l. cbn. auto.
      * subst y. destruct (IH b Hr) as (l1 & l2 & El & E1 & E2 & He).
        exists (x :: l1), l2. cbn. rewrite Ex, El, E1. auto.
    + destruct (IH b H) as (l1 & l2 & El & E1 & E2 & He).
      exists (x :: l1), l2. cbn. rewrite Ex, El. auto.
Qed.

Lemma day_events_nil (cal : calendar) (t : Q) (default : option Q) :
  dict_get cal (day_number t) = [] ->
  sp_from_date_calendar cal t default = default.
Proof.
  intros H. unfold sp_from_date_calendar.
  destruct cal; [reflexivity|]. rewrite H. reflexivity.
Qed.

Lemma sp_from_date_calendar_unfold (cal : calendar) (t : Q) (default : option Q) :
  sp_from_date_calendar cal t default =
  match last_item
          (sorted_by_time
             (filter (fun e => truthy (time e) && String.leb (time e) (strftime_HM t))
                     (dict_get cal (day_number t)))) with
  | Some e => Some (value e)
  | None => default
  end.
Proof.
  unfold sp_from_date_calendar.
  destruct cal as [|c cal]; [reflexivity|].
  destruct (dict_get (c :: cal) (day_number t)) as [|e l]; [reflexivity|].
  destruct (filter _ (e :: l)); reflexivity.
Qed.

(** C6, as amended.  For every schedule whose events on the date of [t] have
    their time written as a zero-padded ["HH:MM"], the look-up returns the
    value of the latest event of that date at or before the time of day of
    [t], and among events of the same time the one listed last; it returns
    the default when no event of the date is at or before that time. *)
Theorem value_at_latest_event (cal : calendar) (t : Q) (default : option Q) :
  let flist := dict_get cal (day_number t) in
  let now := minute_of_day t in
  Forall canonical flist ->
  (Forall (fun e => (now < key e)%nat) flist /\
   sp_from_date_calendar cal t default = default) \/
  (exists before e after,
     flist = before ++ e :: after /\
     (key e <= now)%nat /\
     sp_from_date_calendar cal t default = Some (value e) /\
     Forall (fun y => (key y <= now)%nat -> (key y <= key e)%nat) before /\
     Forall (fun y => (key y <= now)%nat -> (key y < key e)%nat) after).
Proof.
  intros flist now Hc.
  rewrite sp_from_date_calendar_unfold. fold flist.
  set (f := fun e => truthy (time e) && String.leb (time e) (strftime_HM t)).
  assert (forall e, In e flist -> f e = (key e <=? now)%nat) as Hf.
  { intros e He. apply eligible_canonical.
    rewrite Forall_forall in Hc. now apply Hc. }
  destruct (filter f flist) as [|x todays] eqn:Et.
  - left. split; [|reflexivity].
    apply Forall_forall. intros e He.
    assert (f e = false) as Hfe.
    { destruct (f e) eqn:E; [|reflexivity].
      assert (In e (filter f flist)) as Hin by (apply filter_In; auto).
      rewrite Et in Hin. destruct Hin. }
    rewrite (Hf e He) in Hfe. apply Nat.leb_gt in Hfe. exact Hfe.
  - right.
    assert (Forall canonical (x :: todays)) as Hct.
    { rewrite <- Et. apply Forall_forall. intros e He.
      apply filter_In in He as [He _]. rewrite Forall_forall in Hc. now apply Hc. }
    destruct (last_sorted_spec (x :: todays) Hct ltac:(discriminate))
      as (b & e & a & El & Elast & Hb & Ha).
    rewrite El in Et.
    destruct (filter_split f flist b a e Et) as (l1 & l2 & Efl & E1 & E2 & Hfe).
    exists l1, e, l2.
    assert (In e flist) as Hein by (rewrite Efl; apply in_or_app; right; now left).
    split; [exact Efl|]. split.
    { rewrite (Hf e Hein) in Hfe. now apply Nat.leb_le in Hfe. }
    split; [rewrite Elast; reflexivity|].
    split; apply Forall_forall; intros y Hy Hle.
    + assert (In y b) as Hyb.
      { rewrite <- E1. apply filter_In. split; [exact Hy|].
        rewrite Hf; [now apply Nat.leb_le|].
        rewrite Efl. apply in_or_app. now left. }
      rewrite Forall_forall in Hb. now apply Hb.
    + assert (In y a) as Hya.
      { rewrite <- E2. apply filter_In. split; [exact Hy|].
        rewrite Hf; [now apply Nat.leb_le|].
        rewrite Efl. apply in_or_app. right. now right. }
      rewrite Forall_forall in Ha. now apply Ha.
Qed.

(** The example of the specification: events at 08:00 and 14:00. *)
Example value_at_two_events (default : option Q) :
  sp_from_date_calendar cal_two_events (at_hms 7 59 0) default = default /\
  sp_from_date_calendar cal_two_events (at_hms 8 0 0) default = Some 20 /\
  sp_from_date_calendar cal_two_events (at_hms 13 59 0) default = Some 20 /\
  sp_from_date_calendar cal_two_events (at_hms 14 0 0) default = Some 22.
Proof. repeat split; vm_compute; reflexivity. Qed.

Lemma value_at_latest_event_witness :
  Forall canonical (dict_get cal_two_events (day_number (at_hms 14 0 0))) /\
  sp_from_date_calendar cal_two_events (at_hms 14 0 0) None <> None.
Proof.
  assert (Forall canonical (dict_get cal_two_events (day_number (at_hms 14 0 0))))
    as H by (repeat constructor; discriminate).
  split; [exact H|].
  destruct (value_at_latest_event cal_two_events (at_hms 14 0 0) None H)
    as [[Hall _]|(b & e & a & _ & _ & -> & _)]; [|discriminate].
  exfalso. vm_compute in Hall.
  inversion Hall as [|? ? H1 H2]; subst. inversion H2 as [|? ? H3 _]; subst.
  vm_compute in H3. lia.
Defined.

(** C6 as stated fails on a schedule the editor accepts: an event at
    ["8:00"] passes [hhmm_ok] and stands for 08:00, yet at 14:00 of the same
    day the look-up returns the default, because the times are compared as
    text. *)
Lemma value_at_misses_unpadded_time :
  hhmm_ok "8:00" = true /\
  parse_hm "8:00" = Some (8, 0)%nat /\
  minute_of_day (at_hms 14 0 0) = (14 * 60)%nat /\
  sp_from_date_calendar cal_unpadded (at_hms 14 0 0) None = None.
Proof. repeat split; vm_compute; reflexivity. Qed.

End CalendarFacts.

(** ** The DS18B20 read path *)

Module HardwareFacts.

Import Hardware.

Section Read.

Variable py_float : string -> option Q.

(** On the hardware path the read leaves the warning flag cleared, whatever
    it was and whatever the bus returned. *)
Lemma flag_cleared_after_read (hw : Hardware) (w1 : bus) (index : nat) (noise : Q) :
  sim hw = false -> ds_devices hw <> [] ->
  last_temp_error (snd (read_temp_ds18b20 py_float hw w1 index noise)) = false.
Proof.
  intros Hs Hd. unfold read_temp_ds18b20. rewrite Hs.
  destruct (ds_devices hw) as [|d ds] eqn:E; [congruence|].
  cbn [orb]. cbv zeta.
  destruct (read_device py_float w1 _); reflexivity.
Qed.

(** A failing read returns the fallback 20 degrees. *)
Lemma failing_read_returns_20 (hw : Hardware) (w1 : bus) (index : nat) (noise : Q) :
  sim hw = false -> ds_devices hw <> [] ->
  (forall dev, read_device py_float w1 dev = None) ->
  fst (read_temp_ds18b20 py_float hw w1 index noise) = 20.
Proof.
  intros Hs Hd Hf. unfold read_temp_ds18b20. rewrite Hs.
  destruct (ds_devices hw) as [|d ds] eqn:E; [congruence|].
  cbn [orb]. cbv zeta. rewrite Hf. reflexivity.
Qed.

(** A failing read that starts with the flag cleared prints one warning. *)
Lemma failing_read_warns (hw : Hardware) (w1 : bus) (index : nat) (noise : Q) :
  sim hw = false -> ds_devices hw <> [] -> last_temp_error hw = false ->
  (forall dev, read_device py_float w1 dev = None) ->
  List.length (console (snd (read_temp_ds18b20 py_float hw w1 index noise))) =
  S (List.length (console hw)).
Proof.
  intros Hs Hd Hl Hf. unfold read_temp_ds18b20. rewrite Hs.
  destruct (ds_devices hw) as [|d ds] eqn:E; [congruence|].
  cbn [orb]. cbv zeta. rewrite Hf, Hl. cbn.
  rewrite length_app. cbn. lia.
Qed.

(** C2.  Two consecutive reads of a probe whose packet fails the CRC check
    both return the fallback 20 degrees, and both print the warning: the
    flag that should silence the second warning is cleared again by the
    [finally] clause of the first read. *)
Theorem second_failing_read_warns_again :
  let hw0 := init false [0; 0; 0] [probe] in
  let result := read_many py_float hw0 0 [bad_crc; bad_crc] in
  fst result = [20; 20] /\
  console (snd result) = [probe; probe] /\
  last_temp_error (snd result) = false.
Proof.
  cbv zeta. repeat split; reflexivity.
Qed.

End Read.

End HardwareFacts.

(** ** Thermal controller and forcing commands *)

Module ThermalFacts.

Import Clock Calendar Panel.

Lemma apply_relays_flags (p : Panel) :
  cold_in (apply_relays p) = cold_in p /\ hot_in (apply_relays p) = hot_in p.
Proof.
  unfold apply_relays. destruct (cold_in p) eqn:Ec, (hot_in p) eqn:Eh;
    cbn; rewrite ?Ec, ?Eh; cbn; rewrite ?Ec, ?Eh; auto.
Qed.

Lemma apply_nutricion_state_flags (p : Panel) (b : bool) :
  cold_in (apply_nutricion_state p b) = cold_in p /\
  hot_in (apply_nutricion_state p b) = hot_in p /\
  manual_mode (apply_nutricion_state p b) = manual_mode p /\
  sp (apply_nutricion_state p b) = sp p /\
  band (apply_nutricion_state p b) = band p.
Proof.
  unfold apply_nutricion_state.
  destruct (b && negb (nut_led_on p)); [cbn; auto|].
  destruct (negb b && nut_led_on p); cbn; auto.
Qed.

Lemma exclusive_apply_relays (p : Panel) : exclusive p -> exclusive (apply_relays p).
Proof.
  unfold exclusive. destruct (apply_relays_flags p) as [-> ->]. auto.
Qed.

Lemma exclusive_forzar_frio (p : Panel) : exclusive p -> exclusive (forzar_frio p).
Proof.
  intros H. unfold forzar_frio. destruct (negb (can_force p)); [exact H|].
  apply exclusive_apply_relays. reflexivity.
Qed.

Lemma exclusive_forzar_caliente (p : Panel) :
  exclusive p -> exclusive (forzar_caliente p).
Proof.
  intros H. unfold forzar_caliente. destruct (negb (can_force p)); [exact H|].
  apply exclusive_apply_relays. reflexivity.
Qed.

Lemma exclusive_cerrar_todo (p : Panel) : exclusive (cerrar_todo p).
Proof. unfold cerrar_todo. apply exclusive_apply_relays. reflexivity. Qed.

Lemma exclusive_stop_all (p : Panel) : exclusive (stop_all p).
Proof.
  unfold stop_all. apply exclusive_apply_relays. unfold exclusive.
  match goal with |- context [apply_nutricion_state ?q ?b] =>
    destruct (apply_nutricion_state_flags q b) as (-> & -> & _) end.
  reflexivity.
Qed.

Lemma exclusive_toggle_manual_nut (p : Panel) (tnow : Q) :
  exclusive p -> exclusive (toggle_manual_nut p tnow).
Proof.
  intros H. unfold toggle_manual_nut, exclusive.
  match goal with |- context [apply_nutricion_state ?q ?b] =>
    destruct (apply_nutricion_state_flags q b) as (-> & -> & _) end.
  exact H.
Qed.

Lemma sp_block_flags (p : Panel) (tnow : Q) :
  cold_in (sp_block p tnow) = cold_in p /\ hot_in (sp_block p tnow) = hot_in p.
Proof.
  unfold sp_block. destruct (negb (manual_mode p)); [|auto].
  destruct (sp_from_date_calendar _ _ _); cbn; auto.
Qed.

Lemma fire_block_flags (p : Panel) (tnow : Q) :
  cold_in (fire_block p tnow) = cold_in p /\ hot_in (fire_block p tnow) = hot_in p.
Proof.
  unfold fire_block. destruct (new_minute p tnow); [|auto].
  destruct (nut_fire_for_minute _ _); [cbn; auto|].
  destruct (Qlt_bool _ _); cbn; auto.
Qed.

Lemma dosing_block_flags (p : Panel) (tnow : Q) :
  cold_in (dosing_block p tnow) = cold_in p /\
  hot_in (dosing_block p tnow) = hot_in p.
Proof.
  unfold dosing_block. destruct (schedule_active p tnow);
  match goal with |- context [apply_nutricion_state ?q ?b] =>
    destruct (apply_nutricion_state_flags q b) as (-> & -> & _) end;
  cbn; auto.
Qed.

(** The floored band is positive. *)
Lemma band_floor_pos (b : Q) : 0 < Qmax (5 # 100) b.
Proof.
  apply Qlt_le_trans with (5 # 100); [reflexivity | apply Q.le_max_l].
Qed.

(** The hysteresis step keeps the two intents exclusive. *)
Lemma exclusive_thermal_block (p : Panel) :
  exclusive p -> exclusive (thermal_block p).
Proof.
  intros H. unfold thermal_block.
  destruct (negb (manual_mode p)); [|exact H].
  cbv zeta. apply exclusive_apply_relays.
  pose proof (band_floor_pos (band p)) as Hb.
  set (b := Qmax (5 # 100) (band p)) in *. clearbody b.
  unfold exclusive in H.
  destruct (cold_in p) eqn:Ec, (hot_in p) eqn:Eh; try discriminate H;
    qcases; cbn [t sp band set_cold_in set_hot_in] in *;
    try (exfalso; lra);
    unfold exclusive;
    repeat progress (cbn; rewrite ?Ec, ?Eh);
    try reflexivity;
    try (destruct (apply_relays_flags
                     (set_hot_in (set_cold_in p false) false)) as [-> ->];
         reflexivity).
Qed.

Lemma exclusive_update_process (p : Panel) (tnow t_in : Q) :
  exclusive p -> exclusive (update_process p tnow t_in).
Proof.
  intros H. unfold update_process. apply exclusive_thermal_block.
  unfold exclusive in *. cbn [cold_in hot_in set_t].
  destruct (dosing_block_flags (fire_block (sp_block p tnow) tnow) tnow) as [-> ->].
  destruct (fire_block_flags (sp_block p tnow) tnow) as [-> ->].
  destruct (sp_block_flags p tnow) as [-> ->].
  exact H.
Qed.

Lemma exclusive_step (p : Panel) (c : command) :
  exclusive p -> exclusive (step p c).
Proof.
  intros H. destruct c; cbn [step]; try exact H.
  - now apply exclusive_update_process.
  - now apply exclusive_forzar_frio.
  - now apply exclusive_forzar_caliente.
  - apply exclusive_cerrar_todo.
  - apply exclusive_stop_all.
  - now apply exclusive_toggle_manual_nut.
Qed.

Lemma exclusive_run (cs : list command) (p : Panel) :
  exclusive p -> exclusive (run p cs).
Proof.
  revert p. induction cs as [|c cs IH]; intros p H; [exact H|].
  cbn. apply IH. now apply exclusive_step.
Qed.

(** C1.  Whatever the sequence of ticks (with any temperature) and operator
    commands (setpoint, band and mode changes, calendar edits, forced cold,
    forced hot, close all, stop all, pump toggles) a vessel goes through
    from its start, [cold_in] and [hot_in] are not both true afterwards; in
    particular they are not both true after any tick. *)
Theorem cold_and_hot_never_both
    (t0 : Q) (pin_cold pin_hot : nat) (cs : list command) :
  let p := run (init t0 pin_cold pin_hot) cs in
  cold_in p && hot_in p = false.
Proof.
  cbv zeta. apply exclusive_run. reflexivity.
Qed.

(** Forcing without the override, C3 as amended: with the manual override
    off, forced cold and forced hot are rejected and leave the whole panel,
    actuator flags and relays included, as it was. *)
Theorem forcing_rejected_without_override (p : Panel) :
  manual_mode p = false ->
  forzar_frio p = p /\ forzar_caliente p = p.
Proof.
  intros H. unfold forzar_frio, forzar_caliente, can_force. rewrite H.
  split; reflexivity.
Qed.

Lemma forcing_rejected_witness :
  manual_mode (init 20 7 8) = false /\
  forzar_frio (init 20 7 8) = init 20 7 8 /\
  forzar_caliente (init 20 7 8) = init 20 7 8.
Proof.
  split; [reflexivity|].
  apply (forcing_rejected_without_override (init 20 7 8)). reflexivity.
Defined.

(** C3 as stated fails for close-all: a vessel that is cooling in automatic
    mode (override off) has its cold actuator closed by [cerrar_todo]. *)
Lemma cerrar_todo_not_rejected :
  let p := run (init 25 7 8) [Tick 0 25] in
  manual_mode p = false /\
  cold_in p = true /\
  cold_in (cerrar_todo p) = false.
Proof.
  cbv zeta. repeat split; reflexivity.
Qed.

End ThermalFacts.

(** ** Dosing controller *)

Module DosingFacts.

Import Clock Calendar Panel Scenario.

Lemma view_apply_relays (p : Panel) : view (apply_relays p) = view p.
Proof.
  unfold apply_relays. destruct (cold_in p), (hot_in p); cbn;
  repeat match goal with |- context [if ?b then _ else _] => destruct b end;
  reflexivity.
Qed.

Lemma view_thermal_block (p : Panel) : view (thermal_block p) = view p.
Proof.
  unfold thermal_block. destruct (negb (manual_mode p)); [|reflexivity].
  cbv zeta. rewrite view_apply_relays.
  repeat match goal with
  | |- context [if ?b then _ else _] => destruct b
  end; try reflexivity; unfold cerrar_todo; rewrite ?view_apply_relays; reflexivity.
Qed.

Lemma view_sp_block (p : Panel) (tnow : Q) : view (sp_block p tnow) = view p.
Proof.
  unfold sp_block. destruct (negb (manual_mode p)); [|reflexivity].
  destruct (sp_from_date_calendar _ _ _); reflexivity.
Qed.

(** The guard of the dosing-start step reads the dosing view only. *)
Lemma fires_view (p q : Panel) (tnow : Q) :
  view p = view q -> fires p tnow = fires q tnow.
Proof.
  intros H. unfold fires, new_minute.
  injection H as -> -> _ _ _. reflexivity.
Qed.

(** The dosing-start step, by its guard. *)
Lemma fire_block_spec (p : Panel) (tnow : Q) :
  fire_block p tnow =
  if fires p tnow then
    set_last_min
      (hw_do (set_nut_running_until p (Some (tnow + total_at p tnow)))
             (Start_stepper (freq_nut p)))
      (Some (minute_number tnow))
  else if new_minute p tnow then set_last_min p (Some (minute_number tnow))
  else p.
Proof.
  unfold fire_block, fires, total_at.
  destruct (new_minute p tnow); [|reflexivity]. cbn [andb].
  destruct (nut_fire_for_minute (cal_nut p) tnow) as [|d ds]; [reflexivity|].
  destruct (Qlt_bool 0 (dur_total (d :: ds))); reflexivity.
Qed.

Lemma new_minute_false (p : Panel) (tnow : Q) :
  new_minute p tnow = false -> last_min p = Some (minute_number tnow).
Proof.
  unfold new_minute. destruct (last_min p) as [m|]; [|discriminate].
  rewrite negb_false_iff. intros H. apply Z.eqb_eq in H. now subst.
Qed.

(** What a tick does to the dosing view. *)
Lemma view_update_process (p : Panel) (tnow t_in : Q) :
  view (update_process p tnow t_in) =
  {| v_cal_nut := cal_nut p;
     v_last_min := Some (minute_number tnow);
     v_until := if active_after_fire p tnow then window_after_fire p tnow else None;
     v_led := active_after_fire p tnow || manual_nut_on p;
     v_manual := manual_nut_on p |}.
Proof.
  unfold update_process. rewrite view_thermal_block.
  assert (view (sp_block p tnow) = view p) as Hv by apply view_sp_block.
  set (q := sp_block p tnow) in *.
  unfold active_after_fire, window_after_fire, total_at.
  rewrite <- (fires_view q p tnow Hv).
  injection Hv as Hc Hl Hu Hled Hm. rewrite <- Hc, <- Hu, <- Hm. clear Hc Hu Hm Hled.
  rewrite fire_block_spec. unfold total_at.
  unfold view, dosing_block, schedule_active, apply_nutricion_state.
  destruct (fires q tnow) eqn:Ef; [|destruct (new_minute q tnow) eqn:En];
    cbn -[minute_number Qlt_bool Qplus dur_total nut_fire_for_minute].
  - destruct (Qlt_bool tnow _) eqn:Ea;
      cbn -[minute_number Qlt_bool Qplus dur_total nut_fire_for_minute];
      destruct (nut_led_on q) eqn:El, (manual_nut_on q) eqn:Em;
      cbn -[minute_number Qlt_bool Qplus dur_total nut_fire_for_minute];
      rewrite ?Em; reflexivity.
  - destruct (nut_running_until q) as [u|] eqn:Eu;
      [destruct (Qlt_bool tnow u) eqn:Ea|];
      cbn -[minute_number Qlt_bool Qplus dur_total nut_fire_for_minute];
      destruct (nut_led_on q) eqn:El, (manual_nut_on q) eqn:Em;
      cbn -[minute_number Qlt_bool Qplus dur_total nut_fire_for_minute];
      rewrite ?Eu, ?Em; reflexivity.
  - apply new_minute_false in En.
    destruct (nut_running_until q) as [u|] eqn:Eu;
      [destruct (Qlt_bool tnow u) eqn:Ea|];
      cbn -[minute_number Qlt_bool Qplus dur_total nut_fire_for_minute];
      destruct (nut_led_on q) eqn:El, (manual_nut_on q) eqn:Em;
      cbn -[minute_number Qlt_bool Qplus dur_total nut_fire_for_minute];
      rewrite ?Eu, ?En, ?Em; reflexivity.
Qed.

Lemma view_apply_nutricion_state (p : Panel) (b : bool) :
  view (apply_nutricion_state p b) =
  {| v_cal_nut := cal_nut p; v_last_min := last_min p;
     v_until := nut_running_until p; v_led := b; v_manual := manual_nut_on p |}.
Proof.
  unfold apply_nutricion_state.
  destruct (b && negb (nut_led_on p)); [reflexivity|].
  destruct (negb b && nut_led_on p); reflexivity.
Qed.

Lemma view_forzar_frio (p : Panel) : view (forzar_frio p) = view p.
Proof.
  unfold forzar_frio. destruct (negb (can_force p)); [reflexivity|].
  now rewrite view_apply_relays.
Qed.

Lemma view_forzar_caliente (p : Panel) : view (forzar_caliente p) = view p.
Proof.
  unfold forzar_caliente. destruct (negb (can_force p)); [reflexivity|].
  now rewrite view_apply_relays.
Qed.

Lemma view_cerrar_todo (p : Panel) : view (cerrar_todo p) = view p.
Proof. unfold cerrar_todo. now rewrite view_apply_relays. Qed.

Lemma view_toggle_manual_nut (p : Panel) (tnow : Q) :
  view (toggle_manual_nut p tnow) =
  {| v_cal_nut := cal_nut p; v_last_min := last_min p;
     v_until := nut_running_until p;
     v_led := schedule_active p tnow || negb (manual_nut_on p);
     v_manual := negb (manual_nut_on p) |}.
Proof. unfold toggle_manual_nut. now rewrite view_apply_nutricion_state. Qed.

Lemma last_min_of_view (q : Panel) (v : dosing_view) :
  view q = v -> last_min q = v_last_min v.
Proof. intros <-. reflexivity. Qed.

(** Commands other than the tick leave [_last_min] alone. *)
Lemma last_min_step (p : Panel) (c : command) :
  (forall tnow t_in, c <> Tick tnow t_in) -> last_min (step p c) = last_min p.
Proof.
  intros H. destruct c; cbn [step].
  - exfalso. now apply (H tnow t_in).
  - reflexivity.
  - reflexivity.
  - reflexivity.
  - reflexivity.
  - reflexivity.
  - reflexivity.
  - exact (last_min_of_view _ _ (view_forzar_frio p)).
  - exact (last_min_of_view _ _ (view_forzar_caliente p)).
  - exact (last_min_of_view _ _ (view_cerrar_todo p)).
  - unfold stop_all.
    etransitivity; [exact (last_min_of_view _ _ (view_apply_relays _))|].
    exact (last_min_of_view _ _ (view_apply_nutricion_state _ _)).
  - exact (last_min_of_view _ _ (view_toggle_manual_nut p tnow)).
Qed.

Lemma minute_number_mono (a b : Q) :
  a <= b -> (minute_number a <= minute_number b)%Z.
Proof.
  intros H. unfold minute_number. apply Qfloor_resp_le.
  unfold Qdiv. apply Qmult_le_compat_r; [exact H | discriminate].
Qed.

Lemma fires_sp_block (p : Panel) (tnow : Q) :
  fires (sp_block p tnow) tnow = fires p tnow.
Proof. apply fires_view, view_sp_block. Qed.

Lemma fires_new_minute (p : Panel) (tnow : Q) :
  fires p tnow = true -> new_minute p tnow = true.
Proof. unfold fires. now intros H%andb_prop. Qed.

Lemma last_min_update_process (p : Panel) (tnow t_in : Q) :
  last_min (update_process p tnow t_in) = Some (minute_number tnow).
Proof. exact (f_equal v_last_min (view_update_process p tnow t_in)). Qed.

Lemma new_minute_true (p : Panel) (tnow : Q) (m0 : Z) :
  new_minute p tnow = true -> last_min p = Some m0 -> m0 <> minute_number tnow.
Proof.
  unfold new_minute. intros H E. rewrite E in H.
  apply negb_true_iff, Z.eqb_neq in H. exact H.
Qed.

Lemma fired_minutes_other (p : Panel) (c : command) (cs : list command) :
  (forall tnow t_in, c <> Tick tnow t_in) ->
  fired_minutes p (c :: cs) = fired_minutes (step p c) cs /\
  tick_times (c :: cs) = tick_times cs.
Proof.
  intros H. destruct c; try (split; reflexivity).
  exfalso. now apply (H tnow t_in).
Qed.

(** Once the clock only moves forward, the minutes in which doses start are
    strictly increasing and lie after the minute last processed. *)
Lemma fired_minutes_increasing (cs : list command) :
  forall (p : Panel) (t0 : Q),
    ascending_from t0 (tick_times cs) ->
    (forall m0, last_min p = Some m0 -> (m0 <= minute_number t0)%Z) ->
    StronglySorted Z.lt (fired_minutes p cs) /\
    Forall (fun m => forall m0, last_min p = Some m0 -> (m0 < m)%Z)
           (fired_minutes p cs).
Proof.
  induction cs as [|c cs IH]; intros p t0 Hasc Hlast.
  - cbn. split; constructor.
  - assert ((exists tnow t_in, c = Tick tnow t_in) \/
            (forall tnow t_in, c <> Tick tnow t_in)) as [(tnow & t_in & ->)|Hc].
    { destruct c; try (right; intros ? ?; discriminate). left. eauto. }
    + cbn [fired_minutes tick_times step] in *. destruct Hasc as [Hle Hasc].
      rewrite fires_sp_block.
      pose proof (minute_number_mono _ _ Hle) as Hmono.
      destruct (IH (update_process p tnow t_in) tnow Hasc) as [Hs Hf].
      { intros m0 Hm0. rewrite last_min_update_process in Hm0.
        injection Hm0 as <-. lia. }
      assert (Forall (fun m => (minute_number tnow < m)%Z)
                     (fired_minutes (update_process p tnow t_in) cs)) as Hgt.
      { eapply Forall_impl; [|exact Hf]. cbn beta. intros m Hm. apply Hm.
        apply last_min_update_process. }
      destruct (fires p tnow) eqn:Ef; cbn [app].
      * split.
        -- constructor; assumption.
        -- constructor.
           ++ intros m0 Hm0. pose proof (Hlast m0 Hm0).
              pose proof (new_minute_true p tnow m0 (fires_new_minute _ _ Ef) Hm0).
              lia.
           ++ eapply Forall_impl; [|exact Hgt]. cbn beta.
              intros m Hm m0 Hm0. pose proof (Hlast m0 Hm0). lia.
      * split; [exact Hs|].
        eapply Forall_impl; [|exact Hgt]. cbn beta.
        intros m Hm m0 Hm0. pose proof (Hlast m0 Hm0). lia.
    + destruct (fired_minutes_other p c cs Hc) as [-> Et]. rewrite Et in Hasc.
      pose proof (last_min_step p c Hc) as El.
      destruct (IH (step p c) t0 Hasc) as [Hs Hf].
      { intros m0 Hm0. apply Hlast. now rewrite <- El. }
      split; [exact Hs|].
      eapply Forall_impl; [|exact Hf]. cbn beta.
      intros m Hm m0 Hm0. apply Hm. now rewrite El.
Qed.

Lemma sorted_lt_NoDup (l : list Z) : StronglySorted Z.lt l -> NoDup l.
Proof.
  induction 1 as [|x l Hs IH Hall]; constructor; [|exact IH].
  intros Hin. rewrite Forall_forall in Hall. apply Hall in Hin. lia.
Qed.

Lemma skipn_length_app {A} (l k : list A) : skipn (List.length l) (l ++ k) = k.
Proof. induction l as [|a l IH]; [reflexivity | exact IH]. Qed.

Lemma skipn_length_self {A} (l : list A) : skipn (List.length l) l = [].
Proof. induction l as [|a l IH]; [reflexivity | exact IH]. Qed.

(** The dosing-start step makes one [start_stepper] call when its guard
    holds and no call otherwise. *)
Lemma start_step_calls_spec (p : Panel) (tnow : Q) :
  start_step_calls p tnow =
  if fires p tnow then [Start_stepper (freq_nut (sp_block p tnow))] else [].
Proof.
  unfold start_step_calls. cbv zeta.
  rewrite fire_block_spec, fires_sp_block.
  destruct (fires p tnow).
  - exact (skipn_length_app (hw_calls (sp_block p tnow)) _).
  - destruct (new_minute (sp_block p tnow) tnow);
      exact (skipn_length_self (hw_calls (sp_block p tnow))).
Qed.

Lemma dose_starts_fired (cs : list command) :
  forall p, dose_starts p cs = fired_minutes p cs.
Proof.
  induction cs as [|c cs IH]; intros p; [reflexivity|].
  cbn [dose_starts fired_minutes]. rewrite IH. f_equal.
  destruct c; try reflexivity.
  rewrite start_step_calls_spec, fires_sp_block.
  destruct (fires p tnow); reflexivity.
Qed.

Lemma no_start_keeps_window (p : Panel) (tnow : Q) :
  start_step_calls p tnow = [] ->
  nut_running_until (fire_block (sp_block p tnow) tnow) =
  nut_running_until (sp_block p tnow).
Proof.
  rewrite start_step_calls_spec, fire_block_spec, fires_sp_block.
  destruct (fires p tnow); [discriminate|]. intros _.
  destruct (new_minute (sp_block p tnow) tnow); reflexivity.
Qed.

(** C7, as amended.  As long as the wall clock does not go back, no minute
    appears twice among the dose starts: however many ticks fall in a
    calendar minute that holds a dosing event, and whatever operator
    commands come in between, the dosing-start step of the tick calls
    [start_stepper] in at most one of them, because each tick records the
    minute it processed; and a tick whose dosing-start step makes no call
    leaves the end of the dosing window as it found it. *)
Theorem dose_starts_once_per_minute (p : Panel) (cs : list command) :
  ascending (tick_times cs) ->
  NoDup (dose_starts p cs) /\
  (forall tnow,
     start_step_calls p tnow = [] ->
     nut_running_until (fire_block (sp_block p tnow) tnow) =
     nut_running_until (sp_block p tnow)).
Proof.
  intros Hasc. split; [|exact (no_start_keeps_window p)].
  rewrite dose_starts_fired.
  revert p Hasc. induction cs as [|c cs IH]; intros p Hasc; [constructor|].
  assert ((exists tnow t_in, c = Tick tnow t_in) \/
          (forall tnow t_in, c <> Tick tnow t_in)) as [(tnow & t_in & ->)|Hc].
  { destruct c; try (right; intros ? ?; discriminate). left. eauto. }
  - cbn [fired_minutes tick_times ascending step] in *.
    destruct (fired_minutes_increasing cs (update_process p tnow t_in) tnow Hasc)
      as [Hs Hf].
    { intros m0 Hm0. rewrite last_min_update_process in Hm0.
      injection Hm0 as <-. lia. }
    destruct (fires (sp_block p tnow) tnow); cbn [app].
    + constructor; [|now apply sorted_lt_NoDup].
      intros Hin. rewrite Forall_forall in Hf.
      pose proof (Hf _ Hin _ (last_min_update_process p tnow t_in)). lia.
    + now apply sorted_lt_NoDup.
  - destruct (fired_minutes_other p c cs Hc) as [-> Et]. rewrite Et in Hasc.
    now apply IH.
Qed.

Lemma fires_alt (p : Panel) (tnow : Q) :
  fires p tnow = new_minute p tnow && Qlt_bool 0 (total_at p tnow).
Proof.
  unfold fires, total_at.
  destruct (nut_fire_for_minute (cal_nut p) tnow); reflexivity.
Qed.

(** The dosing view after a command that is neither a tick, nor
    [stop_all], nor an edit of the dosing calendar: the calendar, the minute
    last processed and the window end are as before. *)
Lemma view_step_keeps (p : Panel) (c : command) :
  keeps_dosing c = true ->
  (forall tnow t_in, c <> Tick tnow t_in) ->
  cal_nut (step p c) = cal_nut p /\
  last_min (step p c) = last_min p /\
  nut_running_until (step p c) = nut_running_until p.
Proof.
  intros Hk Hc. destruct c; try discriminate Hk; cbn [step];
    try (repeat split; reflexivity).
  - exfalso. now apply (Hc tnow t_in).
  - pose proof (view_forzar_frio p) as H.
    split; [exact (f_equal v_cal_nut H)|].
    split; [exact (f_equal v_last_min H) | exact (f_equal v_until H)].
  - pose proof (view_forzar_caliente p) as H.
    split; [exact (f_equal v_cal_nut H)|].
    split; [exact (f_equal v_last_min H) | exact (f_equal v_until H)].
  - pose proof (view_toggle_manual_nut p tnow) as H.
    split; [exact (f_equal v_cal_nut H)|].
    split; [exact (f_equal v_last_min H) | exact (f_equal v_until H)].
Qed.

Section Window.

Variables (p : Panel) (t0 : Q) (ticks : list Q).
Let d := total_at p t0.

Hypothesis no_other_dose :
  forall u, In u ticks -> minute_number u <> minute_number t0 ->
            Qlt_bool 0 (total_at p u) = false.

Lemma no_fire_in_window (q : Panel) (tl u : Q) :
  window_inv p t0 q tl -> tl <= u -> In u ticks -> fires q u = false.
Proof.
  intros (Hc & Hl & Ht & _) Hu Hin. rewrite fires_alt.
  destruct (new_minute q u) eqn:En; [|reflexivity]. cbn [andb].
  unfold total_at. rewrite Hc. apply no_other_dose; [exact Hin|].
  pose proof (new_minute_true q u _ En Hl) as Hne.
  pose proof (minute_number_mono _ _ Ht).
  pose proof (minute_number_mono _ _ Hu). lia.
Qed.

Lemma window_tick (q : Panel) (tl u x : Q) :
  window_inv p t0 q tl -> tl <= u -> In u ticks ->
  window_inv p t0 (update_process q u x) u /\
  nut_led_on (update_process q u x) =
    Qlt_bool u (t0 + d) || manual_nut_on (update_process q u x).
Proof.
  intros Hinv Hu Hin.
  pose proof (no_fire_in_window q tl u Hinv Hu Hin) as Hf.
  destruct Hinv as (Hc & Hl & Ht & Hw). fold d in Hw.
  pose proof (view_update_process q u x) as Hv.
  unfold active_after_fire, window_after_fire in Hv. rewrite Hf in Hv.
  injection Hv as Hvc Hvl Hvu Hvled Hvm.
  rewrite Hvled, Hvm.
  destruct Hw as [Hw|[Hw Hend]]; rewrite Hw in *.
  - split; [|reflexivity].
    unfold window_inv; fold d. rewrite Hvc, Hvl, Hvu.
    split; [exact Hc|]. split; [reflexivity|]. split; [lra|].
    destruct (Qlt_bool u (t0 + d)) eqn:E; [now left|].
    right. split; [reflexivity|]. now apply Qlt_bool_false_iff.
  - assert (Qlt_bool u (t0 + d) = false) as E
      by (apply Qlt_bool_false_iff; lra).
    rewrite E. split; [|reflexivity].
    unfold window_inv; fold d. rewrite Hvc, Hvl, Hvu.
    split; [exact Hc|]. split; [reflexivity|]. split; [lra|].
    right. split; [reflexivity|]. lra.
Qed.

Lemma window_run (cs : list command) :
  forall (q : Panel) (tl now x : Q),
    window_inv p t0 q tl ->
    Forall (fun c => keeps_dosing c = true) cs ->
    ascending_from tl (tick_times (cs ++ [Tick now x])) ->
    incl (tick_times (cs ++ [Tick now x])) ticks ->
    let q' := run q (cs ++ [Tick now x]) in
    nut_led_on q' = Qlt_bool now (t0 + d) || manual_nut_on q'.
Proof.
  induction cs as [|c cs IH]; intros q tl now x Hinv Hk Hasc Hincl.
  - cbn in Hasc. destruct Hasc as [Hle _].
    cbn. apply (window_tick q tl now x Hinv Hle).
    apply Hincl. now left.
  - inversion Hk as [|? ? Hkc Hkcs]; subst.
    assert ((exists tnow t_in, c = Tick tnow t_in) \/
            (forall tnow t_in, c <> Tick tnow t_in)) as [(u & y & ->)|Hc].
    { destruct c; try (right; intros ? ?; discriminate). left. eauto. }
    + cbn [app tick_times] in Hasc, Hincl. destruct Hasc as [Hle Hasc].
      destruct (window_tick q tl u y Hinv Hle) as [Hinv' _].
      { apply Hincl. now left. }
      apply (IH _ u now x Hinv' Hkcs Hasc).
      intros z Hz. apply Hincl. now right.
    + assert (tick_times ((c :: cs) ++ [Tick now x]) =
              tick_times (cs ++ [Tick now x])) as Et
        by (destruct c; try reflexivity; exfalso; now apply (Hc tnow t_in)).
      rewrite Et in Hasc, Hincl.
      destruct (view_step_keeps q c Hkc Hc) as (E1 & E2 & E3).
      apply (IH (step q c) tl now x); [|exact Hkcs|exact Hasc|exact Hincl].
      destruct Hinv as (Hc1 & Hl & Ht & Hw).
      unfold window_inv; fold d. rewrite E1, E2, E3. auto.
Qed.

End Window.

(** The pump driver follows the stepper calls: a relay call changes
    nothing, a start leaves it running, a stop leaves it stopped. *)
Lemma pump_running_app (l : list hw_call) (c : hw_call) :
  pump_running (l ++ [c]) =
  match c with
  | Start_stepper _ => true
  | Stop_stepper => false
  | _ => pump_running l
  end.
Proof. unfold pump_running. rewrite fold_left_app. destruct c; reflexivity. Qed.

Lemma led_of_view (q : Panel) (v : dosing_view) :
  view q = v -> nut_led_on q = v_led v.
Proof. intros <-. reflexivity. Qed.

Lemma until_of_view (q : Panel) (v : dosing_view) :
  view q = v -> nut_running_until q = v_until v.
Proof. intros <-. reflexivity. Qed.

Lemma pump_apply_relays (p : Panel) :
  pump_running (hw_calls (apply_relays p)) = pump_running (hw_calls p).
Proof.
  unfold apply_relays.
  destruct (cold_in p); cbn [hot_in hw_do];
    destruct (hot_in p); cbn [hw_calls hw_do];
    rewrite !pump_running_app; reflexivity.
Qed.

Lemma pump_ok_apply_relays (p : Panel) : pump_ok p -> pump_ok (apply_relays p).
Proof.
  unfold pump_ok. intros H. rewrite pump_apply_relays, H.
  symmetry. exact (led_of_view _ _ (view_apply_relays p)).
Qed.

Lemma pump_ok_same (p q : Panel) :
  hw_calls q = hw_calls p -> nut_led_on q = nut_led_on p ->
  pump_ok p -> pump_ok q.
Proof. unfold pump_ok. intros -> ->. exact (fun H => H). Qed.

(** The edge-triggered pump switch: once the panel and the driver agree,
    the driver is left in the requested state. *)
Lemma pump_ok_apply_nutricion_state (p : Panel) (b : bool) :
  pump_ok p -> pump_ok (apply_nutricion_state p b).
Proof.
  unfold pump_ok, apply_nutricion_state. intros H.
  destruct b, (nut_led_on p) eqn:El; cbn [andb negb hw_calls hw_do set_nut_led_on nut_led_on];
    rewrite ?pump_running_app; try reflexivity; rewrite H; reflexivity.
Qed.

(** After a start the switch leaves the driver running, whatever the panel
    believed. *)
Lemma pump_started_apply_nutricion_state (p : Panel) :
  pump_running (hw_calls p) = true -> pump_ok (apply_nutricion_state p true).
Proof.
  unfold pump_ok, apply_nutricion_state. intros H.
  destruct (nut_led_on p) eqn:El; cbn [andb negb hw_calls hw_do set_nut_led_on nut_led_on];
    rewrite ?pump_running_app; try reflexivity; exact H.
Qed.

Lemma pump_ok_thermal_block (p : Panel) : pump_ok p -> pump_ok (thermal_block p).
Proof.
  intros H. unfold thermal_block. destruct (negb (manual_mode p)); [|exact H].
  cbv zeta. apply pump_ok_apply_relays.
  repeat match goal with
  | |- context [if ?b then _ else _] => destruct b
  end; try exact H; unfold cerrar_todo; try apply pump_ok_apply_relays; exact H.
Qed.

Lemma pump_ok_dosing_block (p : Panel) (tnow : Q) :
  pump_ok p -> pump_ok (dosing_block p tnow).
Proof.
  intros H. unfold dosing_block.
  destruct (schedule_active p tnow); apply pump_ok_apply_nutricion_state; exact H.
Qed.

(** A tick keeps the agreement, and restores it when its dosing-start step
    starts the pump. *)
Lemma pump_ok_update_process (p : Panel) (tnow t_in : Q) :
  pump_ok p \/ fires p tnow = true -> pump_ok (update_process p tnow t_in).
Proof.
  intros H. unfold update_process. apply pump_ok_thermal_block.
  apply (pump_ok_same (dosing_block (fire_block (sp_block p tnow) tnow) tnow));
    [reflexivity | reflexivity |].
  assert (hw_calls (sp_block p tnow) = hw_calls p /\
          nut_led_on (sp_block p tnow) = nut_led_on p) as [Hc Hl].
  { unfold sp_block. destruct (negb (manual_mode p)); [|now split].
    destruct (sp_from_date_calendar _ _ _); now split. }
  pose proof (fires_sp_block p tnow) as Hf.
  set (q := sp_block p tnow) in *.
  rewrite fire_block_spec.
  destruct (fires q tnow) eqn:Ef.
  - unfold dosing_block.
    assert (schedule_active
              (set_last_min
                 (hw_do (set_nut_running_until q (Some (tnow + total_at q tnow)))
                        (Start_stepper (freq_nut q)))
                 (Some (minute_number tnow))) tnow = true) as ->.
    { unfold schedule_active. cbn [nut_running_until set_last_min hw_do set_nut_running_until].
      rewrite fires_alt in Ef. apply andb_prop in Ef as [_ Ef].
      apply Qlt_bool_iff in Ef. apply Qlt_bool_iff. lra. }
    cbn [orb]. apply pump_started_apply_nutricion_state.
    cbn [hw_calls set_last_min hw_do]. apply pump_running_app.
  - assert (pump_ok q) as Hq.
    { destruct H as [H|H]; [|congruence].
      unfold pump_ok. now rewrite Hc, Hl. }
    apply pump_ok_dosing_block.
    destruct (new_minute q tnow); [|exact Hq].
    exact Hq.
Qed.

Lemma pump_ok_step (p : Panel) (c : command) : pump_ok p -> pump_ok (step p c).
Proof.
  intros H. destruct c; cbn [step].
  - apply pump_ok_update_process. now left.
  - exact H.
  - exact H.
  - exact H.
  - exact H.
  - exact H.
  - exact H.
  - unfold forzar_frio. destruct (negb (can_force p)); [exact H|].
    apply pump_ok_apply_relays. exact H.
  - unfold forzar_caliente. destruct (negb (can_force p)); [exact H|].
    apply pump_ok_apply_relays. exact H.
  - unfold cerrar_todo. apply pump_ok_apply_relays. exact H.
  - unfold stop_all. apply pump_ok_apply_relays.
    apply pump_ok_apply_nutricion_state. exact H.
  - unfold toggle_manual_nut. apply pump_ok_apply_nutricion_state. exact H.
Qed.

Lemma pump_ok_run (cs : list command) :
  forall p, pump_ok p -> pump_ok (run p cs).
Proof.
  induction cs as [|c cs IH]; intros p H; [exact H|].
  cbn [run fold_left]. apply IH, pump_ok_step, H.
Qed.

(** C8, as amended.  A tick at [t0] starts a scheduled dose of total
    duration [d > 0]: the window end is [t0 + d] and the pump driver is
    left running.  As long as the clock does not go back, no other dosing
    event with a positive duration fires at a later tick, the dosing
    calendar is not edited and [stop_all] is not invoked, after every later
    tick the pump driver is running iff [now < t0 + d] or the manual dosing
    toggle is on: the [start_stepper] and [stop_stepper] calls made leave
    it running after every tick before the end of the window and, with
    manual dosing off, stopped after the first tick at or after the end;
    the panel's own pump indicator agrees with the driver. *)
Theorem scheduled_dose_window
    (p : Panel) (t0 x0 : Q) (cs : list command) (now x : Q) :
  fires p t0 = true ->
  Forall (fun c => keeps_dosing c = true) cs ->
  ascending_from t0 (tick_times (cs ++ [Tick now x])) ->
  (forall u, In u (tick_times (cs ++ [Tick now x])) ->
             minute_number u <> minute_number t0 ->
             Qlt_bool 0 (total_at p u) = false) ->
  let d := total_at p t0 in
  let p0 := update_process p t0 x0 in
  let p' := run p0 (cs ++ [Tick now x]) in
  0 < d /\
  nut_running_until p0 = Some (t0 + d) /\
  nut_led_on p0 = true /\
  pump_running (hw_calls p0) = true /\
  nut_led_on p' = Qlt_bool now (t0 + d) || manual_nut_on p' /\
  pump_running (hw_calls p') = Qlt_bool now (t0 + d) || manual_nut_on p'.
Proof.
  intros Hf Hk Hasc Hno d p0 p'.
  assert (0 < d) as Hd.
  { rewrite fires_alt in Hf. apply andb_prop in Hf as [_ Hf].
    now apply Qlt_bool_iff in Hf. }
  pose proof (view_update_process p t0 x0) as Hv.
  unfold active_after_fire, window_after_fire in Hv. rewrite Hf in Hv.
  fold d in Hv.
  assert (Qlt_bool t0 (t0 + d) = true) as Ha by (apply Qlt_bool_iff; lra).
  rewrite Ha in Hv. fold p0 in Hv.
  assert (pump_ok p0) as Hp0 by (apply pump_ok_update_process; now right).
  assert (pump_ok p') as Hp' by (apply pump_ok_run, Hp0).
  assert (nut_led_on p0 = true) as Hled0 by exact (led_of_view _ _ Hv).
  assert (nut_led_on p' = Qlt_bool now (t0 + d) || manual_nut_on p') as Hled'.
  { apply (window_run p t0 (tick_times (cs ++ [Tick now x])) Hno cs p0 t0 now x).
    - unfold window_inv.
      split; [exact (f_equal v_cal_nut Hv)|].
      split; [exact (f_equal v_last_min Hv)|].
      split; [lra|]. left. exact (f_equal v_until Hv).
    - exact Hk.
    - exact Hasc.
    - apply incl_refl. }
  split; [exact Hd|].
  split; [exact (until_of_view _ _ Hv)|].
  split; [exact Hled0|].
  split; [exact (eq_trans Hp0 Hled0)|].
  split; [exact Hled'|].
  exact (eq_trans Hp' Hled').
Qed.

Lemma filter_map_filter (f : event -> bool) (g : Q -> bool) (l : list event) :
  filter g (map value (filter f l)) =
  map value (filter (fun e => f e && g (value e)) l).
Proof.
  induction l as [|e l IH]; [reflexivity|].
  cbn [filter]. destruct (f e); cbn [andb map filter]; [|exact IH].
  destruct (g (value e)); cbn [map]; now rewrite IH.
Qed.

Lemma total_at_events (p : Panel) (tnow : Q) :
  total_at p tnow =
  positive_total (dict_get (cal_nut p) (day_number tnow)) (strftime_HM tnow).
Proof.
  unfold total_at, positive_total, nut_fire_for_minute, dur_total.
  destruct (cal_nut p) as [|c cal]; [reflexivity|].
  destruct (dict_get (c :: cal) (day_number tnow)) as [|e l]; [reflexivity|].
  now rewrite filter_map_filter.
Qed.

(** C10.  On the first tick of a minute the durations of all dosing events
    of that minute are added up, counting only the strictly positive ones.
    When the total is positive, one dosing window is opened, ending at
    [tnow] plus the total, and the pump is started; when no event has a
    positive duration the dosing-start step only records the minute: no
    window is opened and the pump is not started (it keeps running only for
    a window that is still open or for manual dosing). *)
Theorem same_minute_doses_add_up (p : Panel) (tnow t_in : Q) :
  new_minute p tnow = true ->
  let total := total_at p tnow in
  let q := sp_block p tnow in
  let p' := update_process p tnow t_in in
  total = positive_total (dict_get (cal_nut p) (day_number tnow))
                         (strftime_HM tnow) /\
  (0 < total ->
     nut_running_until p' = Some (tnow + total) /\
     nut_led_on p' = true /\
     hw_calls (fire_block q tnow) = hw_calls q ++ [Start_stepper (freq_nut q)]) /\
  (~ 0 < total ->
     fire_block q tnow = set_last_min q (Some (minute_number tnow)) /\
     nut_running_until p' =
       (if schedule_active p tnow then nut_running_until p else None) /\
     nut_led_on p' = schedule_active p tnow || manual_nut_on p).
Proof.
  intros Hn total q p'.
  split; [apply total_at_events|].
  pose proof (view_update_process p tnow t_in) as Hv.
  unfold active_after_fire, window_after_fire in Hv.
  assert (view q = view p) as Hq by apply view_sp_block.
  assert (total_at q tnow = total) as Htq
    by (unfold total, total_at; now rewrite (f_equal v_cal_nut Hq : cal_nut q = cal_nut p)).
  assert (new_minute q tnow = true) as Hnq
    by (unfold new_minute in *; now rewrite (f_equal v_last_min Hq : last_min q = last_min p)).
  split.
  - intros Hpos.
    assert (Qlt_bool 0 total = true) as Hb by now apply Qlt_bool_iff.
    assert (fires p tnow = true) as Hf
      by (rewrite fires_alt, Hn; exact Hb).
    rewrite Hf in Hv. fold total in Hv.
    assert (Qlt_bool tnow (tnow + total) = true) as Ha
      by (apply Qlt_bool_iff; lra).
    rewrite Ha in Hv.
    split; [exact (f_equal v_until Hv)|].
    split; [exact (f_equal v_led Hv)|].
    rewrite fire_block_spec, fires_alt, Hnq, Htq, Hb. reflexivity.
  - intros Hneg.
    assert (Qlt_bool 0 total = false) as Hb.
    { destruct (Qlt_bool 0 total) eqn:E; [|reflexivity].
      apply Qlt_bool_iff in E. contradiction. }
    assert (fires p tnow = false) as Hf
      by (rewrite fires_alt, Hn; exact Hb).
    rewrite Hf in Hv.
    split.
    { rewrite fire_block_spec, fires_alt, Hnq, Htq, Hb. reflexivity. }
    unfold schedule_active.
    split; [exact (f_equal v_until Hv) | exact (f_equal v_led Hv)].
Qed.

(** The example of the specification: ticks at 09:00:00 and 09:00:30 with an
    event at 09:00.  The dose starts in the first tick only, the window end
    stays at 09:00:45 and the second tick issues no pump start. *)
Example two_ticks_one_start :
  dose_starts vessel two_ticks = [minute_number (at_hms 9 0 0)] /\
  nut_running_until (run vessel two_ticks) = Some (at_hms 9 0 0 + (0 + 45)) /\
  filter is_start
    (hw_calls (run vessel [Set_cal_nut cal_dose_45; Tick (at_hms 9 0 0) 20])) =
  filter is_start (hw_calls (run vessel two_ticks)).
Proof. repeat split; vm_compute; reflexivity. Qed.

(** C7 as stated fails when the wall clock goes back: [now()] is naive local
    time.  A 45 s dose is scheduled at 02:30 and the clock is set back from
    03:00 to 02:00, so the ticks read 02:30:00, 02:59:59, 02:00:00 and
    02:30:00.  Before the last tick the minute last processed is 02:00, the
    window is closed and the pump stopped; the last tick fires the event of
    02:30 a second time: the dosing-start step calls [start_stepper] again,
    the window is opened again and the pump runs again. *)
Lemma clock_set_back_starts_dose_twice :
  let m := minute_number (at_hms 2 30 0) in
  let before := run vessel (firstn 4 clock_set_back) in
  let after := run vessel clock_set_back in
  dose_starts vessel clock_set_back = [m; m] /\
  ~ NoDup (dose_starts vessel clock_set_back) /\
  last_min before = Some (minute_number (at_hms 2 0 0)) /\
  pump_running (hw_calls before) = false /\
  nut_running_until before = None /\
  pump_running (hw_calls after) = true /\
  nut_running_until after = Some (at_hms 2 30 0 + (0 + 45)).
Proof.
  cbv zeta.
  assert (dose_starts vessel clock_set_back =
          [minute_number (at_hms 2 30 0); minute_number (at_hms 2 30 0)]) as E
    by (vm_compute; reflexivity).
  split; [exact E|]. split.
  { rewrite E. intros H. inversion H as [|? ? Hn _]. apply Hn. now left. }
  repeat split; vm_compute; reflexivity.
Qed.

(** C8 as stated fails when another dosing event fires inside the window: a
    120 s dose starts at 09:00:00 and a 10 s event fires at 09:01:00, which
    moves the window end to 09:01:10; at the tick of 09:01:30, before
    09:02:00, the pump is stopped although manual dosing is off: the calls
    on the pump driver are three starts followed by a stop. *)
Lemma overlap_cuts_window :
  let p := run vessel [Set_cal_nut cal_overlap] in
  let t0 := at_hms 9 0 0 in
  let p' := run (update_process p t0 20)
                [Tick (at_hms 9 1 0) 20; Tick (at_hms 9 1 30) 20] in
  fires p t0 = true /\
  total_at p t0 == 120 /\
  Qlt_bool (at_hms 9 1 30) (t0 + total_at p t0) = true /\
  manual_nut_on p' = false /\
  nut_led_on p' = false /\
  pump_running (hw_calls p') = false /\
  stepper_calls (hw_calls p') =
    [Start_stepper 8000; Start_stepper 8000; Start_stepper 8000; Stop_stepper].
Proof. cbv zeta. repeat split; vm_compute; reflexivity. Qed.

Lemma dose_starts_once_witness :
  ascending (tick_times two_ticks) /\
  dose_starts vessel two_ticks = [minute_number (at_hms 9 0 0)] /\
  NoDup (dose_starts vessel two_ticks).
Proof.
  assert (ascending (tick_times two_ticks)) as H.
  { cbn. split; [|exact I]. apply Qle_bool_iff. reflexivity. }
  split; [exact H|].
  split; [vm_compute; reflexivity|].
  apply (dose_starts_once_per_minute vessel two_ticks H).
Defined.

Lemma scheduled_dose_window_witness :
  let p := run vessel [Set_cal_nut cal_dose_30] in
  let t0 := at_hms 9 0 0 in
  let p1 := run (update_process p t0 20) [Tick (at_hms 9 0 10) 20] in
  let p2 := run (update_process p t0 20)
                [Tick (at_hms 9 0 10) 20; Tick (at_hms 9 1 0) 20] in
  fires p t0 = true /\
  nut_running_until (update_process p t0 20) = Some (t0 + total_at p t0) /\
  pump_running (hw_calls (update_process p t0 20)) = true /\
  pump_running (hw_calls p1) = true /\
  nut_led_on p2 = false /\
  pump_running (hw_calls p2) = false.
Proof.
  cbv zeta.
  set (p := run vessel [Set_cal_nut cal_dose_30]).
  set (t0 := at_hms 9 0 0).
  assert (fires p t0 = true) as H1 by reflexivity.
  assert (Forall (fun c => keeps_dosing c = true) [Tick (at_hms 9 0 10) 20]) as H2
    by (repeat constructor).
  assert (ascending_from t0
            (tick_times ([Tick (at_hms 9 0 10) 20] ++ [Tick (at_hms 9 1 0) 20])))
    as H3.
  { cbn. repeat split; apply Qle_bool_iff; reflexivity. }
  assert (forall u,
            In u (tick_times ([Tick (at_hms 9 0 10) 20] ++ [Tick (at_hms 9 1 0) 20])) ->
            minute_number u <> minute_number t0 ->
            Qlt_bool 0 (total_at p u) = false) as H4.
  { intros u [<-|[<-|[]]] Hne; [|reflexivity].
    exfalso. apply Hne. reflexivity. }
  assert (ascending_from t0 (tick_times ([] ++ [Tick (at_hms 9 0 10) 20]))) as H3'.
  { cbn. repeat split; apply Qle_bool_iff; reflexivity. }
  assert (forall u,
            In u (tick_times ([] ++ [Tick (at_hms 9 0 10) 20])) ->
            minute_number u <> minute_number t0 ->
            Qlt_bool 0 (total_at p u) = false) as H4'.
  { intros u [<-|[]] Hne. exfalso. apply Hne. reflexivity. }
  destruct (scheduled_dose_window p t0 20 [Tick (at_hms 9 0 10) 20]
              (at_hms 9 1 0) 20 H1 H2 H3 H4) as (_ & Hu & _ & Hp0 & Hled & Hpump).
  destruct (scheduled_dose_window p t0 20 [] (at_hms 9 0 10) 20 H1
              (Forall_nil _) H3' H4') as (_ & _ & _ & _ & _ & Hpump1).
  split; [exact H1|]. split; [exact Hu|]. split; [exact Hp0|].
  split; [cbn [app] in Hpump1; rewrite Hpump1; reflexivity|].
  cbn [app] in Hled, Hpump.
  split; [rewrite Hled; reflexivity | rewrite Hpump; reflexivity].
Defined.

Lemma same_minute_doses_witness :
  let p := run vessel [Set_cal_nut cal_same_minute] in
  let tnow := at_hms 9 0 0 in
  new_minute p tnow = true /\
  total_at p tnow == 45 /\
  nut_running_until (update_process p tnow 20) = Some (tnow + total_at p tnow).
Proof.
  cbv zeta.
  set (p := run vessel [Set_cal_nut cal_same_minute]).
  set (tnow := at_hms 9 0 0).
  assert (new_minute p tnow = true) as H by reflexivity.
  split; [exact H|]. split; [reflexivity|].
  destruct (same_minute_doses_add_up p tnow 20 H) as (_ & Hpos & _).
  apply Hpos. reflexivity.
Defined.

End DosingFacts.

(** ** CSV sinks *)

Module LoggerFacts.

Import Logger.

Local Open Scope string_scope.

(** C9.  An instrument file that exists and is empty gets the data row
    without a header, from the panel log and from the CO2 flow log alike;
    the shared backup, which also tests the size of the file, writes the
    header first. *)
Theorem empty_instrument_file_gets_no_header (data : row) :
  let can_open := fun _ : string => true in
  let d := empty_file "F1.csv" in
  csv_write_instrument can_open d true "F1.csv" data "F1.csv" = Some [data] /\
  co2_csv_write_row can_open d true "F1.csv" data "F1.csv" = Some [data] /\
  csv_write_backup can_open d "F1.csv" data "F1.csv" =
    Some [backup_fields; data].
Proof.
  cbv zeta. repeat split; reflexivity.
Qed.

End LoggerFacts.

(** ** Flow pipeline *)

Module FlowFacts.

Import Linearizer Flow FlowScenario.

(** Whatever the current, the flow lies between the values at the two ends
    of the current loop: it is never below [FLOW_MIN_SCCM], the value at
    4 mA, and never above the value at 20 mA. *)
Theorem flow_between_end_values (lo hi c : Q) :
  lo < hi ->
  current_to_flow_sccm lo hi 4 == lo /\
  lo <= current_to_flow_sccm lo hi c /\
  current_to_flow_sccm lo hi c <= current_to_flow_sccm lo hi 20.
Proof.
  intros H.
  pose proof (LinearizerFacts.flow_unfold lo hi H) as E.
  pose proof (LinearizerFacts.slope_eq lo hi) as Es. cbv zeta in Es.
  rewrite (E 4), (E c), (E 20), Es.
  destruct (clamp_cases c) as [[_ Ec]|[[[A B] Ec]|[_ Ec]]]; rewrite Ec;
  destruct (clamp_cases 4) as [[_ E4]|[[_ E4]|[A4 _]]]; try (exfalso; lra);
    rewrite E4;
  destruct (clamp_cases 20) as [[A20 _]|[[_ E20]|[_ E20]]]; try (exfalso; lra);
    rewrite E20; repeat split; nra.
Qed.

Lemma flow_between_end_values_witness :
  0 < 50 /\
  0 <= current_to_flow_sccm 0 50 (379 # 100) /\
  current_to_flow_sccm 0 50 30 <= current_to_flow_sccm 0 50 20.
Proof.
  assert (0 < 50) as H by reflexivity.
  split; [exact H|].
  split.
  - apply (flow_between_end_values 0 50 (379 # 100) H).
  - apply (flow_between_end_values 0 50 30 H).
Defined.

(** With a lower bound that is not negative the flow is never negative,
    also for a degenerate range, where it is 0. *)
Theorem flow_never_negative (lo hi c : Q) :
  0 <= lo -> 0 <= current_to_flow_sccm lo hi c.
Proof.
  intros Hlo. destruct (Qlt_le_dec lo hi) as [H|H].
  - pose proof (LinearizerFacts.flow_unfold lo hi H c) as E.
    pose proof (LinearizerFacts.slope_eq lo hi) as Es. cbv zeta in Es.
    rewrite E, Es.
    destruct (clamp_cases c) as [[_ Ec]|[[[A B] Ec]|[_ Ec]]]; rewrite Ec; nra.
  - unfold current_to_flow_sccm. apply Qle_bool_iff in H. rewrite H.
    apply Qle_refl.
Qed.

Lemma flow_never_negative_witness :
  0 <= 0 /\ 0 <= current_to_flow_sccm 0 0 12.
Proof.
  assert (0 <= 0) as H by apply Qle_refl.
  split; [exact H|].
  apply (flow_never_negative 0 0 12 H).
Defined.

(** A clamp [max(lo, min(hi, x))], case by case. *)
Lemma clamp_between (lo hi x : Q) :
  lo <= hi ->
  lo <= Qmax lo (Qmin hi x) <= hi /\
  (lo <= x <= hi -> Qmax lo (Qmin hi x) == x).
Proof.
  intros H.
  destruct (Q.min_spec hi x) as [[H1 E1]|[H1 E1]];
  destruct (Q.max_spec lo (Qmin hi x)) as [[H2 E2]|[H2 E2]];
  rewrite E2; rewrite E1 in *; split; try lra; intros; lra.
Qed.

(** For a positive density and volume the rate is proportional to the flow
    with a positive factor: it is 0 at flow 0 and does not decrease when the
    flow increases. *)
Theorem rate_monotone (density volume a b : Q) :
  0 < density -> 0 < volume -> a <= b ->
  flow_to_rate_g_l_h density volume 0 == 0 /\
  flow_to_rate_g_l_h density volume a <= flow_to_rate_g_l_h density volume b.
Proof.
  intros Hd Hv Hab. unfold flow_to_rate_g_l_h.
  destruct (Qle_bool density 0) eqn:E1.
  { apply Qle_bool_iff in E1. exfalso. lra. }
  destruct (Qle_bool volume 0) eqn:E2.
  { apply Qle_bool_iff in E2. exfalso. lra. }
  cbn [orb]. cbv zeta.
  assert (0 < / volume) as Hi by now apply Qinv_lt_0_compat.
  unfold Qdiv. split; [ring|].
  assert (0 <= (6 # 100000) * density * / volume) as Hk.
  { apply Qmult_le_0_compat; [|lra]. lra. }
  setoid_replace (a * (6 # 100000) * density * / volume)
    with (a * ((6 # 100000) * density * / volume)) by ring.
  setoid_replace (b * (6 # 100000) * density * / volume)
    with (b * ((6 # 100000) * density * / volume)) by ring.
  nra.
Qed.

Lemma rate_monotone_witness :
  0 < 1964 /\ 0 < 5 /\ 10 <= 50 /\
  flow_to_rate_g_l_h 1964 5 10 <= flow_to_rate_g_l_h 1964 5 50.
Proof.
  assert (0 < 1964) as H1 by reflexivity.
  assert (0 < 5) as H2 by reflexivity.
  assert (10 <= 50) as H3 by (apply Qle_bool_iff; reflexivity).
  split; [exact H1|]. split; [exact H2|]. split; [exact H3|].
  apply (rate_monotone 1964 5 10 50 H1 H2 H3).
Defined.

(** A simulated reading is never flagged out of range: the current read
    back from the voltage the simulator returns is tagged OK, and stays
    tagged OK when it is off by up to 0.1 mA either way, whatever the range,
    the shunt and the value of the simulated curve. *)
Theorem simulated_reading_tagged_ok (lo hi shunt f : Q) :
  ~ shunt == 0 ->
  exists c,
    voltage_to_current_ma (sim_voltage lo hi shunt f) shunt = Some c /\
    classify c = OK /\
    (forall e, - (1 # 10) <= e <= 1 # 10 -> classify (c + e) = OK).
Proof.
  intros Hs.
  unfold voltage_to_current_ma.
  destruct (Qeq_bool shunt 0) eqn:E.
  { apply Qeq_bool_iff in E. contradiction. }
  eexists. split; [reflexivity|].
  unfold sim_voltage. cbv zeta.
  match goal with
  | |- context [Qmax 4 (Qmin 20 ?x)] =>
      destruct (clamp_between 4 20 x ltac:(lra)) as [[C1 C2] _];
      set (c0 := Qmax 4 (Qmin 20 x)) in *; clearbody c0
  end.
  assert (c0 / 1000 * shunt / shunt * 1000 == c0) as Ec by (field; exact Hs).
  split.
  - apply LinearizerFacts.classify_ok. rewrite Ec. lra.
  - intros e He. apply LinearizerFacts.classify_ok. rewrite Ec. lra.
Qed.

Lemma simulated_reading_witness :
  ~ 147 == 0 /\
  exists c,
    voltage_to_current_ma (sim_voltage 0 50 147 25) 147 = Some c /\
    classify c = OK.
Proof.
  assert (~ 147 == 0) as H by (intros E; discriminate E).
  split; [exact H|].
  destruct (simulated_reading_tagged_ok 0 50 147 25 H) as (c & Hc & Hok & _).
  exists c. split; [exact Hc | exact Hok].
Defined.

(** The ring after a sample, as the code computes it. *)
Lemma take_sample_rows (lo hi shunt : Q) (ch : FlowChannel) (ts v period : Q) :
  ~ shunt == 0 ->
  exists new,
    fs_ts new = ts /\
    flow_take_sample lo hi shunt ch ts (Some v) period =
    Some {| flow_samples :=
              filter (fun row =>
                        Qle_bool (ts - MAX_FLOW_HISTORY_HOURS * 3600) (fs_ts row))
                     (flow_samples ch) ++ [new];
            flow_next_sample := Some (ts + period) |}.
Proof.
  intros Hs. unfold flow_take_sample, voltage_to_current_ma.
  destruct (Qeq_bool shunt 0) eqn:E.
  { apply Qeq_bool_iff in E. contradiction. }
  cbv zeta. eexists. split; [|rewrite filter_app; cbn [filter fs_ts];
    rewrite LinearizerFacts.newest_sample_kept; reflexivity].
  reflexivity.
Qed.

(** A list sorted by time keeps, under a test "not older than the cut-off",
    a suffix of itself. *)
Lemma filter_recent_suffix (cutoff : Q) (l : list FlowSample) :
  StronglySorted (fun a b => fs_ts a <= fs_ts b) l ->
  exists dropped,
    l = dropped ++ filter (fun row => Qle_bool cutoff (fs_ts row)) l /\
    Forall (fun row => fs_ts row < cutoff) dropped.
Proof.
  induction 1 as [|a l Hs IH Hall].
  - exists []. split; [reflexivity | constructor].
  - cbn [filter]. destruct (Qle_bool cutoff (fs_ts a)) eqn:Ea.
    + exists []. split; [|constructor]. cbn [app]. f_equal.
      symmetry. apply forallb_filter_id. apply forallb_forall.
      intros x Hx. rewrite Forall_forall in Hall.
      apply Qle_bool_iff. apply Qle_bool_iff in Ea.
      pose proof (Hall x Hx). lra.
    + destruct IH as (dropped & E & Hd).
      exists (a :: dropped). split.
      * cbn [app]. f_equal. exact E.
      * constructor; [|exact Hd]. now apply Qle_bool_false_iff.
Qed.

(** After a sample is taken the ring holds the old rows that are at most
    21 days (1 814 400 s) older than the new one, each as often and in the
    order it was there, followed by the new row; when the old rows are in
    the order of their times, the rows dropped are a front part of the
    ring. *)
Theorem ring_keeps_recent_rows (lo hi shunt : Q) (ch : FlowChannel)
    (ts v period : Q) :
  ~ shunt == 0 ->
  exists new kept,
    flow_take_sample lo hi shunt ch ts (Some v) period =
      Some {| flow_samples := kept ++ [new];
              flow_next_sample := Some (ts + period) |} /\
    fs_ts new = ts /\
    kept = filter (fun row => Qle_bool (ts - 1814400) (fs_ts row))
                  (flow_samples ch) /\
    (StronglySorted (fun a b => fs_ts a <= fs_ts b) (flow_samples ch) ->
     exists dropped,
       flow_samples ch = dropped ++ kept /\
       Forall (fun row => fs_ts row < ts - 1814400) dropped).
Proof.
  intros Hs.
  destruct (take_sample_rows lo hi shunt ch ts v period Hs)
    as (new & Hts & E).
  assert (filter (fun row => Qle_bool (ts - MAX_FLOW_HISTORY_HOURS * 3600) (fs_ts row))
                 (flow_samples ch) =
          filter (fun row => Qle_bool (ts - 1814400) (fs_ts row)) (flow_samples ch))
    as Ef.
  { apply filter_ext. intros row.
    destruct (Qle_bool (ts - 1814400) (fs_ts row)) eqn:E1.
    - apply Qle_bool_iff. apply Qle_bool_iff in E1.
      unfold MAX_FLOW_HISTORY_HOURS. lra.
    - apply Qle_bool_false_iff. apply Qle_bool_false_iff in E1.
      unfold MAX_FLOW_HISTORY_HOURS. lra. }
  rewrite Ef in E.
  exists new. eexists. split; [exact E|]. split; [exact Hts|].
  split; [reflexivity|].
  apply filter_recent_suffix.
Qed.

Lemma ring_keeps_recent_rows_witness :
  ~ 147 == 0 /\
  exists new,
    flow_take_sample 0 50 147 ring3 2000000 (Some 1) 60 =
      Some {| flow_samples := [row_at 1000000; row_at 1900000; new];
              flow_next_sample := Some (2000000 + 60) |} /\
    fs_ts new = 2000000.
Proof.
  assert (~ 147 == 0) as H by (intros E; discriminate E).
  split; [exact H|].
  destruct (ring_keeps_recent_rows 0 50 147 ring3 2000000 1 60 H)
    as (new & kept & E & Hts & Hk & _).
  exists new. split; [|exact Hts].
  rewrite E, Hk. reflexivity.
Defined.

(** A channel that was due at [ts] is due again only a full period later,
    whether the reading succeeded or failed: any tick before [ts + period]
    leaves the channel untouched. *)
Theorem flow_tick_waits_a_period (lo hi shunt : Q) (ch ch1 : FlowChannel)
    (ts period : Q) (reading : option Q) :
  match flow_next_sample ch with Some due => due <= ts | None => True end ->
  flow_tick lo hi shunt ch ts reading period = Some ch1 ->
  flow_next_sample ch1 = Some (ts + period) /\
  forall ts' reading',
    ts' < ts + period ->
    flow_tick lo hi shunt ch1 ts' reading' period = Some ch1.
Proof.
  intros Hdue Htick.
  assert (flow_take_sample lo hi shunt ch ts reading period = Some ch1) as Ht.
  { unfold flow_tick in Htick. destruct (flow_next_sample ch) as [due|]; [|exact Htick].
    apply Qle_bool_iff in Hdue. now rewrite Hdue in Htick. }
  assert (flow_next_sample ch1 = Some (ts + period)) as Hn.
  { unfold flow_take_sample in Ht. destruct reading as [v|].
    - destruct (voltage_to_current_ma v shunt); [|discriminate].
      injection Ht as <-. reflexivity.
    - injection Ht as <-. reflexivity. }
  split; [exact Hn|].
  intros ts' reading' Hlt. unfold flow_tick. rewrite Hn.
  destruct (Qle_bool (ts + period) ts') eqn:E; [|reflexivity].
  apply Qle_bool_iff in E. exfalso. lra.
Qed.

Lemma flow_tick_waits_witness :
  let ch := {| flow_samples := []; flow_next_sample := None |} in
  let ch1 := {| flow_samples := []; flow_next_sample := Some (0 + 600) |} in
  flow_tick 0 50 147 ch 0 None 600 = Some ch1 /\
  flow_tick 0 50 147 ch1 599 (Some 1) 600 = Some ch1.
Proof.
  cbv zeta.
  assert (flow_tick 0 50 147 {| flow_samples := []; flow_next_sample := None |}
            0 None 600 =
          Some {| flow_samples := []; flow_next_sample := Some (0 + 600) |}) as H
    by reflexivity.
  split; [exact H|].
  apply (flow_tick_waits_a_period 0 50 147
           {| flow_samples := []; flow_next_sample := None |}
           {| flow_samples := []; flow_next_sample := Some (0 + 600) |}
           0 600 None I H).
  reflexivity.
Defined.

Lemma last_item_filter {A : Type} (f : A -> bool) (l : list A) (x : A) :
  Calendar.last_item l = Some x -> f x = true ->
  Calendar.last_item (filter f l) = Some x.
Proof.
  induction l as [|y l IH]; [discriminate|].
  intros Hl Hx. destruct l as [|z l'].
  - injection Hl as ->. cbn. rewrite Hx. reflexivity.
  - change (Calendar.last_item (y :: z :: l')) with (Calendar.last_item (z :: l')) in Hl.
    specialize (IH Hl Hx).
    cbn [filter] in *. destruct (f y); [|exact IH].
    destruct (if f z then z :: filter f l' else filter f l') eqn:E;
      [discriminate IH | exact IH].
Qed.

(** The plot window is anchored at the newest sample: for a window that is
    not negative the newest sample is always shown, last, and every shown
    row is at most the window older than it. *)
Theorem window_shows_newest (hours : Q) (samples : list FlowSample)
    (newest : FlowSample) :
  0 <= hours ->
  Calendar.last_item samples = Some newest ->
  Calendar.last_item (windowed_samples (Some hours) samples) = Some newest /\
  Forall (fun row => fs_ts newest - hours * 3600 <= fs_ts row)
         (windowed_samples (Some hours) samples).
Proof.
  intros Hh Hl. unfold windowed_samples.
  destruct samples as [|s0 rest]; [discriminate|].
  rewrite Hl. cbv zeta. split.
  - apply last_item_filter; [exact Hl|]. apply Qle_bool_iff. nra.
  - apply Forall_forall. intros row Hin.
    apply filter_In in Hin as [_ Hin]. now apply Qle_bool_iff in Hin.
Qed.

Lemma window_shows_newest_witness :
  let s := {| fs_ts := 7200; fs_flow := 1; fs_current_ma := 4; fs_voltage := 1;
              fs_status := OK |} in
  let old := {| fs_ts := 0; fs_flow := 1; fs_current_ma := 4; fs_voltage := 1;
                fs_status := OK |} in
  0 <= 1 /\
  Calendar.last_item [old; s] = Some s /\
  Calendar.last_item (windowed_samples (Some 1) [old; s]) = Some s.
Proof.
  cbv zeta.
  assert (0 <= 1) as H by (apply Qle_bool_iff; reflexivity).
  split; [exact H|]. split; [reflexivity|].
  apply (window_shows_newest 1 _ _ H). reflexivity.
Defined.

(** The countdown splits a number of seconds that is not negative into
    hours, minutes below 60 and seconds below 60 that add up to it. *)
Theorem countdown_adds_up (total : Z) :
  (0 <= total)%Z ->
  let '(hh, mm, ss) := countdown total in
  (total = hh * 3600 + mm * 60 + ss /\
   0 <= hh /\ 0 <= mm < 60 /\ 0 <= ss < 60)%Z.
Proof.
  intros H. unfold countdown.
  pose proof (Z.div_mod total 3600 ltac:(lia)).
  pose proof (Z.mod_pos_bound total 3600 ltac:(lia)).
  pose proof (Z.div_mod (total mod 3600) 60 ltac:(lia)).
  pose proof (Z.mod_pos_bound (total mod 3600) 60 ltac:(lia)).
  pose proof (Z.mod_pos_bound total 60 ltac:(lia)).
  assert (total mod 60 = (total mod 3600) mod 60)%Z as E.
  { symmetry. apply Z.mod_mod_divide. exists 60%Z. reflexivity. }
  pose proof (Z.div_pos total 3600 H ltac:(lia)).
  pose proof (Z.div_pos (total mod 3600) 60 ltac:(lia) ltac:(lia)).
  assert ((total mod 3600) / 60 < 60)%Z by (apply Z.div_lt_upper_bound; lia).
  repeat split; lia.
Qed.

Lemma countdown_adds_up_witness :
  (0 <= 3725)%Z /\
  (let '(hh, mm, ss) := countdown 3725 in
   3725 = hh * 3600 + mm * 60 + ss /\
   0 <= hh /\ 0 <= mm < 60 /\ 0 <= ss < 60)%Z.
Proof.
  assert (0 <= 3725)%Z as H by lia.
  split; [exact H|].
  exact (countdown_adds_up 3725 H).
Defined.

End FlowFacts.

(** ** The DS18B20 read path, continued *)

Module ProbeFacts.

Import Hardware.

Section Read.

Variable py_float : string -> option Q.

(** A read changes neither the simulator flag, nor the probes, nor the
    simulated biases. *)
Lemma read_keeps_setup (hw : Hardware) (w1 : bus) (index : nat) (noise : Q) :
  let hw' := snd (read_temp_ds18b20 py_float hw w1 index noise) in
  sim hw' = sim hw /\ ds_devices hw' = ds_devices hw /\ sim_bias hw' = sim_bias hw.
Proof.
  cbv zeta. unfold read_temp_ds18b20.
  destruct (sim hw || _); [cbn; auto|].
  cbv zeta. destruct (read_device py_float w1 _); [cbn; auto|].
  destruct (negb (last_temp_error hw)); cbn; auto.
Qed.

(** An index past the last probe reads the last probe. *)
Theorem index_clamped_to_last_probe
    (hw : Hardware) (w1 : bus) (index : nat) (noise : Q) :
  sim hw = false -> ds_devices hw <> [] ->
  (List.length (ds_devices hw) <= index)%nat ->
  read_temp_ds18b20 py_float hw w1 index noise =
  read_temp_ds18b20 py_float hw w1 (List.length (ds_devices hw) - 1) noise.
Proof.
  intros Hs Hd Hi. unfold read_temp_ds18b20. rewrite Hs.
  destruct (ds_devices hw) as [|d ds] eqn:E; [congruence|].
  cbn [orb]. cbv zeta.
  destruct (Nat.leb_spec (List.length (d :: ds)) index); [|lia].
  destruct (Nat.leb_spec (List.length (d :: ds)) (List.length (d :: ds) - 1));
    [cbn [List.length] in *; lia|].
  reflexivity.
Qed.

(** Every failing read returns the fallback 20 degrees and prints one more
    warning: a run of failing reads prints as many warnings as reads. *)
Theorem every_failing_read_warns (buses : list bus) :
  forall (hw : Hardware) (index : nat),
    sim hw = false -> ds_devices hw <> [] -> last_temp_error hw = false ->
    Forall (fun w1 : bus => forall dev, read_device py_float w1 dev = None) buses ->
    fst (read_many py_float hw index buses) = repeat 20 (List.length buses) /\
    List.length (console (snd (read_many py_float hw index buses))) =
      (List.length (console hw) + List.length buses)%nat.
Proof.
  induction buses as [|w1 rest IH]; intros hw index Hs Hd Hl Hall.
  - cbn. split; [reflexivity | lia].
  - inversion Hall as [|? ? Hw1 Hrest]; subst.
    cbn [read_many].
    pose proof (HardwareFacts.failing_read_returns_20 py_float hw w1 index 0 Hs Hd Hw1) as Hv.
    pose proof (HardwareFacts.failing_read_warns py_float hw w1 index 0 Hs Hd Hl Hw1) as Hc.
    pose proof (HardwareFacts.flag_cleared_after_read py_float hw w1 index 0 Hs Hd) as Hf.
    destruct (read_keeps_setup hw w1 index 0) as (Hs' & Hd' & _).
    destruct (read_temp_ds18b20 py_float hw w1 index 0) as [v hw1].
    cbn [fst snd] in *.
    rewrite <- Hs' in Hs. rewrite <- Hd' in Hd.
    destruct (IH hw1 index Hs Hd Hf Hrest) as [IHv IHc].
    destruct (read_many py_float hw1 index rest) as [vs hw2].
    cbn [fst snd List.length repeat] in *.
    split; [now rewrite Hv, IHv | lia].
Qed.

Lemma after_last_t_cons (c : ascii) (rest : string) :
  after_last_t (String c rest) =
  match after_last_t rest with
  | Some r => Some r
  | None =>
      if String.prefix "t=" (String c rest)
      then match rest with String _ r => Some r | EmptyString => None end
      else None
  end.
Proof. reflexivity. Qed.

Lemma after_last_t_found (pre body : string) :
  after_last_t body = None ->
  after_last_t (String.append pre (String "t" (String "=" body))) = Some body.
Proof.
  intros Hb. induction pre as [|c pre IH].
  - cbn [String.append].
    rewrite after_last_t_cons, (after_last_t_cons "=" body), Hb.
    destruct body; reflexivity.
  - cbn [String.append]. rewrite after_last_t_cons, IH. reflexivity.
Qed.

(** A well-formed packet is read as its number over 1000: when the first
    line says YES and the second ends in ["t="] followed by a text without
    another ["t="], the read returns [float] of that text, stripped, divided
    by 1000, prints nothing and leaves the warning flag cleared. *)
Theorem good_packet_read
    (hw : Hardware) (w1 : bus) (index : nat) (noise : Q)
    (l0 pre body : string) (more : list string) (v : Q) :
  sim hw = false -> ds_devices hw <> [] ->
  (forall dev,
     w1 dev = Some (l0 :: String.append pre (String "t" (String "=" body)) :: more)) ->
  contains "YES" l0 = true ->
  after_last_t body = None ->
  py_float (strip body) = Some v ->
  let r := read_temp_ds18b20 py_float hw w1 index noise in
  fst r = v / 1000 /\
  console (snd r) = console hw /\
  last_temp_error (snd r) = false.
Proof.
  intros Hs Hd Hw Hyes Hb Hf. cbv zeta. unfold read_temp_ds18b20. rewrite Hs.
  destruct (ds_devices hw) as [|d ds] eqn:E; [congruence|].
  cbn [orb]. cbv zeta.
  unfold read_device. rewrite Hw, Hyes. cbn [negb].
  unfold split_t_last. rewrite (after_last_t_found pre body Hb), Hf.
  cbn. auto.
Qed.

End Read.

Import ProbeScenario.

Lemma index_clamped_witness :
  sim one_probe = false /\ ds_devices one_probe <> [] /\
  (List.length (ds_devices one_probe) <= 2)%nat /\
  read_temp_ds18b20 float_21375 one_probe good_crc 2 0 =
  read_temp_ds18b20 float_21375 one_probe good_crc 0 0.
Proof.
  assert (sim one_probe = false) as H1 by reflexivity.
  assert (ds_devices one_probe <> []) as H2 by discriminate.
  assert (List.length (ds_devices one_probe) <= 2)%nat as H3 by (cbn; lia).
  split; [exact H1|]. split; [exact H2|]. split; [exact H3|].
  apply (index_clamped_to_last_probe float_21375 one_probe good_crc 2 0 H1 H2 H3).
Defined.

Lemma every_failing_read_witness :
  sim one_probe = false /\
  fst (read_many float_21375 one_probe 0 [bad_crc; bad_crc; bad_crc]) = [20; 20; 20] /\
  List.length
    (console (snd (read_many float_21375 one_probe 0 [bad_crc; bad_crc; bad_crc])))
  = 3%nat.
Proof.
  assert (sim one_probe = false) as H1 by reflexivity.
  assert (ds_devices one_probe <> []) as H2 by discriminate.
  assert (last_temp_error one_probe = false) as H3 by reflexivity.
  assert (Forall (fun w1 : bus => forall dev, read_device float_21375 w1 dev = None)
                 [bad_crc; bad_crc; bad_crc]) as H4
    by (repeat constructor).
  split; [exact H1|].
  exact (every_failing_read_warns float_21375 [bad_crc; bad_crc; bad_crc]
           one_probe 0 H1 H2 H3 H4).
Defined.

Lemma good_packet_witness :
  sim one_probe = false /\
  contains "YES" "4b 46 7f ff 0c 10 1c : crc=1c YES" = true /\
  float_21375 (strip reading_text) = Some 21375 /\
  fst (read_temp_ds18b20 float_21375 one_probe good_crc 0 0) = 21375 / 1000.
Proof.
  assert (sim one_probe = false) as H1 by reflexivity.
  assert (ds_devices one_probe <> []) as H2 by discriminate.
  assert (contains "YES" "4b 46 7f ff 0c 10 1c : crc=1c YES" = true) as H3
    by reflexivity.
  assert (after_last_t reading_text = None) as H4 by reflexivity.
  assert (float_21375 (strip reading_text) = Some 21375) as H5 by reflexivity.
  split; [exact H1|]. split; [exact H3|]. split; [exact H5|].
  apply (good_packet_read float_21375 one_probe good_crc 0 0
           "4b 46 7f ff 0c 10 1c : crc=1c YES" "4b 46 7f ff 0c 10 1c "
           reading_text [] 21375 H1 H2 (fun _ => eq_refl) H3 H4 H5).
Defined.

End ProbeFacts.

(** ** Relays and stepper drivers *)

Module GpioFacts.

Import Gpio.

Lemma perform_inactive (hw : Actuators) (c : call) :
  inactive hw = true -> perform hw c = hw.
Proof.
  intros H. destruct c; cbn [perform];
    unfold setup_relay, relay_on, relay_off, setup_stepper, start_stepper,
           stop_stepper, cleanup; rewrite H; reflexivity.
Qed.

Lemma perform_all_inactive (cs : list call) (hw : Actuators) :
  inactive hw = true -> perform_all hw cs = hw.
Proof.
  induction cs as [|c cs IH]; intros H; [reflexivity|].
  cbn. rewrite (perform_inactive hw c H). now apply IH.
Qed.

Lemma attempt_fails (hw : Actuators) (calls : list gpio_op) (f : option nat) :
  sim_gpio hw = false -> in_range f (List.length calls) = true ->
  let hw1 := fst (attempt hw calls f) in
  snd (attempt hw calls f) = false /\
  sim_gpio hw1 = true /\ gpio hw1 = false /\ pwms hw1 = [].
Proof.
  intros Hs Hr. cbv zeta. unfold attempt. destruct f as [k|]; [|discriminate].
  cbn [in_range] in Hr. rewrite Hr. cbn [fst snd].
  unfold gpio_fallback, log. cbn [sim_gpio]. rewrite Hs. cbn. auto.
Qed.

(** A GPIO failure is final: the call during which the library raises
    switches the actuators to the simulator, unbinds the GPIO and forgets
    the stepper drivers, and no later call reaches the GPIO again. *)
Theorem gpio_failure_is_final (hw : Actuators) (c : call) (cs : list call) :
  raises hw c = true ->
  let hw1 := perform hw c in
  sim_gpio hw1 = true /\ gpio hw1 = false /\ pwms hw1 = [] /\
  perform_all hw1 cs = hw1.
Proof.
  intros Hr. unfold raises in Hr. apply andb_prop in Hr as [Ha Hr].
  apply negb_true_iff in Ha.
  assert (sim_gpio hw = false) as Hs.
  { unfold inactive in Ha. destruct (sim hw), (sim_gpio hw); try discriminate.
    reflexivity. }
  assert (let hw1 := perform hw c in
          sim_gpio hw1 = true /\ gpio hw1 = false /\ pwms hw1 = []) as H.
  { cbv zeta. destruct c; cbn [perform];
      unfold setup_relay, relay_on, relay_off, setup_stepper, start_stepper,
             stop_stepper, cleanup; rewrite Ha; try discriminate Hr.
    - apply attempt_fails; [exact Hs | exact Hr].
    - apply attempt_fails; [exact Hs | exact Hr].
    - apply attempt_fails; [exact Hs | exact Hr].
    - match goal with |- context [attempt hw ?l fail_at] =>
        destruct (attempt_fails hw l fail_at Hs Hr) as (E & H1);
        destruct (attempt hw l fail_at) as [hw1 ok] end.
      cbn [fst snd] in *. subst ok. exact H1.
    - destruct (find_pwm (pwms hw) name); [|discriminate].
      apply attempt_fails; [exact Hs | exact Hr].
    - destruct (find_pwm (pwms hw) name) as [[direction pul]|]; [|discriminate].
      apply attempt_fails; [exact Hs | exact Hr]. }
  cbv zeta in *. destruct H as (H1 & H2 & H3).
  repeat split; try assumption.
  apply perform_all_inactive. unfold inactive. rewrite H1.
  now destruct (sim (perform hw c)).
Qed.

Lemma gpio_failure_witness :
  raises fresh (Relay_on 7 (Some 0%nat)) = true /\
  perform_all (perform fresh (Relay_on 7 (Some 0%nat)))
              [Relay_off 7 None; Setup_stepper "F1" 13 26 8000 None] =
  perform fresh (Relay_on 7 (Some 0%nat)).
Proof.
  assert (raises fresh (Relay_on 7 (Some 0%nat)) = true) as H by reflexivity.
  split; [exact H|].
  apply (gpio_failure_is_final fresh (Relay_on 7 (Some 0%nat)) _ H).
Defined.

Lemma Forall_prefix {A : Type} (P : A -> Prop) (k : nat) (l : list A) :
  Forall P l -> Forall P (firstn k l).
Proof.
  revert l. induction k as [|k IH]; intros l H; [constructor|].
  destruct l as [|x l]; [constructor|].
  inversion H; subst. cbn. constructor; auto.
Qed.

Lemma freq_ok_log (hw : Actuators) (l : list gpio_op) :
  Forall freq_ok (ops hw) -> Forall freq_ok l -> Forall freq_ok (ops (log hw l)).
Proof. intros H1 H2. cbn. apply Forall_app. now split. Qed.

Lemma freq_ok_attempt (hw : Actuators) (l : list gpio_op) (f : option nat) :
  Forall freq_ok (ops hw) -> Forall freq_ok l ->
  Forall freq_ok (ops (fst (attempt hw l f))).
Proof.
  intros H1 H2. unfold attempt.
  assert (forall k, Forall freq_ok (firstn k l)) as Hk
    by (intros k; now apply Forall_prefix).
  destruct f as [k|]; [destruct (k <? List.length l)%nat|]; cbn [fst].
  - unfold gpio_fallback.
    destruct (sim_gpio (log hw (firstn k l))); cbn [ops];
      apply Forall_app; split; auto.
  - now apply freq_ok_log.
  - now apply freq_ok_log.
Qed.

Lemma freq_ok_max (x : Q) (name : string) (pin : nat) :
  freq_ok (Pwm_new pin (Z.max 1 (py_trunc x))) /\
  freq_ok (Change_frequency name (Z.max 1 (py_trunc x))).
Proof. unfold freq_ok. cbn. split; lia. Qed.

Lemma freq_ok_perform (hw : Actuators) (c : call) :
  Forall freq_ok (ops hw) -> Forall freq_ok (ops (perform hw c)).
Proof.
  intros H. destruct c; cbn [perform];
    unfold setup_relay, relay_on, relay_off, setup_stepper, start_stepper,
           stop_stepper, cleanup;
    destruct (inactive hw); try exact H.
  - apply freq_ok_attempt; [exact H|]. repeat constructor.
  - apply freq_ok_attempt; [exact H|]. repeat constructor.
  - apply freq_ok_attempt; [exact H|]. repeat constructor.
  - match goal with |- context [attempt hw ?l fail_at] =>
      pose proof (freq_ok_attempt hw l fail_at H) as Ha;
      destruct (attempt hw l fail_at) as [hw1 ok] end.
    cbn [fst] in Ha.
    assert (Forall freq_ok (ops hw1)) as Hops.
    { apply Ha. repeat constructor. apply (freq_ok_max freq name pul). }
    destruct ok; exact Hops.
  - destruct (find_pwm (pwms hw) name); [|exact H].
    apply freq_ok_attempt; [exact H|]. repeat constructor.
    apply (freq_ok_max freq name 0).
  - destruct (find_pwm (pwms hw) name) as [[direction pul]|]; [|exact H].
    apply freq_ok_attempt; [exact H|]. repeat constructor.
  - destruct fails; [exact H|]. apply freq_ok_log; [exact H|]. repeat constructor.
Qed.

(** Whatever frequency the callers ask for, zero and negative ones
    included, every PWM call that reaches the library programs at least
    1 Hz. *)
Theorem pwm_frequency_at_least_one (cs : list call) (hw : Actuators) :
  Forall freq_ok (ops hw) -> Forall freq_ok (ops (perform_all hw cs)).
Proof.
  revert hw. induction cs as [|c cs IH]; intros hw H; [exact H|].
  cbn. apply IH. now apply freq_ok_perform.
Qed.

Lemma pwm_frequency_witness :
  Forall freq_ok (ops fresh) /\
  Forall freq_ok
    (ops (perform_all fresh [Setup_stepper "F1" 13 26 0 None;
                             Start_stepper "F1" (-5) None])).
Proof.
  assert (Forall freq_ok (ops fresh)) as H by constructor.
  split; [exact H|].
  apply (pwm_frequency_at_least_one _ fresh H).
Defined.

End GpioFacts.

(** ** Thermal controller and panel commands, continued *)

Module PanelFacts.

Import Clock Calendar Panel PanelMore.

Lemma thermal_view_eq (q r : Panel) :
  thermal_view q = thermal_view r ->
  sp q = sp r /\ band q = band r /\ manual_mode q = manual_mode r /\
  cold_in q = cold_in r /\ hot_in q = hot_in r /\
  relay_cold q = relay_cold r /\ relay_hot q = relay_hot r.
Proof. unfold thermal_view. intros H. inversion H. auto 10. Qed.

Lemma thermal_view_apply_nutricion_state (p : Panel) (b : bool) :
  thermal_view (apply_nutricion_state p b) = thermal_view p.
Proof.
  unfold apply_nutricion_state.
  destruct (b && negb (nut_led_on p)); [reflexivity|].
  destruct (negb b && nut_led_on p); reflexivity.
Qed.

Lemma thermal_view_fire_block (p : Panel) (tnow : Q) :
  thermal_view (fire_block p tnow) = thermal_view p.
Proof.
  unfold fire_block. destruct (new_minute p tnow); [|reflexivity].
  destruct (nut_fire_for_minute _ _); [reflexivity|].
  destruct (Qlt_bool _ _); reflexivity.
Qed.

Lemma thermal_view_dosing_block (p : Panel) (tnow : Q) :
  thermal_view (dosing_block p tnow) = thermal_view p.
Proof.
  unfold dosing_block. destruct (schedule_active p tnow);
    now rewrite thermal_view_apply_nutricion_state.
Qed.

(** The state the hysteresis step of a tick starts from. *)
Lemma before_thermal (p : Panel) (tnow t_in : Q) :
  let q := set_t (dosing_block (fire_block (sp_block p tnow) tnow) tnow) t_in in
  t q = t_in /\ thermal_view q = thermal_view (sp_block p tnow).
Proof.
  cbv zeta. split; [reflexivity|].
  change (thermal_view (set_t ?x t_in)) with (thermal_view x).
  now rewrite thermal_view_dosing_block, thermal_view_fire_block.
Qed.

Lemma apply_relays_calls (p : Panel) :
  apply_relays p =
  hw_do (hw_do p (relay_call (cold_in p) (relay_cold p)))
        (relay_call (hot_in p) (relay_hot p)).
Proof.
  unfold apply_relays, relay_call.
  destruct (cold_in p) eqn:Ec; cbn [hot_in hw_do relay_hot];
    destruct (hot_in p); reflexivity.
Qed.


Lemma thermal_view_sp_block (p : Panel) (tnow : Q) :
  band (sp_block p tnow) = band p /\
  manual_mode (sp_block p tnow) = manual_mode p /\
  cold_in (sp_block p tnow) = cold_in p /\
  hot_in (sp_block p tnow) = hot_in p /\
  relay_cold (sp_block p tnow) = relay_cold p /\
  relay_hot (sp_block p tnow) = relay_hot p.
Proof.
  unfold sp_block. destruct (negb (manual_mode p)); [|auto 7].
  destruct (sp_from_date_calendar _ _ _); cbn; auto 7.
Qed.



Lemma relay_calls_apply_nutricion_state (p : Panel) (b : bool) :
  filter is_relay (hw_calls (apply_nutricion_state p b)) =
  filter is_relay (hw_calls p).
Proof.
  unfold apply_nutricion_state.
  destruct (b && negb (nut_led_on p)).
  - cbn [hw_calls set_nut_led_on hw_do]. rewrite filter_app. cbn.
    now rewrite app_nil_r.
  - destruct (negb b && nut_led_on p); [|reflexivity].
    cbn [hw_calls set_nut_led_on hw_do]. rewrite filter_app. cbn.
    now rewrite app_nil_r.
Qed.

Lemma relay_calls_fire_block (p : Panel) (tnow : Q) :
  filter is_relay (hw_calls (fire_block p tnow)) = filter is_relay (hw_calls p).
Proof.
  unfold fire_block. destruct (new_minute p tnow); [|reflexivity].
  destruct (nut_fire_for_minute _ _); [reflexivity|].
  destruct (Qlt_bool _ _); [|reflexivity].
  cbn [hw_calls set_last_min hw_do set_nut_running_until].
  rewrite filter_app. cbn. now rewrite app_nil_r.
Qed.

Lemma relay_calls_dosing_block (p : Panel) (tnow : Q) :
  filter is_relay (hw_calls (dosing_block p tnow)) = filter is_relay (hw_calls p).
Proof.
  unfold dosing_block. destruct (schedule_active p tnow);
    now rewrite relay_calls_apply_nutricion_state.
Qed.

(** Under manual override the hysteresis step of a tick does nothing: the
    thermal state is the one before the tick and the calls made are those
    of the dosing steps. *)
Lemma manual_tick_state (p : Panel) (tnow t_in : Q) :
  manual_mode p = true ->
  let p' := update_process p tnow t_in in
  manual_mode p' = true /\ sp p' = sp p /\
  cold_in p' = cold_in p /\ hot_in p' = hot_in p /\
  hw_calls p' = hw_calls (dosing_block (fire_block p tnow) tnow).
Proof.
  intros Hm. cbv zeta. unfold update_process.
  destruct (before_thermal p tnow t_in) as [_ Hv]. cbv zeta in Hv.
  assert (sp_block p tnow = p) as Esp by (unfold sp_block; now rewrite Hm).
  rewrite Esp in *.
  set (q := set_t (dosing_block (fire_block p tnow) tnow) t_in) in *.
  apply thermal_view_eq in Hv as (Hsp & Hband & Hman & Hcold & Hhot & _ & _).
  assert (thermal_block q = q) as Et
    by (unfold thermal_block; rewrite Hman, Hm; reflexivity).
  rewrite Et. repeat split; try congruence.
Qed.

(** Under manual override a tick freezes the thermal controller: the
    setpoint, the cold and hot flags and the override stay as they are and
    no relay is driven. *)
Theorem manual_override_freezes (p : Panel) (tnow t_in : Q) :
  manual_mode p = true ->
  let p' := update_process p tnow t_in in
  manual_mode p' = true /\ sp p' = sp p /\
  cold_in p' = cold_in p /\ hot_in p' = hot_in p /\
  filter is_relay (hw_calls p') = filter is_relay (hw_calls p).
Proof.
  intros Hm. cbv zeta.
  destruct (manual_tick_state p tnow t_in Hm) as (H1 & H2 & H3 & H4 & H5).
  split; [exact H1|]. split; [exact H2|]. split; [exact H3|].
  split; [exact H4|].
  rewrite H5. now rewrite relay_calls_dosing_block, relay_calls_fire_block.
Qed.

Lemma manual_override_witness :
  let p := set_manual_mode (update_process (init 20 7 8) 0 25) true in
  manual_mode p = true /\
  cold_in p = true /\
  cold_in (update_process p 1 10) = true.
Proof.
  cbv zeta.
  set (p := set_manual_mode (update_process (init 20 7 8) 0 25) true).
  assert (manual_mode p = true) as H by reflexivity.
  split; [exact H|]. split; [reflexivity|].
  destruct (manual_override_freezes p 1 10 H) as (_ & _ & Hc & _).
  rewrite Hc. reflexivity.
Defined.

(** In automatic mode every tick ends by driving both relays to the flags
    it decided: the last two calls on the hardware are the cold relay and
    the hot relay, on or off as [cold_in] and [hot_in] are. *)
Theorem relays_follow_flags (p : Panel) (tnow t_in : Q) :
  manual_mode p = false ->
  let p' := update_process p tnow t_in in
  exists earlier,
    hw_calls p' =
    earlier ++ [relay_call (cold_in p') (relay_cold p);
                relay_call (hot_in p') (relay_hot p)].
Proof.
  intros Hm. cbv zeta. unfold update_process.
  destruct (before_thermal p tnow t_in) as [_ Hv]. cbv zeta in Hv.
  set (q := set_t (dosing_block (fire_block (sp_block p tnow) tnow) tnow) t_in) in *.
  destruct (thermal_view_sp_block p tnow) as (_ & Em & _ & _ & Erc & Erh).
  apply thermal_view_eq in Hv as (_ & _ & Hman & _ & _ & Hrc & Hrh).
  unfold thermal_block. rewrite Hman, Em, Hm. cbn [negb]. cbv zeta.
  match goal with |- context [apply_relays ?x] =>
    set (r := x);
    assert (relay_cold r = relay_cold p /\ relay_hot r = relay_hot p) as [Ec Eh]
  end.
  { unfold q in Hrc, Hrh. cbn [relay_cold relay_hot set_t] in Hrc, Hrh.
    unfold r.
    repeat match goal with
    | |- context [if ?c then _ else _] => destruct c
    end; unfold cerrar_todo; rewrite ?apply_relays_calls;
    cbn; rewrite ?Hrc, ?Hrh, ?Erc, ?Erh; auto. }
  rewrite (apply_relays_calls r).
  destruct (ThermalFacts.apply_relays_flags r) as [Fc Fh].
  rewrite apply_relays_calls in Fc, Fh.
  rewrite Fc, Fh, Ec, Eh.
  exists (hw_calls r). cbn [hw_calls hw_do]. now rewrite <- app_assoc.
Qed.

Lemma relays_follow_flags_witness :
  manual_mode (init 20 7 8) = false /\
  exists earlier,
    hw_calls (update_process (init 20 7 8) 0 25) =
    earlier ++ [Relay_on 7; Relay_off 8].
Proof.
  assert (manual_mode (init 20 7 8) = false) as H by reflexivity.
  split; [exact H|].
  destruct (relays_follow_flags (init 20 7 8) 0 25 H) as [earlier E].
  exists earlier. exact E.
Defined.

Lemma thermal_view_apply_relays (p : Panel) :
  thermal_view (apply_relays p) = thermal_view p.
Proof. rewrite apply_relays_calls. reflexivity. Qed.

Lemma apply_relays_hw_calls (p : Panel) :
  hw_calls (apply_relays p) =
  hw_calls p ++ [relay_call (cold_in p) (relay_cold p);
                 relay_call (hot_in p) (relay_hot p)].
Proof.
  rewrite apply_relays_calls. cbn [hw_calls hw_do].
  now rewrite <- app_assoc.
Qed.

Lemma cerrar_todo_flags (p : Panel) :
  manual_mode (cerrar_todo p) = manual_mode p /\
  cold_in (cerrar_todo p) = false /\ hot_in (cerrar_todo p) = false.
Proof.
  unfold cerrar_todo.
  destruct (thermal_view_eq _ _
              (thermal_view_apply_relays (set_hot_in (set_cold_in p false) false)))
    as (_ & _ & Em & Ec & Eh & _).
  split; [exact Em|]. split; [exact Ec | exact Eh].
Qed.

Lemma stop_all_flags (p : Panel) :
  manual_mode (stop_all p) = true /\
  cold_in (stop_all p) = false /\ hot_in (stop_all p) = false /\
  relay_cold (stop_all p) = relay_cold p /\ relay_hot (stop_all p) = relay_hot p.
Proof.
  unfold stop_all.
  match goal with |- context [apply_relays ?z] =>
    destruct (thermal_view_eq _ _ (thermal_view_apply_relays z))
      as (_ & _ & Em & Ec & Eh & Erc & Erh)
  end.
  match goal with |- context [apply_nutricion_state ?y ?b] =>
    destruct (thermal_view_eq _ _ (thermal_view_apply_nutricion_state y b))
      as (_ & _ & Fm & Fc & Fh & Frc & Frh)
  end.
  split; [exact (eq_trans Em Fm)|].
  split; [exact (eq_trans Ec Fc)|].
  split; [exact (eq_trans Eh Fh)|].
  split; [exact (eq_trans Erc Frc) | exact (eq_trans Erh Frh)].
Qed.

Lemma toggle_flags (p : Panel) (tnow : Q) :
  manual_mode (toggle_manual_nut p tnow) = manual_mode p /\
  cold_in (toggle_manual_nut p tnow) = cold_in p /\
  hot_in (toggle_manual_nut p tnow) = hot_in p.
Proof.
  unfold toggle_manual_nut.
  match goal with |- context [apply_nutricion_state ?y ?b] =>
    destruct (thermal_view_eq _ _ (thermal_view_apply_nutricion_state y b))
      as (_ & _ & Fm & Fc & Fh & _)
  end.
  split; [exact Fm|]. split; [exact Fc | exact Fh].
Qed.

Lemma thermal_view_step_keeps (p : Panel) (c : command) :
  keeps_override c = true -> manual_mode p = true ->
  cold_in p = false -> hot_in p = false ->
  manual_mode (step p c) = true /\ cold_in (step p c) = false /\
  hot_in (step p c) = false.
Proof.
  intros Hk Hm Hc Hh. destruct c; try discriminate Hk; cbn [step].
  - destruct (manual_tick_state p tnow t_in Hm) as (H1 & _ & H2 & H3 & _).
    rewrite H2, H3. auto.
  - split; [exact Hm|]. split; [exact Hc | exact Hh].
  - split; [exact Hm|]. split; [exact Hc | exact Hh].
  - split; [exact Hm|]. split; [exact Hc | exact Hh].
  - split; [exact Hm|]. split; [exact Hc | exact Hh].
  - split; [exact Hm|]. split; [exact Hc | exact Hh].
  - destruct (cerrar_todo_flags p) as (E1 & E2 & E3).
    split; [now rewrite E1|]. split; [exact E2 | exact E3].
  - destruct (stop_all_flags p) as (E1 & E2 & E3 & _).
    split; [exact E1|]. split; [exact E2 | exact E3].
  - destruct (toggle_flags p tnow) as (E1 & E2 & E3).
    split; [now rewrite E1|]. split; [now rewrite E2 | now rewrite E3].
Qed.

Lemma stopped_run (cs : list command) (p : Panel) :
  Forall (fun c => keeps_override c = true) cs ->
  manual_mode p = true -> cold_in p = false -> hot_in p = false ->
  manual_mode (run p cs) = true /\ cold_in (run p cs) = false /\
  hot_in (run p cs) = false.
Proof.
  revert p. induction cs as [|c cs IH]; intros p Hk Hm Hc Hh; [cbn; auto|].
  inversion Hk as [|? ? Hkc Hkcs]; subst.
  destruct (thermal_view_step_keeps p c Hkc Hm Hc Hh) as (H1 & H2 & H3).
  cbn. now apply IH.
Qed.

(** [stop_all] holds: it switches the override on, drops both actuator
    flags, closes the dosing window, switches manual dosing and the pump
    indicator off and ends by driving both relays off; afterwards ticks and
    every command other than a mode switch or a forcing leave the override
    on and both actuators off. *)
Theorem stop_all_holds (p : Panel) (cs : list command) :
  Forall (fun c => keeps_override c = true) cs ->
  let p0 := stop_all p in
  let p' := run p0 cs in
  (nut_running_until p0 = None /\ manual_nut_on p0 = false /\
   nut_led_on p0 = false /\
   exists earlier,
     hw_calls p0 = earlier ++ [Relay_off (relay_cold p); Relay_off (relay_hot p)]) /\
  manual_mode p' = true /\ cold_in p' = false /\ hot_in p' = false.
Proof.
  intros Hk. cbv zeta.
  destruct (stop_all_flags p) as (Hm & Hc & Hh & _).
  split; [|now apply stopped_run].
  unfold stop_all.
  match goal with |- context [apply_relays ?z] => set (r := z) end.
  pose proof (eq_trans (DosingFacts.view_apply_relays r)
                       (DosingFacts.view_apply_nutricion_state _ _)) as Hv.
  destruct (thermal_view_eq _ _ (thermal_view_apply_nutricion_state
              (set_manual_nut_on
                 (set_nut_running_until
                    (set_hot_in (set_cold_in (set_manual_mode p true) false) false)
                    None) false) false))
    as (_ & _ & _ & Fc & Fh & Frc & Frh).
  fold r in Fc, Fh, Frc, Frh.
  split; [exact (f_equal v_until Hv)|].
  split; [exact (f_equal v_manual Hv)|].
  split; [exact (f_equal v_led Hv)|].
  exists (hw_calls r). rewrite apply_relays_hw_calls.
  rewrite Fc, Fh, Frc, Frh. reflexivity.
Qed.

Lemma stop_all_holds_witness :
  Forall (fun c => keeps_override c = true) [Tick 0 35; Tick 1 5] /\
  cold_in (run (stop_all (update_process (init 20 7 8) 0 25)) [Tick 0 35; Tick 1 5])
  = false.
Proof.
  assert (Forall (fun c => keeps_override c = true) [Tick 0 35; Tick 1 5]) as H
    by (repeat constructor).
  split; [exact H|].
  destruct (stop_all_holds (update_process (init 20 7 8) 0 25) _ H)
    as (_ & _ & Hc & _).
  exact Hc.
Defined.

Lemma one_request (p : Panel) (b : bool) :
  let p' := apply_nutricion_state p b in
  nut_led_on p' = b /\
  (starts p' + stops p + (if nut_led_on p then 1 else 0) =
   starts p + stops p' + (if b then 1 else 0))%nat.
Proof.
  cbv zeta. unfold apply_nutricion_state, starts, stops.
  destruct b, (nut_led_on p); cbn [andb negb hw_calls set_nut_led_on hw_do nut_led_on];
    rewrite ?filter_app, ?length_app; cbn; split; try reflexivity; lia.
Qed.

(** The pump driver is driven on edges only: over any run of requests, the
    starts asked of it exceed the stops by one exactly when the pump
    indicator went from off to on, and fall short by one when it went from
    on to off; a request for the state the pump is already in asks
    nothing. *)
Theorem pump_calls_balance (requests : list bool) (p : Panel) :
  let p' := request_all p requests in
  (starts p' + stops p + (if nut_led_on p then 1 else 0) =
   starts p + stops p' + (if nut_led_on p' then 1 else 0))%nat.
Proof.
  revert p. induction requests as [|b rest IH]; intros p; cbv zeta.
  - cbn. lia.
  - cbn [request_all fold_left].
    destruct (one_request p b) as [Hl Hb]. cbv zeta in Hl, Hb.
    specialize (IH (apply_nutricion_state p b)). cbv zeta in IH.
    unfold request_all in IH. rewrite Hl in IH. lia.
Qed.

(** After every tick the pump indicator is on exactly when a dosing window
    is open or manual dosing is on, and an open window ends after the time
    of the tick. *)
Theorem pump_follows_window (p : Panel) (tnow t_in : Q) :
  let p' := update_process p tnow t_in in
  nut_led_on p' =
    (match nut_running_until p' with Some _ => true | None => false end
     || manual_nut_on p') /\
  (forall u, nut_running_until p' = Some u -> tnow < u).
Proof.
  cbv zeta.
  pose proof (DosingFacts.view_update_process p tnow t_in) as Hv.
  pose proof (f_equal v_until Hv) as Hu.
  pose proof (f_equal v_led Hv) as Hl.
  pose proof (f_equal v_manual Hv) as Hm.
  cbn [v_until v_led v_manual view] in Hu, Hl, Hm.
  rewrite Hu, Hl, Hm.
  unfold active_after_fire.
  destruct (window_after_fire p tnow) as [w|] eqn:Ew.
  - destruct (Qlt_bool tnow w) eqn:E.
    + split; [reflexivity|]. intros u Hsome. injection Hsome as <-.
      now apply Qlt_bool_iff.
    + split; [reflexivity|]. discriminate.
  - split; [reflexivity|]. discriminate.
Qed.

Lemma clamp_monotone (lo hi x y : Q) :
  x <= y -> Qmax lo (Qmin hi x) <= Qmax lo (Qmin hi y).
Proof.
  intros H.
  apply Q.max_le_compat_l. now apply Q.min_le_compat_l.
Qed.

(** The simulated temperature stays between -5 and 40 degrees after every
    step that takes time, whatever the setpoint, the ambient, the noise and
    the length of the step. *)
Theorem simulated_temperature_bounded (p : Panel) (sim_ambient dt ruido : Q) :
  0 < dt ->
  -5 <= t (simulate_temp p sim_ambient dt ruido) <= 40.
Proof.
  intros Hd. unfold simulate_temp.
  destruct (Qle_bool dt 0) eqn:E.
  { apply Qle_bool_iff in E. exfalso. lra. }
  cbv zeta. cbn [t set_t].
  destruct (FlowFacts.clamp_between (-5) 40
              (t p + ((sim_ambient - t p) * (8 # 10000) +
                      (Qmax (sp p) (sim_ambient + 4) - t p) * (18 # 1000) +
                      (if hot_in p then 22 # 100 else 0) +
                      (if cold_in p then - (28 # 100) else 0) + ruido) * dt)
              ltac:(lra)) as [H _].
  exact H.
Qed.

Lemma simulated_temperature_witness :
  0 < 1 /\ -5 <= t (simulate_temp (init 20 7 8) 21 1 0) <= 40.
Proof.
  assert (0 < 1) as H by reflexivity.
  split; [exact H|].
  apply (simulated_temperature_bounded (init 20 7 8) 21 1 0 H).
Defined.

(** Cooling cools and heating heats in the simulator: with everything else
    equal, a step with the cold actuator on never ends warmer than the same
    step with it off, and a step with the hot actuator on never ends colder
    than the same step with it off. *)
Theorem simulated_actuators_push (p : Panel) (sim_ambient dt ruido : Q) :
  0 < dt ->
  t (simulate_temp (set_cold_in p true) sim_ambient dt ruido) <=
  t (simulate_temp (set_cold_in p false) sim_ambient dt ruido) /\
  t (simulate_temp (set_hot_in p false) sim_ambient dt ruido) <=
  t (simulate_temp (set_hot_in p true) sim_ambient dt ruido).
Proof.
  intros Hd. unfold simulate_temp.
  destruct (Qle_bool dt 0) eqn:E.
  { apply Qle_bool_iff in E. exfalso. lra. }
  cbv zeta. cbn [t sp hot_in cold_in set_t set_cold_in set_hot_in].
  split; apply clamp_monotone; destruct (hot_in p), (cold_in p); nra.
Qed.

Lemma simulated_actuators_witness :
  0 < 1 /\
  t (simulate_temp (set_cold_in (init 20 7 8) true) 21 1 0) <=
  t (simulate_temp (set_cold_in (init 20 7 8) false) 21 1 0).
Proof.
  assert (0 < 1) as H by reflexivity.
  split; [exact H|].
  apply (simulated_actuators_push (init 20 7 8) 21 1 0 H).
Defined.

End PanelFacts.

(** ** Calendar look-ups, edits and imports, continued *)

Module EditorFacts.

Import Clock Calendar Editor.

Lemma hhmm_table :
  forallb (fun h =>
    forallb (fun m =>
      hhmm_ok (hhmm h m) &&
      match minutes_of (hhmm h m) with
      | Some k => Nat.eqb k (60 * h + m)
      | None => false
      end) (seq 0 60)) (seq 0 24) = true.
Proof. vm_compute. reflexivity. Qed.

Lemma hhmm_canonical (h m : nat) :
  (h < 24)%nat -> (m < 60)%nat ->
  hhmm_ok (hhmm h m) = true /\ minutes_of (hhmm h m) = Some (60 * h + m)%nat.
Proof.
  intros Hh Hm. pose proof hhmm_table as T.
  rewrite forallb_forall in T.
  specialize (T h ltac:(apply in_seq; lia)).
  rewrite forallb_forall in T.
  specialize (T m ltac:(apply in_seq; lia)).
  apply andb_prop in T as [T1 T2]. split; [exact T1|].
  destruct (minutes_of (hhmm h m)) as [k|]; [|discriminate].
  apply Nat.eqb_eq in T2. now subst.
Qed.

(** Every text the clock prints for a time of day passes [hhmm_ok] and is a
    zero-padded ["HH:MM"] that stands for the minute of the day of that
    time. *)
Theorem clock_text_is_valid (t : Q) :
  hhmm_ok (strftime_HM t) = true /\
  minutes_of (strftime_HM t) = Some (minute_of_day t).
Proof.
  unfold strftime_HM.
  pose proof (CalendarFacts.minute_of_day_bound t) as Hb.
  pose proof (Nat.div_mod_eq (minute_of_day t) 60) as Hd.
  pose proof (Nat.mod_upper_bound (minute_of_day t) 60 ltac:(lia)) as Hu.
  assert (minute_of_day t / 60 < 24)%nat as Hq
    by (apply Nat.Div0.div_lt_upper_bound; lia).
  destruct (hhmm_canonical _ _ Hq Hu) as [H1 H2].
  split; [exact H1|]. rewrite H2. f_equal. lia.
Qed.

(** The text the clock prints denotes the minute of the day. *)
Lemma minutes_of_strftime_HM (t : Q) :
  minutes_of (strftime_HM t) = Some (minute_of_day t).
Proof.
  unfold strftime_HM.
  pose proof (CalendarFacts.minute_of_day_bound t) as Hb.
  pose proof (Nat.div_mod_eq (minute_of_day t) 60) as Hd.
  pose proof (Nat.mod_upper_bound (minute_of_day t) 60 ltac:(lia)) as Hu.
  assert (minute_of_day t / 60 < 24)%nat as Hq
    by (apply Nat.Div0.div_lt_upper_bound; lia).
  destruct (hhmm_canonical _ _ Hq Hu) as [_ H2].
  rewrite H2. f_equal. lia.
Qed.

Lemma eqb_now (e : event) (t : Q) :
  canonical e ->
  String.eqb (time e) (strftime_HM t) = Nat.eqb (key e) (minute_of_day t).
Proof.
  intros Hc. unfold canonical in Hc. unfold key.
  destruct (minutes_of (time e)) as [m|] eqn:Em; [|congruence].
  pose proof (minutes_of_strftime_HM t) as Hn.
  destruct (String.eqb_spec (time e) (strftime_HM t)) as [E|E].
  - rewrite E in Em. rewrite Hn in Em. injection Em as <-.
    symmetry. apply Nat.eqb_refl.
  - symmetry. apply Nat.eqb_neq. intros ->.
    apply E.
    apply CalendarFacts.minutes_of_inv in Em as (h & mi & Hh & Hm & Es & Ek).
    apply CalendarFacts.minutes_of_inv in Hn as (h' & mi' & Hh' & Hm' & Es' & Ek').
    rewrite Es, Es'. assert (h = h' /\ mi = mi') as [-> ->] by lia.
    reflexivity.
Qed.

(** A dosing event fires in its own minute and in no other: when the events
    of the day have zero-padded times, the durations returned at [t] are, in
    list order, those of the events whose minute of the day is that of
    [t]. *)
Theorem event_fires_in_its_minute (cal : calendar) (t : Q) :
  Forall canonical (dict_get cal (day_number t)) ->
  nut_fire_for_minute cal t =
  map value (filter (fun e => Nat.eqb (key e) (minute_of_day t))
                    (dict_get cal (day_number t))).
Proof.
  intros Hc. unfold nut_fire_for_minute.
  destruct cal as [|c cal]; [reflexivity|].
  destruct (dict_get (c :: cal) (day_number t)) as [|e l] eqn:E; [reflexivity|].
  f_equal. apply filter_ext_in. intros x Hx. apply eqb_now.
  rewrite Forall_forall in Hc. now apply Hc.
Qed.

Lemma event_fires_witness :
  Forall canonical
    (dict_get Scenario.cal_overlap (day_number (Scenario.at_hms 9 1 30))) /\
  nut_fire_for_minute Scenario.cal_overlap (Scenario.at_hms 9 1 30) = [10].
Proof.
  assert (Forall canonical
            (dict_get Scenario.cal_overlap (day_number (Scenario.at_hms 9 1 30))))
    as H by (repeat constructor; discriminate).
  split; [exact H|].
  rewrite (event_fires_in_its_minute _ _ H). reflexivity.
Defined.

Lemma dict_get_append (data : calendar) (k k' : Z) (e : event) :
  dict_get (dict_append data k e) k' =
  if Z.eqb k k' then dict_get data k' ++ [e] else dict_get data k'.
Proof.
  induction data as [|[k0 flist] rest IH]; cbn [dict_append dict_get].
  - destruct (Z.eqb k k'); reflexivity.
  - destruct (Z.eqb_spec k0 k) as [->|Hne]; cbn [dict_get].
    + destruct (Z.eqb_spec k k'); reflexivity.
    + rewrite IH. destruct (Z.eqb_spec k0 k') as [->|Hne'].
      * destruct (Z.eqb_spec k k'); [congruence | reflexivity].
      * reflexivity.
Qed.

Lemma last_item_snoc {A : Type} (l : list A) (x : A) :
  last_item (l ++ [x]) = Some x.
Proof.
  induction l as [|y l IH]; [reflexivity|].
  cbn [app]. destruct (l ++ [x]) eqn:E; [destruct l; discriminate|].
  exact IH.
Qed.

Lemma last_item_app {A : Type} (l1 l2 : list A) :
  l2 <> [] -> last_item (l1 ++ l2) = last_item l2.
Proof.
  intros H. induction l1 as [|y l1 IH]; [reflexivity|].
  cbn [app]. rewrite CalendarFacts.last_item_cons; [exact IH|].
  destruct l1, l2; try discriminate; congruence.
Qed.

Lemma last_item_In {A : Type} (l : list A) (x : A) :
  last_item l = Some x -> In x l.
Proof.
  induction l as [|y l IH]; [discriminate|].
  destruct l as [|z l'].
  - intros H. injection H as ->. now left.
  - intros H. right. apply IH. exact H.
Qed.

Lemma appended_event_in_force
    (cal : calendar) (t : Q) (e : event) (default : option Q) :
  Forall canonical (dict_get cal (day_number t)) ->
  canonical e -> key e = minute_of_day t ->
  sp_from_date_calendar (dict_append cal (day_number t) e) t default =
  Some (value e).
Proof.
  intros Hc He Hk.
  rewrite CalendarFacts.sp_from_date_calendar_unfold.
  rewrite dict_get_append, Z.eqb_refl.
  set (flist := dict_get cal (day_number t)) in *.
  set (f := fun e0 => truthy (time e0) && String.leb (time e0) (strftime_HM t)).
  assert (forall x, canonical x -> f x = (key x <=? minute_of_day t)%nat) as Hf
    by (intros x Hx; now apply CalendarFacts.eligible_canonical).
  rewrite filter_app. cbn [filter].
  rewrite (Hf e He), Hk, Nat.leb_refl.
  set (todays := filter f flist ++ [e]).
  assert (Forall canonical todays) as Hct.
  { unfold todays. apply Forall_app. split; [|now repeat constructor].
    apply Forall_forall. intros x Hx. apply filter_In in Hx as [Hx _].
    rewrite Forall_forall in Hc. now apply Hc. }
  assert (todays <> []) as Hne by (unfold todays; destruct (filter f flist); discriminate).
  destruct (CalendarFacts.last_sorted_spec todays Hct Hne)
    as (b & x & a & El & Elast & Hb & Ha).
  rewrite Elast. f_equal. f_equal.
  assert (last_item todays = Some e) as Hl by apply last_item_snoc.
  assert (forall y, In y todays -> (key y <= key e)%nat) as Hle.
  { intros y Hy. unfold todays in Hy. apply in_app_or in Hy as [Hy|[<-|[]]]; [|lia].
    apply filter_In in Hy as [Hin Hy].
    rewrite Forall_forall in Hc. rewrite (Hf y (Hc y Hin)) in Hy.
    apply Nat.leb_le in Hy. lia. }
  destruct a as [|a0 a'].
  - rewrite El in Hl. rewrite last_item_snoc in Hl. now injection Hl.
  - exfalso.
    assert (In e (a0 :: a')) as Hin.
    { apply last_item_In. rewrite <- Hl, El.
      rewrite last_item_app by discriminate.
      symmetry. apply CalendarFacts.last_item_cons. discriminate. }
    rewrite Forall_forall in Ha. apply Ha in Hin.
    assert (In x todays) as Hx by (rewrite El; apply in_or_app; right; now left).
    apply Hle in Hx. lia.
Qed.

Section Checks.

Variable ok : string -> bool.
Variable value_type : string -> option Q.
Variable normalize_date : string -> option Z.
Variable strip : string -> string.

(** An event added in the editor with its time typed as the clock prints it
    is the one in force at its own time: when the editor accepts the entry
    (date not in the past, time and value valid), the time typed is, once
    stripped, the zero-padded ["HH:MM"] of the minute of [t], and the times
    the day already holds are zero-padded, the look-up at [t] returns the
    new value, whatever events of that same time the day already had. *)
Theorem added_event_in_force
    (data : calendar) (today : Z) (t : Q) (time_text value_text : string)
    (v : Q) (default : option Q) :
  (today <= day_number t)%Z ->
  ok (strip time_text) = true ->
  value_type (strip value_text) = Some v ->
  Forall canonical (dict_get data (day_number t)) ->
  strip time_text = strftime_HM t ->
  sp_from_date_calendar
    (add_event ok value_type strip data today (day_number t) time_text value_text)
    t default = Some v.
Proof.
  intros Hd Hok Hv Hc Ht.
  pose proof (minutes_of_strftime_HM t) as Hm. rewrite <- Ht in Hm.
  unfold add_event.
  destruct (Z.ltb_spec (day_number t) today); [lia|].
  rewrite Hok, Hv. cbn [negb].
  change (Some v) with (Some (value {| time := strip time_text; value := v |})).
  apply appended_event_in_force; [exact Hc | |].
  - unfold canonical. cbn [time]. rewrite Hm. discriminate.
  - unfold key. cbn [time]. now rewrite Hm.
Qed.

Lemma all_events_append (data : calendar) (k : Z) (e x : event) :
  In x (all_events (dict_append data k e)) <-> In x (all_events data) \/ x = e.
Proof.
  unfold all_events.
  induction data as [|[k0 flist] rest IH]; cbn [dict_append flat_map snd].
  - cbn. intuition.
  - destruct (Z.eqb k0 k); cbn [flat_map snd]; rewrite ?in_app_iff.
    + cbn. intuition.
    + rewrite IH. intuition.
Qed.

Lemma valid_append (data : calendar) (k : Z) (e : event) :
  valid ok data -> ok (time e) = true -> valid ok (dict_append data k e).
Proof.
  unfold valid. rewrite !Forall_forall. intros H He x Hx.
  apply all_events_append in Hx as [Hx| ->]; auto.
Qed.

Lemma length_all_events_append (data : calendar) (k : Z) (e : event) :
  List.length (all_events (dict_append data k e)) = S (List.length (all_events data)).
Proof.
  unfold all_events.
  induction data as [|[k0 flist] rest IH]; cbn [dict_append flat_map snd].
  - reflexivity.
  - destruct (Z.eqb k0 k); cbn [flat_map snd]; rewrite ?length_app.
    + cbn. lia.
    + rewrite IH. lia.
Qed.

Lemma valid_import_row (events : calendar) (row : table_row) :
  valid ok events ->
  valid ok (import_row ok value_type normalize_date strip events row) /\
  (List.length (all_events (import_row ok value_type normalize_date strip events row))
   <= S (List.length (all_events events)))%nat.
Proof.
  intros H. unfold import_row. cbv zeta.
  destruct (negb (truthy_opt _) || negb (truthy_opt _)); [split; [exact H | lia]|].
  destruct (py_or (row "date"%string) _) as [date_text|]; [|split; [exact H | lia]].
  destruct (py_or (row "time"%string) _) as [time_text|]; [|split; [exact H | lia]].
  destruct (py_or (row "value"%string) _) as [val_text|]; [|split; [exact H | lia]].
  destruct (normalize_date date_text) as [key|]; [|split; [exact H | lia]].
  destruct (ok (strip time_text)) eqn:Eok; cbn [negb]; [|split; [exact H | lia]].
  destruct (value_type val_text) as [val|]; [|split; [exact H | lia]].
  split; [now apply valid_append|].
  rewrite length_all_events_append. lia.
Qed.

(** No invalid time enters the schedule through the editor: whatever is
    typed, a calendar whose times all pass the check still has only such
    times after [add_event]. *)
Theorem add_event_keeps_valid
    (data : calendar) (today selected : Z) (time_text value_text : string) :
  valid ok data ->
  valid ok (add_event ok value_type strip data today selected time_text value_text).
Proof.
  intros H. unfold add_event.
  destruct (Z.ltb selected today); [exact H|].
  destruct (ok (strip time_text)) eqn:Eok; cbn [negb]; [|exact H].
  destruct (value_type (strip value_text)); [|exact H].
  now apply valid_append.
Qed.

(** An import skips bad rows instead of failing: whatever the rows, every
    imported event has a time that passes the check, and there are at most
    as many events as rows. *)
Theorem import_only_valid (rows : list table_row) :
  let events := events_from_rows ok value_type normalize_date strip rows in
  valid ok events /\
  (List.length (all_events events) <= List.length rows)%nat.
Proof.
  cbv zeta. unfold events_from_rows.
  assert (forall events,
            valid ok events ->
            valid ok (fold_left (import_row ok value_type normalize_date strip)
                                rows events) /\
            (List.length (all_events
               (fold_left (import_row ok value_type normalize_date strip)
                          rows events))
             <= List.length (all_events events) + List.length rows)%nat) as G.
  { induction rows as [|row rest IH]; intros events H.
    - cbn [fold_left List.length]. split; [exact H | lia].
    - cbn [fold_left List.length].
      destruct (valid_import_row events row H) as [H1 H2].
      destruct (IH _ H1) as [H3 H4]. split; [exact H3 | lia]. }
  destruct (G [] ltac:(constructor)) as [G1 G2]. split; [exact G1|].
  cbn in G2. exact G2.
Qed.

End Checks.

Lemma dict_get_del (data : calendar) (k k' : Z) :
  dict_get (dict_del data k) k' = if Z.eqb k k' then [] else dict_get data k'.
Proof.
  unfold dict_del.
  induction data as [|[k0 flist] rest IH]; cbn [filter dict_get fst].
  - destruct (Z.eqb k k'); reflexivity.
  - destruct (Z.eqb_spec k0 k) as [->|Hne]; cbn [negb dict_get].
    + rewrite IH. destruct (Z.eqb_spec k k'); reflexivity.
    + rewrite IH. destruct (Z.eqb_spec k0 k') as [->|Hne'].
      * destruct (Z.eqb_spec k k'); [congruence | reflexivity].
      * reflexivity.
Qed.

(** Clearing a day, once confirmed, leaves that day without setpoint and
    without doses (the look-up returns the default, nothing fires) and
    leaves the events of every other day as they were. *)
Theorem cleared_day_is_empty (data : calendar) (t : Q) (default : option Q) :
  let data' := clear_day data (day_number t) true in
  sp_from_date_calendar data' t default = default /\
  nut_fire_for_minute data' t = [] /\
  (forall other, other <> day_number t -> dict_get data' other = dict_get data other).
Proof.
  cbv zeta.
  assert (dict_get (clear_day data (day_number t) true) (day_number t) = []) as E.
  { unfold clear_day. destruct (dict_get data (day_number t)) eqn:Eg; [exact Eg|].
    now rewrite dict_get_del, Z.eqb_refl. }
  split; [now apply CalendarFacts.day_events_nil|].
  split.
  - unfold nut_fire_for_minute.
    destruct (clear_day data (day_number t) true); [reflexivity|].
    now rewrite E.
  - intros other Hne. unfold clear_day.
    destruct (dict_get data (day_number t)); [reflexivity|].
    rewrite dict_get_del. destruct (Z.eqb_spec (day_number t) other); congruence.
Qed.

Lemma added_event_witness :
  sp_from_date_calendar
    (add_event hhmm_ok value_22_5 Hardware.strip Scenario.cal_two_events
               Scenario.day_D (day_number (Scenario.at_hms 14 0 0))
               " 14:00 " " 22.5")
    (Scenario.at_hms 14 0 0) None = Some (45 # 2).
Proof.
  apply (added_event_in_force hhmm_ok value_22_5 Hardware.strip).
  - vm_compute. discriminate.
  - reflexivity.
  - reflexivity.
  - repeat constructor; discriminate.
  - reflexivity.
Defined.

(** An import of a good row and of a row whose hour is out of range. *)
Example import_skips_bad_row :
  events_from_rows hhmm_ok value_22_5 date_D Hardware.strip
                   [good_row; bad_time_row] =
  [(Scenario.day_D, [ {| time := "14:00"; value := 45 # 2 |} ])].
Proof. reflexivity. Qed.

Lemma add_event_keeps_valid_witness :
  valid hhmm_ok Scenario.cal_two_events /\
  valid hhmm_ok
    (add_event hhmm_ok value_22_5 Hardware.strip Scenario.cal_two_events
               Scenario.day_D Scenario.day_D "25:00" "22.5").
Proof.
  assert (valid hhmm_ok Scenario.cal_two_events) as H by (repeat constructor).
  split; [exact H|].
  apply (add_event_keeps_valid hhmm_ok value_22_5 Hardware.strip _ _ _ _ _ H).
Defined.

End EditorFacts.

(** ** CSV sinks, continued *)

Module SinkFacts.

Import Logger.

Section Sinks.

Variable can_open : string -> bool.

Lemma append_same (d : disk) (path : string) (rows : list row) :
  append d path rows path =
  Some (match d path with Some old => old | None => [] end ++ rows).
Proof. unfold append. now rewrite String.eqb_refl. Qed.

Lemma append_other (d : disk) (path q : string) (rows : list row) :
  q <> path -> append d path rows q = d q.
Proof.
  intros H. unfold append. destruct (String.eqb_spec q path); congruence.
Qed.

(** What a write changes: nothing when the file cannot be opened, else the
    rows added at the end of that one file. *)
Lemma write_spec (d : disk) (path : string) (header : bool)
    (fieldnames data : row) (q : string) :
  write can_open d path header fieldnames data q =
  if can_open path && String.eqb q path
  then Some (match d path with Some old => old | None => [] end ++
             (if header then [fieldnames] else []) ++ [data])
  else d q.
Proof.
  unfold write. destruct (can_open path); [|reflexivity]. cbn [andb].
  destruct (String.eqb_spec q path) as [->|H].
  - apply append_same.
  - now apply append_other.
Qed.

(** The first append to a file that does not exist writes the header and
    the row, the second only its row: after two rows the panel log, the
    shared backup and the CO2 log each hold the header followed by the two
    rows. *)
Theorem header_written_once
    (d : disk) (ipath bpath cpath : string) (r1 r2 c1 c2 : row) :
  can_open ipath = true -> can_open bpath = true -> can_open cpath = true ->
  ipath <> bpath ->
  d ipath = None -> d bpath = None -> d cpath = None ->
  let d2 := csv_write_row can_open
              (csv_write_row can_open d true ipath bpath r1)
              true ipath bpath r2 in
  let d3 := co2_csv_write_row can_open
              (co2_csv_write_row can_open d true cpath c1) true cpath c2 in
  d2 ipath = Some [backup_fields; r1; r2] /\
  d2 bpath = Some [backup_fields; r1; r2] /\
  d3 cpath = Some [co2_fields; c1; c2].
Proof.
  intros Hi Hb Hc Hne Di Db Dc. cbv zeta.
  assert (String.eqb ipath bpath = false) as E1
    by (destruct (String.eqb_spec ipath bpath); congruence).
  assert (String.eqb bpath ipath = false) as E2
    by (destruct (String.eqb_spec bpath ipath); congruence).
  unfold csv_write_row, csv_write_backup, csv_write_instrument,
         co2_csv_write_row, exists_, empty.
  cbn [negb].
  repeat (rewrite ?write_spec, ?Hi, ?Hb, ?Hc, ?Di, ?Db, ?Dc, ?E1, ?E2,
                  ?String.eqb_refl; cbn [andb negb orb app]).
  repeat split; reflexivity.
Qed.

(** The logs are append-only: whatever a tick writes, whether the files can
    be opened or not, the rows a file already had stay at its head
    unchanged, and files other than the instrument file and the backup are
    not touched. *)
Theorem rows_are_never_lost
    (d : disk) (csv_running : bool) (ipath bpath : string) (data : row)
    (q : string) :
  let d' := csv_write_row can_open d csv_running ipath bpath data in
  (forall old, d q = Some old -> exists added, d' q = Some (old ++ added)) /\
  (q <> ipath -> q <> bpath -> d' q = d q).
Proof.
  cbv zeta. unfold csv_write_row, csv_write_backup, csv_write_instrument.
  set (d1 := if csv_running
             then write can_open d ipath (negb (exists_ d ipath)) backup_fields data
             else d).
  assert (forall old, d q = Some old -> exists added, d1 q = Some (old ++ added)) as H1.
  { intros old Hq. unfold d1. destruct csv_running.
    - rewrite write_spec.
      destruct (can_open ipath && String.eqb q ipath) eqn:E.
      + apply andb_prop in E as [_ E]. apply String.eqb_eq in E. subst q.
        rewrite Hq. eexists. reflexivity.
      + exists []. now rewrite app_nil_r.
    - exists []. now rewrite app_nil_r. }
  assert (q <> ipath -> d1 q = d q) as H1'.
  { intros Hne. unfold d1. destruct csv_running; [|reflexivity].
    rewrite write_spec. destruct (String.eqb_spec q ipath); [congruence|].
    now rewrite andb_false_r. }
  split.
  - intros old Hq. destruct (H1 old Hq) as [added1 Hd1].
    rewrite write_spec.
    destruct (can_open bpath && String.eqb q bpath) eqn:E.
    + apply andb_prop in E as [_ E]. apply String.eqb_eq in E. subst q.
      rewrite Hd1. eexists. rewrite <- app_assoc. reflexivity.
    + exists added1. exact Hd1.
  - intros Hi Hb. rewrite write_spec.
    destruct (String.eqb_spec q bpath); [congruence|].
    rewrite andb_false_r. now apply H1'.
Qed.

(** The shared backup is written on every tick, whether the instrument log
    is running or paused; a paused instrument log is left as it is. *)
Theorem backup_written_when_paused
    (d : disk) (ipath bpath : string) (data : row) :
  can_open bpath = true -> ipath <> bpath ->
  let d' := csv_write_row can_open d false ipath bpath data in
  d' ipath = d ipath /\
  exists earlier, d' bpath = Some (earlier ++ [data]).
Proof.
  intros Hb Hne. cbv zeta.
  unfold csv_write_row, csv_write_backup, csv_write_instrument.
  rewrite !write_spec, Hb, String.eqb_refl. cbn [andb].
  destruct (String.eqb_spec ipath bpath); [congruence|].
  split; [reflexivity|].
  eexists. rewrite app_assoc. reflexivity.
Qed.

End Sinks.

Lemma header_written_once_witness :
  let can_open := fun _ : string => true in
  let d2 := csv_write_row can_open
              (csv_write_row can_open no_files true "F1.csv"%string
                             "backup.csv"%string ["a"%string])
              true "F1.csv"%string "backup.csv"%string ["b"%string] in
  (d2 "F1.csv"%string = Some [backup_fields; ["a"%string]; ["b"%string]]) /\
  (d2 "backup.csv"%string = Some [backup_fields; ["a"%string]; ["b"%string]]).
Proof.
  cbv zeta.
  destruct (header_written_once (fun _ => true) no_files
              "F1.csv"%string "backup.csv"%string "F1_co2.csv"%string
              ["a"%string] ["b"%string] ["c"%string] ["d"%string]
              eq_refl eq_refl eq_refl ltac:(discriminate) eq_refl eq_refl eq_refl)
    as (H1 & H2 & _).
  split; [exact H1 | exact H2].
Defined.

Lemma backup_written_witness :
  let d' := csv_write_row (fun _ => true) no_files false "F1.csv"%string
                          "backup.csv"%string ["a"%string] in
  d' "F1.csv"%string = None /\
  exists earlier, d' "backup.csv"%string = Some (earlier ++ [["a"%string]]).
Proof.
  cbv zeta.
  apply (backup_written_when_paused (fun _ => true) no_files
           "F1.csv"%string "backup.csv"%string ["a"%string]
           eq_refl ltac:(discriminate)).
Defined.

End SinkFacts.
